(** * Logbook conversion engine: night time, landings and crew time

    A shallow embedding of the per-row engine of the logbook converter
    ([format.py], the FAA variant, and [format_logbook_aero.py], the
    logbook.aero variant): airport lookup, time parsing, the memoised
    timezone-difference and sunrise/sunset lookups, the night-time
    estimator, the landing/takeoff classifier, the Operating-Experience
    loader and the crew-time apportioner; of the row loop of the web
    application ([app.py]), which has its own time parser and its own
    sampling loop; and of the box test of [find_error_flights.py].

    Modelling conventions.
    - A Python [float] is a [pyfloat]: a finite value carried as an exact
      rational, an infinity, or NaN.  Comparisons follow IEEE 754 (every
      comparison with NaN is false).  On hours the engine multiplies by 1.0,
      0.5 or 0.0, divides minutes by 60 and rounds to decimal places; the
      rational model computes these exactly, as it does the interpolation of
      coordinates, where a float would round to the nearest representable
      value.  Signed zeros are not distinguished.  The same holds for the
      fraction [i / segments] of the web application, its product with a
      [timedelta] and the quotient that [int] truncates.
    - A [datetime] is a number of microseconds since the epoch, in UTC.
    - A raised exception is a value [Raise e] of the result type [res];
      [try ... except] is [try_except].
    - Library code that the repository calls but does not contain
      (airportsdata, astral, pytz, [datetime.strptime], [float()], [int()],
      [str()] of a number) is a field of the record [env]. *)

From Stdlib Require Import ZArith QArith Qround Qabs Qminmax Lqa Lia.
From Stdlib Require Import String Ascii List Bool DecimalString.
From Equations Require Import Equations.
From stdpp Require Import gmap strings.
Import ListNotations.
Open Scope Z_scope.

(** ** Python floats *)

Inductive pyfloat : Type :=
| Fin (q : Q)
| Inf (neg : bool)
| NaN.

Definition Qltb (x y : Q) : bool := negb (Qle_bool y x).

(** [a < b] on floats. *)
Definition f_lt (a b : pyfloat) : bool :=
  match a, b with
  | Fin x, Fin y => Qltb x y
  | Fin _, Inf neg => negb neg
  | Inf neg, Fin _ => neg
  | Inf n1, Inf n2 => n1 && negb n2
  | _, _ => false
  end.

(** [a == b] on floats. *)
Definition f_eq (a b : pyfloat) : bool :=
  match a, b with
  | Fin x, Fin y => Qeq_bool x y
  | Inf n1, Inf n2 => Bool.eqb n1 n2
  | _, _ => false
  end.

(** [a <= b] on floats. *)
Definition f_le (a b : pyfloat) : bool := f_lt a b || f_eq a b.

Definition f_gt (a b : pyfloat) : bool := f_lt b a.
Definition f_ge (a b : pyfloat) : bool := f_le b a.

Definition f_neg (a : pyfloat) : pyfloat :=
  match a with
  | Fin x => Fin (- x)
  | Inf n => Inf (negb n)
  | NaN => NaN
  end.

Definition f_add (a b : pyfloat) : pyfloat :=
  match a, b with
  | Fin x, Fin y => Fin (x + y)
  | Fin _, Inf n | Inf n, Fin _ => Inf n
  | Inf n1, Inf n2 => if Bool.eqb n1 n2 then Inf n1 else NaN
  | _, _ => NaN
  end.

Definition f_sub (a b : pyfloat) : pyfloat := f_add a (f_neg b).

Definition f_mul (a b : pyfloat) : pyfloat :=
  match a, b with
  | Fin x, Fin y => Fin (x * y)
  | Fin x, Inf n | Inf n, Fin x =>
      if Qeq_bool x 0 then NaN else Inf (xorb n (Qltb x 0))
  | Inf n1, Inf n2 => Inf (xorb n1 n2)
  | _, _ => NaN
  end.

Definition f_zero : pyfloat := Fin 0.
Definition f_half : pyfloat := Fin (1 # 2).
Definition f_one : pyfloat := Fin 1.

(** The builtin [min(a, b)]: the first argument is kept unless the second
    is strictly smaller. *)
Definition py_min (a b : pyfloat) : pyfloat := if f_lt b a then b else a.

(** Nearest integer to [q], ties to the even neighbour. *)
Definition round_half_even (q : Q) : Z :=
  let f := Qfloor q in
  match Qcompare (q - inject_Z f) (1 # 2) with
  | Lt => f
  | Gt => f + 1
  | Eq => if Z.even f then f else f + 1
  end.

Definition pow10 (ndigits : nat) : Q := inject_Z (10 ^ Z.of_nat ndigits).

(** The builtin [round(x, ndigits)] on a float: the exact value is rounded
    to [ndigits] decimal places, ties to even; NaN and the infinities round
    to themselves.  Python returns the double nearest to that decimal, which
    the model identifies with the decimal. *)
Definition py_round (x : pyfloat) (ndigits : nat) : pyfloat :=
  match x with
  | Fin q => Fin (inject_Z (round_half_even (q * pow10 ndigits)) / pow10 ndigits)
  | _ => x
  end.

(** ** Python values found in a cell of a data frame *)

(** An integer cell of a data frame is a 64-bit integer, which [float()]
    converts without overflow; [PInt] carries its value. *)
Inductive pyval : Type :=
| PNone
| PStr (s : string)
| PInt (z : Z)
| PFloat (f : pyfloat).

(** Truth value test, as used by [not v]. *)
Definition py_truthy (v : pyval) : bool :=
  match v with
  | PNone => false
  | PStr s => negb (String.eqb s "")
  | PInt z => negb (z =? 0)
  | PFloat (Fin q) => negb (Qeq_bool q 0)
  | PFloat _ => true
  end.

Definition py_is_str (v : pyval) : bool :=
  match v with PStr _ => true | _ => false end.

(** [v == s] for a string literal [s]. *)
Definition py_eq_str (v : pyval) (s : string) : bool :=
  match v with PStr t => String.eqb t s | _ => false end.

(** [v == 1]. *)
Definition py_eq_one (v : pyval) : bool :=
  match v with
  | PInt z => z =? 1
  | PFloat f => f_eq f f_one
  | _ => false
  end.

(** ** Exceptions *)

Inductive exn : Type :=
| ValueError
| TypeError
| KeyError
| IndexError
| OverflowError.

Inductive res (A : Type) : Type :=
| Ok (a : A)
| Raise (e : exn).
Arguments Ok {A} a.
Arguments Raise {A} e.

#[global] Instance res_bind : MBind res := fun A B k r =>
  match r with
  | Ok a => k a
  | Raise e => Raise e
  end.

#[global] Instance res_ret : MRet res := fun A a => Ok a.

(** [try: body except <handled>: handler]. *)
Definition try_except {A} (body : res A) (handled : exn -> bool)
  (handler : res A) : res A :=
  match body with
  | Ok a => Ok a
  | Raise e => if handled e then handler else Raise e
  end.

(** [try: return body except: return value]. *)
Definition try_except_value {A} (body : res A) (value : A) : A :=
  match body with
  | Ok a => a
  | Raise _ => value
  end.

Definition is_ValueError (e : exn) : bool :=
  match e with ValueError => true | _ => false end.

Definition is_ValueError_or_IndexError (e : exn) : bool :=
  match e with ValueError | IndexError => true | _ => false end.

(** [except Exception] and the bare [except]. *)
Definition any_exception (e : exn) : bool := true.

Definition of_option {A} (o : option A) (e : exn) : res A :=
  match o with
  | Some a => Ok a
  | None => Raise e
  end.

(** ** Strings *)

(** The ASCII characters for which [str.isspace] holds. *)
Definition is_space (c : ascii) : bool :=
  let n := nat_of_ascii c in
  ((9 <=? n) && (n <=? 13) || (28 <=? n) && (n <=? 32))%nat.

Fixpoint lstrip (s : string) : string :=
  match s with
  | EmptyString => EmptyString
  | String c s' => if is_space c then lstrip s' else s
  end.

Fixpoint rstrip (s : string) : string :=
  match s with
  | EmptyString => EmptyString
  | String c s' =>
      match rstrip s' with
      | EmptyString => if is_space c then EmptyString else String c EmptyString
      | r => String c r
      end
  end.

(** [s.strip()], on ASCII text. *)
Definition py_strip (s : string) : string := rstrip (lstrip s).

Definition upper_ascii (c : ascii) : ascii :=
  let n := nat_of_ascii c in
  if ((97 <=? n) && (n <=? 122))%nat then ascii_of_nat (n - 32) else c.

(** [s.upper()], on ASCII text. *)
Fixpoint py_upper (s : string) : string :=
  match s with
  | EmptyString => EmptyString
  | String c s' => String (upper_ascii c) (py_upper s')
  end.

Fixpoint zeros (n : nat) : string :=
  match n with
  | O => EmptyString
  | S n' => String "0" (zeros n')
  end.

(** [s.zfill(width)]: zeros are inserted after a leading sign. *)
Definition py_zfill (width : nat) (s : string) : string :=
  let pad := zeros (width - String.length s) in
  match s with
  | String c s' =>
      if (Ascii.eqb c "+" || Ascii.eqb c "-")%bool
      then String c (pad +:+ s')
      else pad +:+ s
  | EmptyString => pad
  end.

(** [s.split(sep)] for a one-character separator. *)
Fixpoint py_split (sep : ascii) (s : string) : list string :=
  match s with
  | EmptyString => [EmptyString]
  | String c s' =>
      if Ascii.eqb c sep then EmptyString :: py_split sep s'
      else match py_split sep s' with
           | p :: ps => String c p :: ps
           | [] => [String c EmptyString]
           end
  end.

Definition is_digit (c : ascii) : bool :=
  let n := nat_of_ascii c in ((48 <=? n) && (n <=? 57))%nat.

Fixpoint all_digits (s : string) : bool :=
  match s with
  | EmptyString => true
  | String c s' => is_digit c && all_digits s'
  end.

(** [s.isdigit()], on ASCII text: at least one character, all of them
    digits. *)
Definition py_isdigit (s : string) : bool :=
  match s with
  | EmptyString => false
  | _ => all_digits s
  end.

Definition lower_ascii (c : ascii) : ascii :=
  let n := nat_of_ascii c in
  if ((65 <=? n) && (n <=? 90))%nat then ascii_of_nat (n + 32) else c.

(** [s.lower()], on ASCII text. *)
Fixpoint py_lower (s : string) : string :=
  match s with
  | EmptyString => EmptyString
  | String c s' => String (lower_ascii c) (py_lower s')
  end.

(** [s.rsplit(sep, 1)[1]] for a one-character separator: the text after
    the last separator, [None] when [s] has no separator. *)
Fixpoint py_rsplit_last (sep : ascii) (s : string) : option string :=
  match s with
  | EmptyString => None
  | String c s' =>
      match py_rsplit_last sep s' with
      | Some last => Some last
      | None => if Ascii.eqb c sep then Some s' else None
      end
  end.

(** [c in s] for a character [c]. *)
Fixpoint py_contains (c : ascii) (s : string) : bool :=
  match s with
  | EmptyString => false
  | String c' s' => Ascii.eqb c' c || py_contains c s'
  end.

(** [f"{z:02d}"] *)
Definition py_format_02d (z : Z) : string :=
  py_zfill 2 (NilZero.string_of_int (Z.to_int z)).

(** ** Instants *)

Abbreviation datetime := Z (only parsing).

Definition usec_per_minute : Z := 60000000.
Definition usec_per_hour : Z := 3600000000.
Definition usec_per_day : Z := 86400000000.

(** [timedelta(minutes=n)]. *)
Definition timedelta_minutes (n : Z) : Z := n * usec_per_minute.

(** [dt.date()], as a day number. *)
Definition date_of (dt : datetime) : Z := dt / usec_per_day.

(** An argument that fits a C [int]. *)
Definition fits_int (z : Z) : bool := (- 2147483648 <=? z) && (z <=? 2147483647).

(** [dt.replace(hour=h, minute=m)]: [OverflowError] for an argument that
    does not fit a C [int], [ValueError] outside 0..23 and 0..59. *)
Definition dt_replace (dt : datetime) (h m : Z) : res datetime :=
  if negb (fits_int h && fits_int m) then Raise OverflowError
  else if (0 <=? h) && (h <=? 23) && (0 <=? m) && (m <=? 59)
  then Ok (date_of dt * usec_per_day + h * usec_per_hour
           + m * usec_per_minute + dt mod usec_per_minute)
  else Raise ValueError.

(** ** The libraries and data the engine runs against *)

(** An entry of the airportsdata IATA table; a field is [None] when the
    entry lacks that key. *)
Record airport_entry : Type := {
  ae_name : option string;
  ae_tz : option string;
  ae_lat : option pyfloat;
  ae_lon : option pyfloat
}.

Record env : Type := {
  (** [airportsdata.load('IATA').get(code)] *)
  airports : string -> option airport_entry;
  (** [datetime.strptime(text, format)]; [None] is [ValueError] *)
  strptime : string -> string -> option datetime;
  (** astral's [sun(observer, date, tzinfo)] at a latitude and longitude,
      for a day and a zone name: sunrise and sunset converted to UTC;
      [None] when the call raises *)
  sun : pyfloat -> pyfloat -> Z -> string -> option (datetime * datetime);
  (** [pytz.timezone(name).utcoffset(now).total_seconds()]; [None] when the
      call raises, as it does for an unknown zone *)
  utcoffset_seconds : string -> datetime -> option Z;
  (** [float(text)]; [None] is [ValueError] *)
  py_float_of_str : string -> option pyfloat;
  (** [int(text)]; [None] is [ValueError] *)
  py_int_of_str : string -> option Z;
  (** [str(x)] for a float *)
  py_str_of_float : pyfloat -> string;
  (** [dt.strftime(format)] *)
  strftime : datetime -> string -> string
}.

(** (Name, Timezone, Latitude, Longitude) *)
Abbreviation airport_data :=
  (string * string * pyfloat * pyfloat)%type (only parsing).

Definition fallback_airport_timezones : gmap string airport_data :=
  list_to_map [
    ("CAN", ("Guangzhou", "Asia/Shanghai", Fin (233924 # 10000), Fin (1132988 # 10000)));
    ("BKK", ("Bangkok", "Asia/Bangkok", Fin (136900 # 10000), Fin (1007501 # 10000)));
    ("PEN", ("Penang", "Asia/Kuala_Lumpur", Fin (52976 # 10000), Fin (1002760 # 10000)));
    ("TPE", ("Taipei", "Asia/Taipei", Fin (250777 # 10000), Fin (1212330 # 10000)));
    ("KIX", ("Osaka", "Asia/Tokyo", Fin (344347 # 10000), Fin (1352440 # 10000)))
  ]%string.

(** role -> (PIC, SIC, Duration) *)
Definition CREW_POSITION_DISTRIBUTION : gmap string (pyfloat * pyfloat * pyfloat) :=
  list_to_map [
    ("captain", (f_one, f_zero, f_one));
    ("first_officer", (f_zero, f_one, f_one));
    ("relief_first_officer", (f_zero, f_half, f_half));
    ("relief_captain", (f_half, f_zero, f_half))
  ]%string.

(** One row of the flight extract.  [LANDING] and [FLIGHT] are read with
    [row.get], so the column may be absent. *)
Record Row : Type := {
  DEPT_DATE : pyval;
  ORG : pyval;
  DEST : pyval;
  OFF : pyval;
  ON : pyval;
  FLT_HRS : pyval;
  BLK_HRS : pyval;
  LANDING : option pyval;
  FLIGHT : option pyval
}.

(** The memoisation stores of [functools.lru_cache], most recent first. *)
Record caches : Type := {
  tz_cache : list ((string * string) * Q);
  sun_cache : list ((pyval * datetime) * (option datetime * option datetime))
}.

(** Computations that read and update the caches and may raise. *)
Definition M (A : Type) : Type := caches -> res A * caches.

#[global] Instance M_bind : MBind M := fun A B k m c =>
  match m c with
  | (Ok a, c') => k a c'
  | (Raise e, c') => (Raise e, c')
  end.

#[global] Instance M_ret : MRet M := fun A a c => (Ok a, c).

Definition lift {A} (r : res A) : M A := fun c => (r, c).

(** ** [functools.lru_cache] *)

Section LruCache.
Context {K V : Type} (key_eqb : K -> K -> bool).

Fixpoint lru_find (k : K) (c : list (K * V)) : option V :=
  match c with
  | [] => None
  | (k', v) :: c' => if key_eqb k k' then Some v else lru_find k c'
  end.

Fixpoint lru_remove (k : K) (c : list (K * V)) : list (K * V) :=
  match c with
  | [] => []
  | (k', v) :: c' => if key_eqb k k' then c' else (k', v) :: lru_remove k c'
  end.

(** A call of a function wrapped by [lru_cache(maxsize)]: a hit returns
    the stored result and makes the entry the most recent one; a miss
    calls the function, stores its result and evicts the least recently
    used entry when the store is full.  A call that raises stores
    nothing. *)
Definition lru_call (maxsize : nat) (f : K -> res V) (k : K)
  (c : list (K * V)) : res V * list (K * V) :=
  match lru_find k c with
  | Some v => (Ok v, (k, v) :: lru_remove k c)
  | None =>
      match f k with
      | Ok v => (Ok v, take maxsize ((k, v) :: c))
      | Raise e => (Raise e, c)
      end
  end.
End LruCache.

Definition tz_key_eqb (a b : string * string) : bool :=
  String.eqb a.1 b.1 && String.eqb a.2 b.2.

(** Equality of cache keys built from a cell value. *)
Definition pyval_eqb (a b : pyval) : bool :=
  match a, b with
  | PNone, PNone => true
  | PStr s, PStr t => String.eqb s t
  | PInt x, PInt y => x =? y
  | PFloat x, PFloat y => f_eq x y
  | PInt x, PFloat y | PFloat y, PInt x => f_eq (Fin (inject_Z x)) y
  | _, _ => false
  end.

Definition sun_key_eqb (a b : pyval * datetime) : bool :=
  pyval_eqb a.1 b.1 && (a.2 =? b.2).

(** ** Functions shared by the two variants *)

Module Shared.
Section Engine.
Variable E : env.
(** The reading of the clock, [datetime.now(timezone.utc)]. *)
Variable now : datetime.

Definition strptime_r (text format : string) : res datetime :=
  of_option (strptime E text format) ValueError.

(** [str(v)], also what an f-string inserts for [{v}]. *)
Definition py_str (v : pyval) : string :=
  match v with
  | PNone => "None"
  | PStr s => s
  | PInt z => NilZero.string_of_int (Z.to_int z)
  | PFloat f => py_str_of_float E f
  end.

Definition get_airport_data (code : pyval) : option airport_data :=
  match code with
  | PStr c =>
      let from_table :=
        match airports E c with
        | Some airport =>
            match ae_tz airport, ae_lat airport, ae_lon airport with
            | Some tz, Some lat, Some lon =>
                Some (default c (ae_name airport), tz, lat, lon)
            | _, _, _ => None
            end
        | None => None
        end in
      match from_table with
      | Some data => Some data
      | None => fallback_airport_timezones !! c
      end
  | _ => None
  end.

Definition safe_float_conversion (value : pyval) : pyfloat :=
  match value with
  | PNone => f_zero
  | PStr s =>
      if (String.eqb s "" || String.eqb s ".")%bool then f_zero
      else match py_float_of_str E s with
           | Some f => f
           | None => f_zero
           end
  | PInt z => Fin (inject_Z z)
  | PFloat f => f
  end.

(** The body of [get_timezone_diff], run on a miss; the difference is kept
    in lowest terms. *)
Definition timezone_diff (key : string * string) : res Q :=
  offset1 ← of_option (utcoffset_seconds E key.1 now) KeyError;
  offset2 ← of_option (utcoffset_seconds E key.2 now) KeyError;
  Ok (Qred (Qabs (inject_Z offset1 / 3600 - inject_Z offset2 / 3600))).

Definition get_timezone_diff (tz1 tz2 : string) : M Q := fun c =>
  let (r, tzc) := lru_call tz_key_eqb 128 timezone_diff (tz1, tz2) (tz_cache c) in
  (r, {| tz_cache := tzc; sun_cache := sun_cache c |}).

(** The body of [get_sunrise_sunset], run on a miss. *)
Definition sunrise_sunset (key : pyval * datetime)
  : res (option datetime * option datetime) :=
  match get_airport_data key.1 with
  | None => Ok (None, None)
  | Some (name, tzname, lat, lon) =>
      s ← of_option (sun E lat lon (date_of key.2) tzname) ValueError;
      Ok (Some s.1, Some s.2)
  end.

Definition get_sunrise_sunset (airport_code : pyval) (date : datetime)
  : M (option datetime * option datetime) := fun c =>
  let (r, sc) := lru_call sun_key_eqb 256 sunrise_sunset (airport_code, date) (sun_cache c) in
  (r, {| tz_cache := tz_cache c; sun_cache := sc |}).

(** [is_night_landing] of the FAA variant and [is_night_time] of the
    logbook.aero variant have the same body. *)
Definition is_night_time (time_dt : datetime) (airport_code : pyval) : res bool :=
  match get_airport_data airport_code with
  | None => Ok false
  | Some (name, tzname, lat, lon) =>
      s ← of_option (sun E lat lon (date_of time_dt) tzname) ValueError;
      let sunrise := s.1 in
      let sunset := s.2 in
      let civil_twilight := sunset + timedelta_minutes 30 in
      Ok ((time_dt >=? civil_twilight) || (time_dt <=? sunrise))
  end.

Definition performed_landing (row : Row) : bool :=
  let landing_val := default (PInt 0) (LANDING row) in
  py_eq_one landing_val || py_eq_str landing_val "1".

(** ['LANDING' in row and (row['LANDING'] == 1 or row['LANDING'] == '1')],
    the test of [record_approaches] and [count_approaches]. *)
Definition landing_flag (row : Row) : bool :=
  match LANDING row with
  | Some landing => py_eq_one landing || py_eq_str landing "1"
  | None => false
  end.

(** [format_tail_number]; [str] raises nothing on a cell value, so the
    handler of its [try] is never entered. *)
Definition format_tail_number (tail_number : pyval) : string :=
  if py_isdigit (py_str tail_number)
  then "N" +:+ py_str tail_number +:+ "FE"
  else py_str tail_number.

(** [calculate_actual_instrument], from the value of the row's
    ['Night Time'] cell. *)
Definition calculate_actual_instrument (night_time : pyval) : pyfloat :=
  f_mul (safe_float_conversion night_time) f_half.

Section Variant.
(** Decimal places kept by the estimator, and the variant's parsers. *)
Variable ndigits : nat.
Variable parse_date : pyval -> res datetime.
Variable parse_time : pyval -> pyval -> res datetime.

(** Minutes credited by one pass through the sampling loop. *)
Definition night_step (origin_data dest_data : airport_data)
  (off_time on_time current_time : datetime) : Z :=
  let progress_ratio :=
    Fin (inject_Z (current_time - off_time) / inject_Z (on_time - off_time)) in
  let lat := f_add origin_data.1.2
               (f_mul progress_ratio (f_sub dest_data.1.2 origin_data.1.2)) in
  let lon := f_add origin_data.2
               (f_mul progress_ratio (f_sub dest_data.2 origin_data.2)) in
  let tz := dest_data.1.1.2 in
  match sun E lat lon (date_of current_time) tz with
  | Some (sunrise, sunset) =>
      if (current_time <? sunrise) || (current_time >? sunset) then 10 else 0
  | None => 0
  end.

(** [while current_time < on_time: ...; current_time += time_increment];
    the loop ends because the number of ten-minute steps left before
    [on_time] decreases. *)
Equations? night_loop (origin_data dest_data : airport_data)
  (off_time on_time current_time total_night_minutes : Z) : Z
  by wf (Z.to_nat ((on_time - current_time + 599999999) / 600000000)) lt :=
  night_loop origin_data dest_data off_time on_time current_time total_night_minutes
    with Z_lt_dec current_time on_time := {
    | left _ =>
        night_loop origin_data dest_data off_time on_time
          (current_time + timedelta_minutes 10)
          (total_night_minutes
           + night_step origin_data dest_data off_time on_time current_time)
    | right _ => total_night_minutes }.
Proof.
  unfold timedelta_minutes, usec_per_minute.
  replace (on_time - (current_time + 10 * 60000000) + 599999999)
    with (on_time - current_time + 599999999 + (-1) * 600000000) by lia.
  rewrite Z.div_add by lia.
  assert (1 <= (on_time - current_time + 599999999) / 600000000)
    by (apply Z.div_le_lower_bound; lia).
  lia.
Qed.

Definition estimate_night_time (row : Row) : M pyfloat :=
  let origin := ORG row in
  let destination := DEST row in
  date ← lift (parse_date (DEPT_DATE row));
  off_time ← lift (parse_time (DEPT_DATE row) (OFF row));
  on_time ← lift (parse_time (DEPT_DATE row) (ON row));
  let flt_time := safe_float_conversion (FLT_HRS row) in
  match get_airport_data origin, get_airport_data destination with
  | Some origin_data, Some dest_data =>
      tz_diff ← get_timezone_diff origin_data.1.1.2 dest_data.1.1.2;
      if Qle_bool tz_diff 4 then
        s ← get_sunrise_sunset destination date;
        match s with
        | (Some sunrise, Some sunset) =>
            if (off_time >=? sunset) || (on_time <=? sunrise) then
              mret (py_round flt_time ndigits)
            else if ((off_time <? sunset) && (sunset <? on_time))
                    || ((off_time <? sunrise) && (sunrise <? on_time)) then
              mret (py_round (f_mul flt_time f_half) ndigits)
            else mret f_zero
        | _ => mret f_zero
        end
      else
        let total_night_minutes :=
          night_loop origin_data dest_data off_time on_time off_time 0 in
        let estimated_night_hours :=
          py_round (Fin (inject_Z total_night_minutes / 60)) ndigits in
        mret (py_min estimated_night_hours flt_time)
  | _, _ => mret f_zero
  end.

Definition process_landings (row : Row) : res (Z * Z) :=
  if negb (performed_landing row) then Ok (0, 0)
  else
    try_except
      (let destination := DEST row in
       landing_time ← parse_time (DEPT_DATE row) (ON row);
       night ← is_night_time landing_time destination;
       if (night : bool) then Ok (0, 1) else Ok (1, 0))
      any_exception
      (Ok (1, 0)).

(** [process_takeoffs] is a function of the logbook.aero variant only. *)
Definition process_takeoffs (row : Row) : res (Z * Z) :=
  if negb (performed_landing row) then Ok (0, 0)
  else
    try_except
      (let origin := ORG row in
       takeoff_time ← parse_time (DEPT_DATE row) (OFF row);
       night ← is_night_time takeoff_time origin;
       if (night : bool) then Ok (0, 1) else Ok (1, 0))
      any_exception
      (Ok (1, 0)).
End Variant.
End Engine.
End Shared.

(** ** Operating-Experience data *)

(** A data frame read from CSV: the header and one dictionary per row. *)
Record DataFrame : Type := {
  columns : list string;
  rows : list (gmap string pyval)
}.

(** [flight_data], the dictionary kept per flight, with its keys
    ['role'], ['pic_time'] and ['sic_time']. *)
Record flight_data : Type := {
  fd_role : string;
  fd_pic_time : option pyfloat;
  fd_sic_time : option pyfloat
}.

Definition has_column (df : DataFrame) (name : string) : bool :=
  existsb (String.eqb name) (columns df).

(** [row.get(key, default)] *)
Definition row_get (row : gmap string pyval) (key : string) (dflt : pyval) : pyval :=
  default dflt (row !! key).

Definition str_in (s : string) (l : list string) : bool :=
  existsb (String.eqb s) l.

Module OE.
Section WithEnv.
Variable E : env.

(** [x if x > 0 else None] *)
Definition positive_or_none (x : pyfloat) : option pyfloat :=
  if f_gt x f_zero then Some x else None.

(** The part of the loop body of [load_oe_data] that fills [flight_data];
    it is the same text in both variants. *)
Definition row_flight_data (oe_df : DataFrame) (row : gmap string pyval) : flight_data :=
  let get_float key := Shared.safe_float_conversion E (row_get row key (PInt 0)) in
  let flight_data0 := {| fd_role := "captain"; fd_pic_time := None; fd_sic_time := None |} in
  let flight_data1 :=
    if has_column oe_df "SEAT" then
      let seat_value := py_upper (py_strip (Shared.py_str E (row_get row "SEAT" (PStr "")))) in
      if str_in seat_value ["CAPT"; "CPT"; "CAPTAIN"] then
        if has_column oe_df "PIC_OE" then
          {| fd_role := "captain";
             fd_pic_time := positive_or_none (get_float "PIC_OE");
             fd_sic_time := Some f_zero |}
        else {| fd_role := "captain"; fd_pic_time := None; fd_sic_time := None |}
      else if str_in seat_value ["FO"; "F/O"; "FIRST OFFICER"] then
        if has_column oe_df "SIC_OE" then
          {| fd_role := "first_officer";
             fd_pic_time := Some f_zero;
             fd_sic_time := positive_or_none (get_float "SIC_OE") |}
        else {| fd_role := "first_officer"; fd_pic_time := None; fd_sic_time := None |}
      else if str_in seat_value ["RFO"; "RF/O"; "R/FO"; "RELIEF FIRST OFFICER"] then
        {| fd_role := "relief_first_officer";
           fd_pic_time := Some f_zero;
           fd_sic_time := if has_column oe_df "SIC_RFO_OE"
                       then positive_or_none (get_float "SIC_RFO_OE")
                       else None |}
      else if str_in seat_value ["RF2"; "RC"; "RELIEF CAPTAIN"] then
        {| fd_role := "relief_captain";
           fd_pic_time := if has_column oe_df "PIC_RFO_OE"
                       then positive_or_none (get_float "PIC_RFO_OE")
                       else None;
           fd_sic_time := Some f_zero |}
      else flight_data0
    else if has_column oe_df "ROLE" then
      let role_value := py_upper (py_strip (Shared.py_str E (row_get row "ROLE" (PStr "")))) in
      if String.eqb role_value "PIC" then
        {| fd_role := "captain";
           fd_pic_time := Some (get_float "PIC_OE");
           fd_sic_time := Some f_zero |}
      else if String.eqb role_value "SIC" then
        {| fd_role := "first_officer";
           fd_pic_time := Some f_zero;
           fd_sic_time := Some (get_float "SIC_OE") |}
      else flight_data0
    else flight_data0 in
  match fd_pic_time flight_data1, fd_sic_time flight_data1 with
  | None, None =>
      let flight_data2 :=
        if has_column oe_df "PIC_OE" && String.eqb (fd_role flight_data1) "captain" then
          let pic := get_float "PIC_OE" in
          if f_gt pic f_zero
          then {| fd_role := fd_role flight_data1; fd_pic_time := Some pic; fd_sic_time := Some f_zero |}
          else flight_data1
        else flight_data1 in
      if has_column oe_df "SIC_OE" && String.eqb (fd_role flight_data2) "first_officer" then
        let sic := get_float "SIC_OE" in
        if f_gt sic f_zero
        then {| fd_role := fd_role flight_data2; fd_pic_time := Some f_zero; fd_sic_time := Some sic |}
        else flight_data2
      else flight_data2
  | _, _ => flight_data1
  end.

(** The loop of [load_oe_data], for a variant's [flight_id]. *)
Fixpoint load_rows (flight_id : gmap string pyval -> res string) (oe_df : DataFrame)
  (todo : list (gmap string pyval)) (oe_data : gmap string flight_data)
  : res (gmap string flight_data) :=
  match todo with
  | [] => Ok oe_data
  | row :: todo' =>
      match flight_id row with
      | Ok id => load_rows flight_id oe_df todo' (<[id := row_flight_data oe_df row]> oe_data)
      | Raise e => Raise e
      end
  end.

(** [load_oe_data] from the frame that [pd.read_csv] returned. *)
Definition load_oe_data (flight_id : gmap string pyval -> res string)
  (oe_df : DataFrame) : gmap string flight_data :=
  if negb (has_column oe_df "FLIGHT") then ∅
  else match load_rows flight_id oe_df (rows oe_df) ∅ with
       | Ok oe_data => oe_data
       | Raise _ => ∅
       end.
End WithEnv.
End OE.

(** ** The FAA variant, [format.py] *)

Module FAA.

(** The dictionary returned by [assign_crew_time]. *)
Record crew_time : Type := {
  PIC : pyfloat;
  SIC : pyfloat;
  Duration : pyfloat;
  XC : pyfloat
}.

(** [column_order] of [main_web] *)
Definition column_order : list string :=
  ["Date"; "Aircraft Type"; "Aircraft Ident.";
   "Route From"; "Route To";
   "Out"; "Off"; "On"; "In";
   "Duration"; "Block"; "PIC"; "SIC"; "Cross Country"; "Night";
   "Actual Instrument";
   "Day Landings"; "Night Landings"; "Approaches"]%string.

(** The columns [main_web] writes, from the columns of the frame: those of
    [column_order] that the frame has, then every other column except the
    temporary ['CrewPosition']. *)
Definition final_columns (df_columns : list string) : list string :=
  fold_left
    (fun final_columns col =>
       if negb (str_in col final_columns) && negb (String.eqb col "CrewPosition")
       then final_columns ++ [col]
       else final_columns)
    df_columns
    (List.filter (fun col => str_in col df_columns) column_order).

Section WithEnv.
Variable E : env.
Variable now : datetime.

Definition parse_time (date_str time_str : pyval) : res datetime :=
  try_except
    (let time_str :=
       if negb (py_truthy time_str) || py_eq_str time_str "."
          || negb (py_is_str time_str)
       then PStr "12:00" else time_str in
     Shared.strptime_r E
       (Shared.py_str E date_str +:+ " " +:+ Shared.py_str E time_str)
       "%m/%d/%Y %H:%M")
    is_ValueError
    (try_except
       (Shared.strptime_r E (Shared.py_str E date_str +:+ " 12:00")
          "%m/%d/%Y %H:%M")
       is_ValueError
       (Ok now)).

(** [datetime.strptime(row['DEPT_DATE'], "%m/%d/%Y")]; a value that is not
    a string is a [TypeError]. *)
Definition parse_date (date_str : pyval) : res datetime :=
  match date_str with
  | PStr s => Shared.strptime_r E s "%m/%d/%Y"
  | _ => Raise TypeError
  end.

Definition estimate_night_time : Row -> M pyfloat :=
  Shared.estimate_night_time E now 2 parse_date parse_time.

Definition is_night_landing : datetime -> pyval -> res bool :=
  Shared.is_night_time E.

Definition process_landings : Row -> res (Z * Z) :=
  Shared.process_landings E parse_time.

(** [str(row.get('FLIGHT', '')).strip().zfill(4)] *)
Definition flight_id (row : Row) : string :=
  py_zfill 4 (py_strip (Shared.py_str E (default (PStr "") (FLIGHT row)))).

(** [str(row['FLIGHT']).strip().zfill(4)] on a row of the OE frame. *)
Definition oe_flight_id (row : gmap string pyval) : res string :=
  v ← of_option (row !! "FLIGHT") KeyError;
  Ok (py_zfill 4 (py_strip (Shared.py_str E v))).

Definition load_oe_data : DataFrame -> gmap string flight_data :=
  OE.load_oe_data E oe_flight_id.

Definition determine_crew_position (row : Row) (default_position : string)
  (oe_data : gmap string flight_data) : string :=
  match oe_data !! flight_id row with
  | Some fd => fd_role fd
  | None => default_position
  end.

(** An absent or empty [oe_data] is the empty dictionary. *)
Definition assign_crew_time (row : Row) (position : string)
  (oe_data : gmap string flight_data) : res crew_time :=
  let block_time := Shared.safe_float_conversion E (BLK_HRS row) in
  let flight_time := Shared.safe_float_conversion E (FLT_HRS row) in
  distribution ← of_option (CREW_POSITION_DISTRIBUTION !! position) KeyError;
  let pic_time := f_mul block_time distribution.1.1 in
  let sic_time := f_mul block_time distribution.1.2 in
  let duration := f_mul flight_time distribution.2 in
  let '(pic_time, sic_time) :=
    match oe_data !! flight_id row with
    | Some fd =>
        (match fd_pic_time fd with Some t => t | None => pic_time end,
         match fd_sic_time fd with Some t => t | None => sic_time end)
    | None => (pic_time, sic_time)
    end in
  Ok {| PIC := pic_time; SIC := sic_time; Duration := duration; XC := block_time |}.

(** [record_approaches] *)
Definition record_approaches (row : Row) : string :=
  if Shared.landing_flag row
  then "1;" +:+ Shared.py_str E (DEST row)
  else "".

(** The functions [main_web] applies to one row: night time, landings,
    crew time.  The clock reading [now] is one value for the run. *)
Definition process_row (default_crew_position : string)
  (oe_data : gmap string flight_data) (row : Row)
  : M (pyfloat * (Z * Z) * crew_time) :=
  night_time ← estimate_night_time row;
  landings ← lift (process_landings row);
  let position :=
    if String.eqb default_crew_position "auto"
    then determine_crew_position row "captain" oe_data
    else default_crew_position in
  crew ← lift (assign_crew_time row position oe_data);
  mret (night_time, landings, crew).
End WithEnv.
End FAA.

(** ** The logbook.aero variant, [format_logbook_aero.py] *)

Module Aero.

(** The dictionary returned by [assign_crew_time]. *)
Record crew_time : Type := {
  PIC_Time : pyfloat;
  CoPilot_Time : pyfloat;
  MultiPilot_Time : pyfloat;
  XC_Time : pyfloat
}.

Section WithEnv.
Variable E : env.
Variable now : datetime.

(** A value that is not a string makes [strptime] raise [TypeError], which
    the loop over the formats does not catch. *)
Definition parse_date_flexible (date_str : pyval) : res datetime :=
  match date_str with
  | PStr s =>
      try_except (Shared.strptime_r E s "%Y-%m-%d") is_ValueError
        (try_except (Shared.strptime_r E s "%m/%d/%Y") is_ValueError
           (try_except (Shared.strptime_r E s "%d/%m/%Y") is_ValueError
              (Raise ValueError)))
  | _ => Raise TypeError
  end.

Definition py_int (s : string) : res Z :=
  of_option (py_int_of_str E s) ValueError.

Definition parse_time (date_str time_str : pyval) : res datetime :=
  try_except
    (let time_str :=
       if negb (py_truthy time_str) || py_eq_str time_str "."
          || negb (py_is_str time_str)
       then PStr "12:00" else time_str in
     date_dt ← parse_date_flexible date_str;
     let time_parts := py_split ":" (Shared.py_str E time_str) in
     part0 ← of_option (time_parts !! 0%nat) IndexError;
     hour ← py_int part0;
     minute ← (if (1 <? length time_parts)%nat
               then part1 ← of_option (time_parts !! 1%nat) IndexError; py_int part1
               else Ok 0);
     dt_replace date_dt hour minute)
    is_ValueError_or_IndexError
    (try_except
       (date_dt ← parse_date_flexible date_str; dt_replace date_dt 12 0)
       is_ValueError
       (Ok now)).

Definition estimate_night_time : Row -> M pyfloat :=
  Shared.estimate_night_time E now 1 parse_date_flexible parse_time.

Definition is_night_time : datetime -> pyval -> res bool :=
  Shared.is_night_time E.

Definition process_landings : Row -> res (Z * Z) :=
  Shared.process_landings E parse_time.

Definition process_takeoffs : Row -> res (Z * Z) :=
  Shared.process_takeoffs E parse_time.

(** The key built in [determine_crew_position] and [assign_crew_time]:
    flight number, origin, destination and date. *)
Definition flight_id (row : Row) : string :=
  let flight_num := py_zfill 4 (py_strip (Shared.py_str E (default (PStr "") (FLIGHT row)))) in
  let origin := py_upper (py_strip (Shared.py_str E (ORG row))) in
  let dest := py_upper (py_strip (Shared.py_str E (DEST row))) in
  let flight_date := py_strip (Shared.py_str E (DEPT_DATE row)) in
  flight_num +:+ "_" +:+ origin +:+ "_" +:+ dest +:+ "_" +:+ flight_date.

(** The key built in [load_oe_data] from a row of the OE frame. *)
Definition oe_flight_id (row : gmap string pyval) : res string :=
  v ← of_option (row !! "FLIGHT") KeyError;
  let flight_num := py_zfill 4 (py_strip (Shared.py_str E v)) in
  let origin := py_upper (py_strip (Shared.py_str E (row_get row "ORG" (PStr "")))) in
  let dest := py_upper (py_strip (Shared.py_str E (row_get row "DEST" (PStr "")))) in
  let oe_date := py_upper (py_strip (Shared.py_str E (row_get row "FLT_DT" (PStr "")))) in
  let oe_date_normalized :=
    match strptime E oe_date "%d%b%Y" with
    | Some oe_date_parsed => strftime E oe_date_parsed "%Y-%m-%d"
    | None => oe_date
    end in
  Ok (flight_num +:+ "_" +:+ origin +:+ "_" +:+ dest +:+ "_" +:+ oe_date_normalized).

Definition load_oe_data : DataFrame -> gmap string flight_data :=
  OE.load_oe_data E oe_flight_id.

Definition determine_crew_position (row : Row) (default_position : string)
  (oe_data : gmap string flight_data) : string :=
  match oe_data !! flight_id row with
  | Some fd => fd_role fd
  | None => default_position
  end.

(** An absent or empty [oe_data] is the empty dictionary. *)
Definition assign_crew_time (row : Row) (position : string)
  (oe_data : gmap string flight_data) : res crew_time :=
  let total_time := Shared.safe_float_conversion E (BLK_HRS row) in
  distribution ← of_option (CREW_POSITION_DISTRIBUTION !! position) KeyError;
  let pic_time := f_mul total_time distribution.1.1 in
  let sic_time := f_mul total_time distribution.1.2 in
  let '(pic_time, sic_time) :=
    match oe_data !! flight_id row with
    | Some fd =>
        (match fd_pic_time fd with Some t => py_min t total_time | None => pic_time end,
         match fd_sic_time fd with Some t => py_min t total_time | None => sic_time end)
    | None => (pic_time, sic_time)
    end in
  let pic_time := py_min pic_time total_time in
  let sic_time := py_min sic_time total_time in
  Ok {| PIC_Time := pic_time; CoPilot_Time := sic_time;
        MultiPilot_Time := total_time; XC_Time := total_time |}.

(** [count_approaches] *)
Definition count_approaches (row : Row) : Z :=
  if Shared.landing_flag row then 1 else 0.

(** [format_date_logbook_aero]: the date as YYYY-MM-DD, or the value as it
    is when no format matches; a value that is not a string raises the
    [TypeError] of [parse_date_flexible]. *)
Definition format_date_logbook_aero (date_str : pyval) : res pyval :=
  try_except
    (dt ← parse_date_flexible date_str; Ok (PStr (strftime E dt "%Y-%m-%d")))
    is_ValueError
    (Ok date_str).

(** [format_time_hhmm]; the bare [except] returns the text of the value. *)
Definition format_time_hhmm (time_str : pyval) : string :=
  if negb (py_truthy time_str) || py_eq_str time_str "." then ""
  else
    try_except_value
      (if py_contains ":" (Shared.py_str E time_str) then
         let parts := py_split ":" (Shared.py_str E time_str) in
         part0 ← of_option (parts !! 0%nat) IndexError;
         hour ← py_int part0;
         part1 ← of_option (parts !! 1%nat) IndexError;
         minute ← py_int part1;
         Ok (py_format_02d hour +:+ ":" +:+ py_format_02d minute)
       else Ok (Shared.py_str E time_str))
      (Shared.py_str E time_str).

(** [get_pic_name] *)
Definition get_pic_name (position pilot_name : string) : string :=
  if str_in position ["captain"; "relief_captain"] then pilot_name else "".

(** [get_sic_name] *)
Definition get_sic_name (position pilot_name : string) : string :=
  if str_in position ["first_officer"; "relief_first_officer"] then pilot_name else "".

(** The cap [main_web] puts on the ['Night Time'] and ['Act Inst'] cells:
    [min(safe_float_conversion(value), safe_float_conversion(row['BLK_HRS']))]. *)
Definition cap_to_block (value : pyval) (row : Row) : pyfloat :=
  py_min (Shared.safe_float_conversion E value)
    (Shared.safe_float_conversion E (BLK_HRS row)).

(** The functions [main_web] applies to one row: night time, landings,
    takeoffs, crew time.  The clock reading [now] is one value for the run. *)
Definition process_row (default_crew_position : string)
  (oe_data : gmap string flight_data) (row : Row)
  : M (pyfloat * (Z * Z) * (Z * Z) * crew_time) :=
  night_time ← estimate_night_time row;
  landings ← lift (process_landings row);
  takeoffs ← lift (process_takeoffs row);
  let position :=
    if String.eqb default_crew_position "auto"
    then determine_crew_position row "captain" oe_data
    else default_crew_position in
  crew ← lift (assign_crew_time row position oe_data);
  mret (night_time, landings, takeoffs, crew).
End WithEnv.
End Aero.

(** ** The web application, [app.py]

    [get_airport_data], [get_timezone_diff], [get_sunrise_sunset],
    [safe_float_conversion], [format_tail_number] and [is_night_landing] of
    [app.py] have the text of their namesakes in [format.py]: they are the
    functions of [Shared], and [CREW_POSITION_DISTRIBUTION] is the same
    table.  A row is read with [row.get]; a field of [Row] holds what that
    call returns, its default when the column is absent. *)

Module App.

(** The cells that [process_flight_data] adds to a row it keeps. *)
Record result_row : Type := {
  Night_Time : pyfloat;
  Act_Inst : pyfloat;
  Day_Landings : Z;
  Night_Landings : Z;
  Approaches : string;
  PIC : pyfloat;
  SIC : pyfloat;
  XC : pyfloat
}.

(** [ALLOWED_EXTENSIONS] *)
Definition ALLOWED_EXTENSIONS : list string := ["csv"]%string.

(** [allowed_file] *)
Definition allowed_file (filename : string) : bool :=
  py_contains "." filename
  && match py_rsplit_last "." filename with
     | Some extension => str_in (py_lower extension) ALLOWED_EXTENSIONS
     | None => false
     end.

(** The check of [crew_position] at the head of [process_flight_data]:
    the position that the rows are processed with, or [ValueError]. *)
Definition validate_crew_position (crew_position : string) : res string :=
  match CREW_POSITION_DISTRIBUTION !! crew_position with
  | Some _ => Ok crew_position
  | None =>
      if String.eqb crew_position "auto" then Ok "captain"%string
      else Raise ValueError
  end.

(** [int((on_time - off_time).total_seconds() / (increment_minutes * 60))];
    [int] truncates towards zero. *)
Definition segments_of (off_time on_time : datetime) : Z :=
  Z.quot (on_time - off_time) (10 * 60 * 1000000).

Section WithEnv.
Variable E : env.
(** The reading of the clock in UTC, [datetime.now(pytz.utc)], and the
    naive local reading, [datetime.now()]. *)
Variable now : datetime.
Variable local_now : datetime.

Definition parse_time (date_str time_str : pyval) : res datetime :=
  let date_str :=
    match date_str with
    | PNone => PStr (strftime E local_now "%m/%d/%Y")
    | _ => date_str
    end in
  try_except
    (let time_str :=
       if match time_str with PNone => true | _ => false end
          || py_eq_str time_str "" || py_eq_str time_str "."
          || negb (py_is_str time_str)
       then PStr "12:00" else time_str in
     Shared.strptime_r E
       (Shared.py_str E date_str +:+ " " +:+ Shared.py_str E time_str)
       "%m/%d/%Y %H:%M")
    is_ValueError
    (try_except
       (Shared.strptime_r E (Shared.py_str E date_str +:+ " 12:00")
          "%m/%d/%Y %H:%M")
       is_ValueError
       (Ok now)).

(** Minutes credited by pass [i] of [for i in range(segments)].  The
    product of the interval and [progress] is a [timedelta], rounded to
    the nearest microsecond, ties to even. *)
Definition night_segment (origin_data dest_data : airport_data)
  (off_time on_time segments i : Z) : Z :=
  let progress := (inject_Z i / inject_Z segments)%Q in
  let current_time :=
    off_time + round_half_even (inject_Z (on_time - off_time) * progress) in
  let lat := f_add origin_data.1.2
               (f_mul (Fin progress) (f_sub dest_data.1.2 origin_data.1.2)) in
  let lon := f_add origin_data.2
               (f_mul (Fin progress) (f_sub dest_data.2 origin_data.2)) in
  match sun E lat lon (date_of current_time) dest_data.1.1.2 with
  | Some (sunrise, sunset) =>
      if (current_time <? sunrise) || (current_time >? sunset) then 10 else 0
  | None => 0
  end.

Definition total_night_minutes (origin_data dest_data : airport_data)
  (off_time on_time segments : Z) : Z :=
  fold_left
    (fun total i =>
       total + night_segment origin_data dest_data off_time on_time segments i)
    (seqZ 0 segments) 0.

Definition estimate_night_time (off_time on_time : datetime) (flt_time : pyfloat)
  (origin destination : pyval) (date : datetime) : M pyfloat :=
  match Shared.get_airport_data E origin, Shared.get_airport_data E destination with
  | Some origin_data, Some dest_data =>
      tz_diff ← Shared.get_timezone_diff E now origin_data.1.1.2 dest_data.1.1.2;
      if Qle_bool tz_diff 4 then
        s ← Shared.get_sunrise_sunset E destination date;
        match s with
        | (Some sunrise, Some sunset) =>
            if (off_time >=? sunset) || (on_time <=? sunrise) then
              mret (py_round flt_time 2)
            else if ((off_time <? sunset) && (sunset <? on_time))
                    || ((off_time <? sunrise) && (sunrise <? on_time)) then
              mret (py_round (f_mul flt_time f_half) 2)
            else mret f_zero
        | _ => mret f_zero
        end
      else
        let segments := segments_of off_time on_time in
        if segments <=? 0 then mret f_zero
        else
          let night_hours :=
            py_round
              (Fin (inject_Z (total_night_minutes origin_data dest_data
                                off_time on_time segments) / 60)) 2 in
          mret (py_min night_hours flt_time)
  | _, _ => mret f_zero
  end.

Definition process_landings (row : Row) (destination : pyval)
  (off_time on_time : datetime) : res (Z * Z) :=
  if negb (Shared.performed_landing row) then Ok (0, 0)
  else
    try_except
      (let landing_time := on_time in
       night ← Shared.is_night_time E landing_time destination;
       if (night : bool) then Ok (0, 1) else Ok (1, 0))
      any_exception
      (Ok (1, 0)).

(** The body of the loop of [process_flight_data] for one row, with the
    position that passed the check: the cells added to the row, or [None]
    for a row that is skipped, which a failure of any kind causes too. *)
Definition process_row (crew_position : string) (row : Row)
  : M (option result_row) := fun c =>
  let body : M (option result_row) :=
    let origin := ORG row in
    let destination := DEST row in
    let date_str := DEPT_DATE row in
    if negb (py_truthy origin) || negb (py_truthy destination)
       || negb (py_truthy date_str)
    then mret None
    else
      let date :=
        match date_str with
        | PStr s => default local_now (strptime E s "%m/%d/%Y")
        | _ => local_now
        end in
      off_time ← lift (parse_time date_str (OFF row));
      on_time ← lift (parse_time date_str (ON row));
      let flt_time := Shared.safe_float_conversion E (FLT_HRS row) in
      let blk_time := Shared.safe_float_conversion E (BLK_HRS row) in
      night_time ← estimate_night_time off_time on_time flt_time
                     origin destination date;
      let act_inst := f_mul night_time f_half in
      landings ← lift (process_landings row destination off_time on_time);
      let approaches :=
        if Shared.landing_flag row
        then ("1;" +:+ Shared.py_str E destination)%string
        else ""%string in
      distribution ← lift (of_option (CREW_POSITION_DISTRIBUTION !! crew_position)
                             KeyError);
      let pic_time := f_mul blk_time distribution.1.1 in
      let sic_time := f_mul blk_time distribution.1.2 in
      mret (Some {| Night_Time := night_time; Act_Inst := act_inst;
                    Day_Landings := landings.1; Night_Landings := landings.2;
                    Approaches := approaches;
                    PIC := pic_time; SIC := sic_time; XC := blk_time |})
  in
  match body c with
  | (Raise _, c') => (Ok None, c')
  | kept_or_skipped => kept_or_skipped
  end.
End WithEnv.
End App.

(** ** The search for flights near a failing position, [find_error_flights.py] *)

(** The builtin [max(a, b)]: the first argument is kept unless the second
    is strictly greater. *)
Definition py_max (a b : pyfloat) : pyfloat := if f_gt b a then b else a.

Module Finder.

(** The test of the inner loop for one flight and one failing position:
    [lat_in_range and lon_in_range]; a position is (latitude, longitude). *)
Definition near_route (org_coords dest_coords error_coords : pyfloat * pyfloat) : bool :=
  let '(error_lat, error_lon) := error_coords in
  let '(org_lat, org_lon) := org_coords in
  let '(dest_lat, dest_lon) := dest_coords in
  let lat_in_range :=
    f_le (f_sub (py_min org_lat dest_lat) (Fin 10)) error_lat
    && f_le error_lat (f_add (py_max org_lat dest_lat) (Fin 10)) in
  let lon_in_range :=
    if f_le (py_min org_lon dest_lon) (f_add (py_max org_lon dest_lon) (Fin 180))
    then f_le (f_sub (py_min org_lon dest_lon) (Fin 10)) error_lon
         && f_le error_lon (f_add (py_max org_lon dest_lon) (Fin 10))
    else f_le error_lon (f_add (py_min org_lon dest_lon) (Fin 10))
         || f_ge error_lon (f_sub (py_max org_lon dest_lon) (Fin 10)) in
  lat_in_range && lon_in_range.
End Finder.

(** ** A concrete environment

    A small instance of [env], used to run the engine on concrete rows:
    one airport in the primary table (the others come from the fallback
    table), a two-digit clock and calendar parser for 1 June 2024, a crude
    sun (solar noon from the longitude, a thirteen-hour day, no sunrise
    beyond 66 degrees of latitude) and the UTC offsets of the zones used. *)

Module Sample.

Definition JFK : airport_entry :=
  {| ae_name := Some "John F Kennedy International Airport"%string;
     ae_tz := Some "America/New_York"%string;
     ae_lat := Some (Fin (406398 # 10000));
     ae_lon := Some (Fin (- 737789 # 10000)) |}.

Definition OSL : airport_entry :=
  {| ae_name := Some "Oslo Gardermoen Airport"%string;
     ae_tz := Some "Europe/Oslo"%string;
     ae_lat := Some (Fin (601939 # 10000));
     ae_lon := Some (Fin (111004 # 10000)) |}.

(** Longyearbyen, where the sun does not set in June. *)
Definition LYR : airport_entry :=
  {| ae_name := Some "Svalbard Airport, Longyear"%string;
     ae_tz := Some "Arctic/Longyearbyen"%string;
     ae_lat := Some (Fin (782461 # 10000));
     ae_lon := Some (Fin (154656 # 10000)) |}.

Definition airports (code : string) : option airport_entry :=
  if String.eqb code "JFK" then Some JFK
  else if String.eqb code "OSL" then Some OSL
  else if String.eqb code "LYR" then Some LYR
  else None.

Definition digit (c : ascii) : option Z :=
  let n := nat_of_ascii c in
  if ((48 <=? n) && (n <=? 57))%nat then Some (Z.of_nat (n - 48)) else None.

Definition two_digits (a b : ascii) : option Z :=
  x ← digit a; y ← digit b; Some (10 * x + y).

(** "HH:MM", as microseconds after midnight. *)
Definition clock (s : string) : option Z :=
  match s with
  | String h1 (String h2 (String ":" (String m1 (String m2 EmptyString)))) =>
      h ← two_digits h1 h2;
      m ← two_digits m1 m2;
      if (h <=? 23) && (m <=? 59)
      then Some (h * usec_per_hour + m * usec_per_minute) else None
  | _ => None
  end.

(** Midnight of 1 June 2024, day 19875 of the epoch. *)
Definition june_1_2024 : datetime := 19875 * usec_per_day.

Definition strptime (text format : string) : option datetime :=
  if String.eqb format "%m/%d/%Y" then
    if String.eqb text "06/01/2024" then Some june_1_2024 else None
  else if String.eqb format "%Y-%m-%d" then
    if String.eqb text "2024-06-01" then Some june_1_2024 else None
  else if String.eqb format "%d%b%Y" then
    if String.eqb text "01JUN2024" then Some june_1_2024 else None
  else if String.eqb format "%m/%d/%Y %H:%M" then
    if String.eqb (substring 0 11 text) "06/01/2024 " then
      t ← clock (substring 11 (String.length text - 11) text);
      Some (june_1_2024 + t)
    else None
  else None.

Definition sun (lat lon : pyfloat) (day : Z) (tz : string)
  : option (datetime * datetime) :=
  match lat, lon with
  | Fin la, Fin lo =>
      if Qle_bool (Qabs la) 66 then
        let noon := day * usec_per_day + 12 * usec_per_hour
                    - Qfloor (lo * 240000000) in
        Some (noon - 390 * usec_per_minute, noon + 390 * usec_per_minute)
      else None
  | _, _ => None
  end.

Definition utcoffset_seconds (tz : string) (now : datetime) : option Z :=
  if String.eqb tz "America/New_York" then Some (-14400)
  else if String.eqb tz "Europe/Oslo" then Some 7200
  else if String.eqb tz "Arctic/Longyearbyen" then Some 7200
  else if String.eqb tz "Asia/Bangkok" then Some 25200
  else if String.eqb tz "Asia/Shanghai" then Some 28800
  else if String.eqb tz "Asia/Kuala_Lumpur" then Some 28800
  else if String.eqb tz "Asia/Taipei" then Some 28800
  else if String.eqb tz "Asia/Tokyo" then Some 32400
  else None.

Definition py_float_of_str (s : string) : option pyfloat :=
  if String.eqb s "0" then Some (Fin 0)
  else if String.eqb s "2.5" then Some (Fin (5 # 2))
  else if String.eqb s "5.0" then Some (Fin 5)
  else if String.eqb s "6.0" then Some (Fin 6)
  else if String.eqb s "nan" then Some NaN
  else None.

Definition py_int_of_str (s : string) : option Z :=
  match s with
  | String a (String b EmptyString) => two_digits a b
  | _ => None
  end.

(** Whole numbers print as in Python; other finite values are not needed
    by the rows below and print as their integer part. *)
Definition py_str_of_float (f : pyfloat) : string :=
  match f with
  | NaN => "nan"
  | Inf neg => if neg then "-inf" else "inf"
  | Fin q => NilZero.string_of_int (Z.to_int (Qfloor q)) +:+ ".0"
  end.

Definition strftime (dt : datetime) (format : string) : string :=
  if dt =? june_1_2024 then "2024-06-01" else "1970-01-01".

Definition E : env :=
  Build_env airports strptime sun utcoffset_seconds py_float_of_str
    py_int_of_str py_str_of_float strftime.

Definition no_caches : caches := {| tz_cache := []; sun_cache := [] |}.

Definition flight (date origin dest off on : string) (flt_hrs blk_hrs : Q) : Row :=
  {| DEPT_DATE := PStr date; ORG := PStr origin; DEST := PStr dest;
     OFF := PStr off; ON := PStr on;
     FLT_HRS := PFloat (Fin flt_hrs); BLK_HRS := PFloat (Fin blk_hrs);
     LANDING := Some (PInt 1); FLIGHT := Some (PInt 123) |}.

(** Guangzhou to Bangkok after sunset at Bangkok (11:47 UTC with [sun]),
    as the FAA variant reads it: 0.375 h. *)
Definition evening_hop_faa : Row :=
  flight "06/01/2024" "CAN" "BKK" "12:00" "12:23" (3 # 8) (1 # 2).

(** The same leg as the logbook.aero variant reads it: 0.75 h. *)
Definition evening_hop_aero : Row :=
  flight "2024-06-01" "CAN" "BKK" "12:00" "12:45" (3 # 4) 1.

(** An evening leg of 1.25 h. *)
Definition evening_leg_aero : Row :=
  flight "2024-06-01" "CAN" "BKK" "12:00" "13:15" (5 # 4) (3 # 2).

(** An evening leg of 2.5 h in the FAA variant. *)
Definition evening_leg_faa : Row :=
  flight "06/01/2024" "CAN" "BKK" "12:00" "14:30" (5 # 2) (11 # 4).

(** New York to Osaka, thirteen zones apart. *)
Definition long_haul : Row :=
  flight "06/01/2024" "JFK" "KIX" "02:00" "15:00" 13 (27 # 2).

(** A row whose date is not in the FAA variant's format and whose origin
    is in no table. *)
Definition unknown_origin_iso_date : Row :=
  flight "2024-06-01" "XXX" "BKK" "12:00" "14:30" (5 # 2) (11 # 4).

(** A row whose origin is in no table. *)
Definition unknown_origin : Row :=
  flight "06/01/2024" "XXX" "BKK" "12:00" "14:30" (5 # 2) (11 # 4).

(** Oslo to Longyearbyen under the midnight sun. *)
Definition polar_leg : Row :=
  flight "06/01/2024" "OSL" "LYR" "09:00" "12:00" 3 (7 # 2).

(** The stores after [evening_leg_faa] has been processed once. *)
Definition warm_caches : caches :=
  {| tz_cache := [(("Asia/Shanghai", "Asia/Bangkok")%string, 1%Q)];
     sun_cache := [((PStr "BKK", june_1_2024),
                    (Some 1717195619976000, Some 1717242419976000))] |}.

(** A leg with five block hours. *)
Definition five_hours : Row :=
  flight "06/01/2024" "CAN" "BKK" "01:00" "05:30" (9 # 2) 5.

(** An OE file with a seat column: first officer, six SIC hours. *)
Definition oe_seat_fo : DataFrame :=
  {| columns := ["FLIGHT"; "SEAT"; "SIC_OE"]%string;
     rows := [ {[ "FLIGHT"%string := PInt 123;
                  "SEAT"%string := PStr "FO";
                  "SIC_OE"%string := PFloat (Fin 6) ]} ] |}.

(** An OE file with a role column: pilot in command, zero PIC hours. *)
Definition oe_role_pic_zero : DataFrame :=
  {| columns := ["FLIGHT"; "ROLE"; "PIC_OE"]%string;
     rows := [ {[ "FLIGHT"%string := PInt 123;
                  "ROLE"%string := PStr "PIC";
                  "PIC_OE"%string := PInt 0 ]} ] |}.

(** An OE file with a seat column: captain, zero PIC hours. *)
Definition oe_seat_capt_zero : DataFrame :=
  {| columns := ["FLIGHT"; "SEAT"; "PIC_OE"]%string;
     rows := [ {[ "FLIGHT"%string := PInt 123;
                  "SEAT"%string := PStr "CAPT";
                  "PIC_OE"%string := PInt 0 ]} ] |}.

(** The row of [oe_seat_fo], and a later row for the same flight with the
    captain's seat and four PIC hours. *)
Definition oe_row_fo : gmap string pyval :=
  {[ "FLIGHT"%string := PInt 123;
     "SEAT"%string := PStr "FO";
     "SIC_OE"%string := PFloat (Fin 6) ]}.

Definition oe_row_capt : gmap string pyval :=
  {[ "FLIGHT"%string := PStr " 0123 ";
     "SEAT"%string := PStr "capt";
     "PIC_OE"%string := PFloat (Fin 4) ]}.

Definition oe_same_flight_twice : DataFrame :=
  {| columns := ["FLIGHT"; "SEAT"; "PIC_OE"; "SIC_OE"]%string;
     rows := [oe_row_fo; oe_row_capt] |}.

(** The evening hop with flight hours below zero. *)
Definition negative_hours : Row :=
  flight "06/01/2024" "CAN" "BKK" "12:00" "12:23" (- (1 # 2)) (1 # 2).

(** One hour from New York towards Osaka, six samples. *)
Definition night_crossing : Row :=
  flight "06/01/2024" "JFK" "KIX" "08:00" "09:00" 1 (3 # 2).

Definition night_crossing_aero : Row :=
  flight "2024-06-01" "JFK" "KIX" "08:00" "09:00" 1 (3 # 2).

(** The evening leg for a pilot who did not land the aircraft. *)
Definition not_landing : Row :=
  {| DEPT_DATE := PStr "06/01/2024"; ORG := PStr "CAN"; DEST := PStr "BKK";
     OFF := PStr "12:00"; ON := PStr "14:30";
     FLT_HRS := PFloat (Fin (5 # 2)); BLK_HRS := PFloat (Fin (11 # 4));
     LANDING := Some (PInt 0); FLIGHT := Some (PInt 123) |}.

(** The environment with another sun in place of [sun]. *)
Definition E_with_sun
  (sun' : pyfloat -> pyfloat -> Z -> string -> option (datetime * datetime)) : env :=
  Build_env airports strptime sun' utcoffset_seconds py_float_of_str
    py_int_of_str py_str_of_float strftime.
End Sample.

(** ** Statements on the classification of one event *)

(** The time text that [parse_time] parses: 12:00 replaces a value that is
    missing, empty, the placeholder "." or not a string. *)
Definition time_text (time_str : pyval) : string :=
  match time_str with
  | PStr s => if (String.eqb s "" || String.eqb s ".")%bool then "12:00" else s
  | _ => "12:00"
  end.

(** Day or night for an instant at an airport, in the words of the
    specification: night from thirty minutes after sunset on, and until
    sunrise; day when the airport or the sun is not available. *)
Definition event_is_night (E : env) (instant : datetime) (code : pyval) : bool :=
  match Shared.get_airport_data E code with
  | Some (_, tzname, lat, lon) =>
      match sun E lat lon (date_of instant) tzname with
      | Some (sunrise, sunset) =>
          bool_decide (sunset + timedelta_minutes 30 <= instant \/ instant <= sunrise)
      | None => false
      end
  | None => false
  end.

(** The landing mark of a record, in the words of the specification: the
    LANDING value is the number 1 or the text "1". *)
Definition landing_performed (row : Row) : Prop :=
  match LANDING row with
  | Some (PInt z) => z = 1
  | Some (PFloat (Fin q)) => (q == 1)%Q
  | Some (PStr s) => s = "1"%string
  | _ => False
  end.

(** ** Statements on the simple rule *)

(** The simple, destination-based rule finds the whole flight at night:
    the date and the times parse, both airports resolve, their zones are at
    most four hours apart, the lookup for the destination returns a sunrise
    and a sunset, and OFF is at or after the sunset or ON at or before the
    sunrise. *)
Definition whole_flight_at_night (E : env) (now : Z)
  (parse_date : pyval -> res datetime) (parse_time : pyval -> pyval -> res datetime)
  (row : Row) (c : caches) : Prop :=
  exists date off_time on_time origin_data dest_data tz_diff c1 sunrise sunset c2,
    parse_date (DEPT_DATE row) = Ok date
    /\ parse_time (DEPT_DATE row) (OFF row) = Ok off_time
    /\ parse_time (DEPT_DATE row) (ON row) = Ok on_time
    /\ Shared.get_airport_data E (ORG row) = Some origin_data
    /\ Shared.get_airport_data E (DEST row) = Some dest_data
    /\ Shared.get_timezone_diff E now origin_data.1.1.2 dest_data.1.1.2 c
       = (Ok tz_diff, c1)
    /\ (tz_diff <= 4)%Q
    /\ Shared.get_sunrise_sunset E (DEST row) date c1
       = (Ok (Some sunrise, Some sunset), c2)
    /\ (sunset <= off_time \/ on_time <= sunrise).

(** ** Statements on the sampling of a long flight *)

(** Number of ten-minute samples in [[current_time, on_time)]. *)
Definition sample_count (current_time on_time : Z) : nat :=
  Z.to_nat ((on_time - current_time + 599999999) / 600000000).

(** The sampling instants from [current_time] on: [current_time],
    [current_time] + 10 min, ... as long as they are before [on_time]. *)
Definition sample_instants (current_time on_time : Z) : list Z :=
  map (fun i => current_time + Z.of_nat i * timedelta_minutes 10)
    (seq 0 (sample_count current_time on_time)).

(** Linear interpolation between [a] and [b] at the fraction [ratio]. *)
Definition interpolate (a b : pyfloat) (ratio : Q) : pyfloat :=
  f_add a (f_mul (Fin ratio) (f_sub b a)).

(** A sample counts as night when the sun is available at the
    interpolated position, for the sample's calendar date and the
    destination's zone, and the sample is before that sunrise or after that
    sunset. *)
Definition sample_is_night (E : env) (origin_data dest_data : airport_data)
  (off_time on_time instant : Z) : bool :=
  let ratio := (inject_Z (instant - off_time) / inject_Z (on_time - off_time))%Q in
  match sun E (interpolate origin_data.1.2 dest_data.1.2 ratio)
              (interpolate origin_data.2 dest_data.2 ratio)
              (date_of instant) dest_data.1.1.2 with
  | Some (sunrise, sunset) => bool_decide (instant < sunrise \/ sunset < instant)
  | None => false
  end.

(** Ten minutes for every night sample of [[off_time, on_time)]. *)
Definition credited_minutes (E : env) (origin_data dest_data : airport_data)
  (off_time on_time : Z) : Z :=
  10 * Z.of_nat (length (List.filter
                           (sample_is_night E origin_data dest_data off_time on_time)
                           (sample_instants off_time on_time))).

(** ** Statements on memoisation *)

(** Every entry of a store is a result of the wrapped function. *)
Definition entries_ok {K V : Type} (f : K -> res V) (c : list (K * V)) : Prop :=
  Forall (fun kv => f kv.1 = Ok kv.2) c.

(** Every memoised result is what the wrapped function returns, the
    timezone differences being those computed at the clock reading [now]. *)
Definition caches_ok (E : env) (now : Z) (c : caches) : Prop :=
  entries_ok (Shared.timezone_diff E now) (tz_cache c)
  /\ entries_ok (Shared.sunrise_sunset E) (sun_cache c).

(** A computation whose result does not depend on what the caches hold, as
    long as they hold memoised results only, and which keeps them so. *)
Definition cache_transparent {A} (E : env) (now : Z) (m : M A) : Prop :=
  exists r, forall c,
    caches_ok E now c -> fst (m c) = r /\ caches_ok E now (snd (m c)).

(** The stores are within the sizes given to [lru_cache]. *)
Definition caches_bounded (c : caches) : Prop :=
  (length (tz_cache c) <= 128)%nat /\ (length (sun_cache c) <= 256)%nat.

(** A computation that keeps a property of the stores. *)
Definition cache_preserving {A} (P : caches -> Prop) (m : M A) : Prop :=
  forall c, P c -> P (snd (m c)).

(** The two counts credited for one event. *)
Definition credit_of (night : bool) : Z * Z := if night then (0, 1) else (1, 0).

(** ** Statements on equal floats *)

(** Two values of the model that stand for the same float: a rational has
    several fractions. *)
Definition same_float (a b : pyfloat) : Prop :=
  match a, b with
  | Fin x, Fin y => (x == y)%Q
  | Inf n1, Inf n2 => n1 = n2
  | NaN, NaN => True
  | _, _ => False
  end.

(** The library's [sun] returns the same times at the same position. *)
Definition sun_extensional (E : env) : Prop :=
  forall lat lat' lon lon' day tz,
    same_float lat lat' -> same_float lon lon' ->
    sun E lat lon day tz = sun E lat' lon' day tz.

(** * Properties *)

(** ** Order on floats *)

Lemma Qltb_lt (x y : Q) : Qltb x y = true <-> (x < y)%Q.
Proof.
  unfold Qltb. rewrite negb_true_iff.
  destruct (Qle_bool y x) eqn:H.
  - apply Qle_bool_iff in H. split; [discriminate | intros; lra].
  - split; [intros _ | reflexivity].
    destruct (Qlt_le_dec x y) as [|Hle]; [assumption |].
    apply Qle_bool_iff in Hle. congruence.
Qed.

Lemma Qltb_ge (x y : Q) : Qltb x y = false <-> (y <= x)%Q.
Proof.
  unfold Qltb. rewrite negb_false_iff. apply Qle_bool_iff.
Qed.

Lemma Qeq_bool_true (x y : Q) : Qeq_bool x y = true <-> (x == y)%Q.
Proof. apply Qeq_bool_iff. Qed.

Lemma f_le_Fin (x y : Q) : f_le (Fin x) (Fin y) = true <-> (x <= y)%Q.
Proof.
  unfold f_le; simpl. rewrite orb_true_iff, Qltb_lt, Qeq_bool_true.
  split; [intros [|]; lra | intros H].
  destruct (Qlt_le_dec x y); [left; assumption | right; lra].
Qed.

Lemma f_lt_Fin (x y : Q) : f_lt (Fin x) (Fin y) = true <-> (x < y)%Q.
Proof. apply Qltb_lt. Qed.

(** [min(a, b)] is never above its second argument. *)
Lemma py_min_not_above (a b : pyfloat) : f_gt (py_min a b) b = false.
Proof.
  unfold f_gt, py_min. destruct (f_lt b a) eqn:H; [| assumption].
  destruct b as [q | [] |]; simpl; try reflexivity.
  apply Qltb_ge. lra.
Qed.

Lemma f_le_refl (a : pyfloat) : a <> NaN -> f_le a a = true.
Proof.
  destruct a as [q | [] |]; intros H; try reflexivity; [| congruence].
  apply f_le_Fin. lra.
Qed.

(** The order is total away from NaN. *)
Lemma f_le_of_not_gt (a b : pyfloat) :
  a <> NaN -> b <> NaN -> f_gt a b = false -> f_le a b = true.
Proof.
  unfold f_gt. destruct a as [x | [] |], b as [y | [] |];
    simpl; intros Ha Hb H; try reflexivity; try congruence.
  apply f_le_Fin. apply Qltb_ge in H. assumption.
Qed.

Lemma f_le_not_nan (a b : pyfloat) : f_le a b = true -> a <> NaN /\ b <> NaN.
Proof.
  destruct a as [x | [] |], b as [y | [] |]; unfold f_le; simpl; intros H;
    split; congruence.
Qed.

Lemma py_min_le_r (a b : pyfloat) :
  a <> NaN -> b <> NaN -> f_le (py_min a b) b = true.
Proof.
  intros Ha Hb. apply f_le_of_not_gt; [| assumption | apply py_min_not_above].
  unfold py_min. destruct (f_lt b a); assumption.
Qed.

Lemma py_min_nonneg (a b : pyfloat) :
  f_le f_zero a = true -> f_le f_zero b = true -> f_le f_zero (py_min a b) = true.
Proof. intros Ha Hb. unfold py_min. destruct (f_lt b a); assumption. Qed.

(** ** Decimal rounding *)

Lemma pow10_pos (n : nat) : (0 < pow10 n)%Q.
Proof.
  unfold pow10. replace 0%Q with (inject_Z 0) by reflexivity.
  rewrite <- Zlt_Qlt. apply Z.pow_pos_nonneg; lia.
Qed.

(** The rounded integer is within one half of the argument. *)
Lemma round_half_even_bounds (q : Q) :
  (q - (1 # 2) <= inject_Z (round_half_even q) <= q + (1 # 2))%Q.
Proof.
  unfold round_half_even.
  pose proof (Qfloor_le q) as Hlo.
  pose proof (Qlt_floor q) as Hhi.
  rewrite inject_Z_plus in Hhi. change (inject_Z 1) with 1%Q in Hhi.
  destruct (Qcompare (q - inject_Z (Qfloor q)) (1 # 2)) eqn:Hc.
  - apply Qeq_alt in Hc.
    destruct (Z.even (Qfloor q));
      rewrite ?inject_Z_plus; change (inject_Z 1) with 1%Q; lra.
  - apply Qlt_alt in Hc. lra.
  - apply Qgt_alt in Hc. rewrite inject_Z_plus. change (inject_Z 1) with 1%Q. lra.
Qed.

Lemma inject_Z_nonneg_of_gt (z : Z) : (- (1) < inject_Z z)%Q -> 0 <= z.
Proof.
  intros H. change (- (1))%Q with (inject_Z (-1)) in H.
  rewrite <- Zlt_Qlt in H. lia.
Qed.

Lemma inject_Z_nonpos_of_lt (z : Z) : (inject_Z z < 1)%Q -> z <= 0.
Proof.
  intros H. change 1%Q with (inject_Z 1) in H.
  rewrite <- Zlt_Qlt in H. lia.
Qed.

Lemma round_half_even_nonneg (q : Q) : (0 <= q)%Q -> 0 <= round_half_even q.
Proof.
  intros H. apply inject_Z_nonneg_of_gt.
  pose proof (round_half_even_bounds q). lra.
Qed.

(** Rounding a non-negative float gives a non-negative float. *)
Lemma py_round_nonneg (x : pyfloat) (n : nat) :
  f_le f_zero x = true -> f_le f_zero (py_round x n) = true.
Proof.
  destruct x as [q | [] |]; intros H; try assumption.
  apply f_le_Fin in H. apply f_le_Fin.
  pose proof (pow10_pos n) as Hp.
  apply Qle_shift_div_l; [assumption |].
  rewrite Qmult_0_l. replace 0%Q with (inject_Z 0) by reflexivity.
  rewrite <- Zle_Qle. apply round_half_even_nonneg. nra.
Qed.

(** Half of a non-negative float, rounded, does not exceed the float. *)
Lemma py_round_half_le (x : pyfloat) (n : nat) :
  f_le f_zero x = true -> f_le (py_round (f_mul x f_half) n) x = true.
Proof.
  destruct x as [q | [] |]; intros H; try discriminate; [| reflexivity].
  apply f_le_Fin in H. simpl. apply f_le_Fin.
  pose proof (pow10_pos n) as Hp.
  apply Qle_shift_div_r; [assumption |].
  pose proof (round_half_even_bounds (q * (1 # 2) * pow10 n)) as [_ Hb].
  destruct (Qlt_le_dec (q * pow10 n) 1) as [Hs | Hs].
  - assert (round_half_even (q * (1 # 2) * pow10 n) <= 0) as Hz
      by (apply inject_Z_nonpos_of_lt; lra).
    rewrite Zle_Qle in Hz. change (inject_Z 0) with 0%Q in Hz. nra.
  - lra.
Qed.

Lemma f_mul_half_nonneg (x : pyfloat) :
  f_le f_zero x = true -> f_le f_zero (f_mul x f_half) = true.
Proof.
  destruct x as [q | [] |]; intros H; try discriminate; [| reflexivity].
  apply f_le_Fin in H. simpl. apply f_le_Fin. lra.
Qed.

(** ** The sampling loop *)

Section LoopFacts.
Context (E : env) (origin_data dest_data : airport_data) (off_time on_time : Z).

Lemma night_loop_unfold (current_time total : Z) :
  Shared.night_loop E origin_data dest_data off_time on_time current_time total =
  if current_time <? on_time
  then Shared.night_loop E origin_data dest_data off_time on_time
         (current_time + timedelta_minutes 10)
         (total + Shared.night_step E origin_data dest_data off_time on_time current_time)
  else total.
Proof.
  rewrite Shared.night_loop_equation_1. unfold Shared.night_loop_unfold_clause_1.
  destruct (Z_lt_dec current_time on_time) as [H | H].
  - apply Z.ltb_lt in H. rewrite H. reflexivity.
  - apply Z.ltb_nlt in H. rewrite H. reflexivity.
Qed.

Lemma sample_count_done (current_time : Z) :
  on_time <= current_time -> sample_count current_time on_time = 0%nat.
Proof.
  intros H. unfold sample_count.
  assert ((on_time - current_time + 599999999) / 600000000 <= 0); [| lia].
  apply Z.lt_succ_r. apply Z.div_lt_upper_bound; lia.
Qed.

Lemma sample_count_step (current_time : Z) :
  current_time < on_time ->
  sample_count current_time on_time =
  S (sample_count (current_time + timedelta_minutes 10) on_time).
Proof.
  intros H. unfold sample_count, timedelta_minutes, usec_per_minute.
  replace (on_time - (current_time + 10 * 60000000) + 599999999)
    with (on_time - current_time + 599999999 + (-1) * 600000000) by lia.
  rewrite Z.div_add by lia.
  assert (1 <= (on_time - current_time + 599999999) / 600000000)
    by (apply Z.div_le_lower_bound; lia).
  lia.
Qed.

Lemma sample_instants_done (current_time : Z) :
  on_time <= current_time -> sample_instants current_time on_time = [].
Proof.
  intros H. unfold sample_instants. rewrite sample_count_done by assumption.
  reflexivity.
Qed.

Lemma sample_instants_step (current_time : Z) :
  current_time < on_time ->
  sample_instants current_time on_time =
  current_time :: sample_instants (current_time + timedelta_minutes 10) on_time.
Proof.
  intros H. unfold sample_instants. rewrite (sample_count_step _ H).
  cbn [seq map]. f_equal; [lia |].
  rewrite <- seq_shift, map_map. apply map_ext. intros i. lia.
Qed.

Lemma night_step_credit (instant : Z) :
  Shared.night_step E origin_data dest_data off_time on_time instant =
  if sample_is_night E origin_data dest_data off_time on_time instant then 10 else 0.
Proof.
  unfold Shared.night_step, sample_is_night, interpolate.
  destruct (sun E _ _ _ _) as [[sunrise sunset] |]; [| reflexivity].
  destruct (Z.ltb_spec instant sunrise), (Z.gtb_spec instant sunset);
    simpl; case_bool_decide; try reflexivity; lia.
Qed.

(** The loop adds ten minutes for every night sample that is left. *)
Lemma night_loop_count (n : nat) : forall current_time total,
  sample_count current_time on_time = n ->
  Shared.night_loop E origin_data dest_data off_time on_time current_time total =
  total + 10 * Z.of_nat (length (List.filter
                           (sample_is_night E origin_data dest_data off_time on_time)
                           (sample_instants current_time on_time))).
Proof.
  induction n as [| n IH]; intros current_time total Hn;
    rewrite night_loop_unfold; destruct (Z.ltb_spec current_time on_time) as [Hlt | Hge].
  - rewrite (sample_count_step _ Hlt) in Hn. discriminate.
  - rewrite sample_instants_done by assumption. simpl. lia.
  - rewrite (sample_count_step _ Hlt) in Hn. injection Hn as Hn.
    rewrite (IH _ _ Hn), (sample_instants_step _ Hlt), night_step_credit.
    cbn [List.filter].
    destruct (sample_is_night E origin_data dest_data off_time on_time current_time);
      cbn [length]; lia.
  - rewrite sample_count_done in Hn by assumption. discriminate.
Qed.

(** The loop of the interpolated branch computes [credited_minutes]. *)
Lemma night_loop_credited :
  Shared.night_loop E origin_data dest_data off_time on_time off_time 0 =
  credited_minutes E origin_data dest_data off_time on_time.
Proof.
  unfold credited_minutes.
  rewrite (night_loop_count _ off_time 0 eq_refl). lia.
Qed.

Lemma credited_minutes_nonneg :
  0 <= credited_minutes E origin_data dest_data off_time on_time.
Proof. unfold credited_minutes. lia. Qed.
End LoopFacts.

(** ** The night-time estimator *)

Section EstimatorFacts.
Context (E : env) (now : Z) (ndigits : nat).
Context (parse_date : pyval -> res Z) (parse_time : pyval -> pyval -> res Z).

Local Abbreviation estimate :=
  (Shared.estimate_night_time E now ndigits parse_date parse_time).
Local Abbreviation flt_time row := (Shared.safe_float_conversion E (FLT_HRS row)).

Local Ltac unfold_estimate :=
  unfold Shared.estimate_night_time, mbind, M_bind, lift, mret, M_ret.

(** The value of the simple, destination-based rule. *)
Lemma estimate_simple (row : Row) (c c1 c2 : caches) (date off_time on_time : Z)
  (origin_data dest_data : airport_data) (tz_diff : Q)
  (s : option Z * option Z) :
  parse_date (DEPT_DATE row) = Ok date ->
  parse_time (DEPT_DATE row) (OFF row) = Ok off_time ->
  parse_time (DEPT_DATE row) (ON row) = Ok on_time ->
  Shared.get_airport_data E (ORG row) = Some origin_data ->
  Shared.get_airport_data E (DEST row) = Some dest_data ->
  Shared.get_timezone_diff E now origin_data.1.1.2 dest_data.1.1.2 c = (Ok tz_diff, c1) ->
  Qle_bool tz_diff 4 = true ->
  Shared.get_sunrise_sunset E (DEST row) date c1 = (Ok s, c2) ->
  estimate row c =
  (Ok match s with
      | (Some sunrise, Some sunset) =>
          if (off_time >=? sunset) || (on_time <=? sunrise)
          then py_round (flt_time row) ndigits
          else if ((off_time <? sunset) && (sunset <? on_time))
                  || ((off_time <? sunrise) && (sunrise <? on_time))
               then py_round (f_mul (flt_time row) f_half) ndigits
               else f_zero
      | _ => f_zero
      end, c2).
Proof.
  intros Hd Hoff Hon Ho Hdst Htz Hle Hsun. unfold_estimate.
  rewrite Hd, Hoff, Hon, Ho, Hdst, Htz, Hle, Hsun.
  destruct s as [[sunrise |] [sunset |]]; try reflexivity.
  destruct ((off_time >=? sunset) || (on_time <=? sunrise)); [reflexivity |].
  destruct (((off_time <? sunset) && (sunset <? on_time))
            || ((off_time <? sunrise) && (sunrise <? on_time))); reflexivity.
Qed.

(** The value of the interpolated rule. *)
Lemma estimate_interpolated (row : Row) (c c1 : caches) (date off_time on_time : Z)
  (origin_data dest_data : airport_data) (tz_diff : Q) :
  parse_date (DEPT_DATE row) = Ok date ->
  parse_time (DEPT_DATE row) (OFF row) = Ok off_time ->
  parse_time (DEPT_DATE row) (ON row) = Ok on_time ->
  Shared.get_airport_data E (ORG row) = Some origin_data ->
  Shared.get_airport_data E (DEST row) = Some dest_data ->
  Shared.get_timezone_diff E now origin_data.1.1.2 dest_data.1.1.2 c = (Ok tz_diff, c1) ->
  Qle_bool tz_diff 4 = false ->
  estimate row c =
  (Ok (py_min
         (py_round
            (Fin (inject_Z (credited_minutes E origin_data dest_data off_time on_time) / 60))
            ndigits)
         (flt_time row)), c1).
Proof.
  intros Hd Hoff Hon Ho Hdst Htz Hle. unfold_estimate.
  rewrite Hd, Hoff, Hon, Ho, Hdst, Htz, Hle, night_loop_credited. reflexivity.
Qed.

(** Without both airports the estimate is zero and no cache is touched. *)
Lemma estimate_unresolved (row : Row) (c : caches) (date off_time on_time : Z) :
  parse_date (DEPT_DATE row) = Ok date ->
  parse_time (DEPT_DATE row) (OFF row) = Ok off_time ->
  parse_time (DEPT_DATE row) (ON row) = Ok on_time ->
  Shared.get_airport_data E (ORG row) = None
  \/ Shared.get_airport_data E (DEST row) = None ->
  estimate row c = (Ok f_zero, c).
Proof.
  intros Hd Hoff Hon Hnone. unfold_estimate. rewrite Hd, Hoff, Hon.
  destruct Hnone as [H | H]; rewrite H; [reflexivity |].
  destruct (Shared.get_airport_data E (ORG row)); reflexivity.
Qed.

(** Every value the estimator can return. *)
Lemma estimate_cases (row : Row) (c c' : caches) (night : pyfloat) :
  estimate row c = (Ok night, c') ->
  night = f_zero
  \/ night = py_round (flt_time row) ndigits
  \/ night = py_round (f_mul (flt_time row) f_half) ndigits
  \/ exists origin_data dest_data off_time on_time,
       night = py_min
                 (py_round
                    (Fin (inject_Z (credited_minutes E origin_data dest_data
                                      off_time on_time) / 60))
                    ndigits)
                 (flt_time row).
Proof.
  unfold_estimate.
  destruct (parse_date (DEPT_DATE row)) as [date |]; [| discriminate].
  destruct (parse_time (DEPT_DATE row) (OFF row)) as [off_time |]; [| discriminate].
  destruct (parse_time (DEPT_DATE row) (ON row)) as [on_time |]; [| discriminate].
  destruct (Shared.get_airport_data E (ORG row)) as [origin_data |];
    [| intros [= <- _]; left; reflexivity].
  destruct (Shared.get_airport_data E (DEST row)) as [dest_data |];
    [| intros [= <- _]; left; reflexivity].
  destruct (Shared.get_timezone_diff E now _ _ c) as [[tz_diff |] c1]; [| discriminate].
  destruct (Qle_bool tz_diff 4).
  - destruct (Shared.get_sunrise_sunset E (DEST row) date c1) as [[s |] c2];
      [| discriminate].
    destruct s as [[sunrise |] [sunset |]];
      try (intros [= <- _]; left; reflexivity).
    destruct ((off_time >=? sunset) || (on_time <=? sunrise));
      [intros [= <- _]; right; left; reflexivity |].
    destruct (((off_time <? sunset) && (sunset <? on_time))
              || ((off_time <? sunrise) && (sunrise <? on_time)));
      intros [= <- _]; [right; right; left | left]; reflexivity.
  - rewrite night_loop_credited. intros [= <- _].
    right; right; right. exists origin_data, dest_data, off_time, on_time. reflexivity.
Qed.

(** Every value the estimator can return, with the case in which the
    flight hours are returned rounded. *)
Lemma estimate_cases_whole (row : Row) (c c' : caches) (night : pyfloat) :
  estimate row c = (Ok night, c') ->
  (night = py_round (flt_time row) ndigits
   /\ whole_flight_at_night E now parse_date parse_time row c)
  \/ night = f_zero
  \/ night = py_round (f_mul (flt_time row) f_half) ndigits
  \/ exists origin_data dest_data off_time on_time,
       night = py_min
                 (py_round
                    (Fin (inject_Z (credited_minutes E origin_data dest_data
                                      off_time on_time) / 60))
                    ndigits)
                 (flt_time row).
Proof.
  unfold_estimate.
  destruct (parse_date (DEPT_DATE row)) as [date |] eqn:Hd; [| discriminate].
  destruct (parse_time (DEPT_DATE row) (OFF row)) as [off_time |] eqn:Hoff;
    [| discriminate].
  destruct (parse_time (DEPT_DATE row) (ON row)) as [on_time |] eqn:Hon;
    [| discriminate].
  destruct (Shared.get_airport_data E (ORG row)) as [origin_data |] eqn:Ho;
    [| intros [= <- _]; auto].
  destruct (Shared.get_airport_data E (DEST row)) as [dest_data |] eqn:Hdst;
    [| intros [= <- _]; auto].
  destruct (Shared.get_timezone_diff E now _ _ c) as [[tz_diff |] c1] eqn:Htz;
    [| discriminate].
  destruct (Qle_bool tz_diff 4) eqn:Hle.
  - destruct (Shared.get_sunrise_sunset E (DEST row) date c1) as [[s |] c2] eqn:Hsun;
      [| discriminate].
    destruct s as [[sunrise |] [sunset |]];
      try (intros [= <- _]; auto).
    destruct ((off_time >=? sunset) || (on_time <=? sunrise)) eqn:Hwhole.
    + intros [= <- _]. left. split; [reflexivity |].
      exists date, off_time, on_time, origin_data, dest_data, tz_diff, c1,
        sunrise, sunset, c2.
      apply Qle_bool_iff in Hle.
      repeat (split; [assumption || reflexivity |]).
      apply orb_true_iff in Hwhole as [H | H]; [left | right]; lia.
    + destruct (((off_time <? sunset) && (sunset <? on_time))
                || ((off_time <? sunrise) && (sunrise <? on_time)));
        intros [= <- _]; auto.
  - rewrite night_loop_credited. intros [= <- _].
    right; right; right. exists origin_data, dest_data, off_time, on_time. reflexivity.
Qed.
End EstimatorFacts.

(** ** Time parsing *)

Section ParseFacts.
Context (E : env) (now : Z).

Lemma normalised_time_text (time_str : pyval) :
  Shared.py_str E
    (if negb (py_truthy time_str) || py_eq_str time_str "."
        || negb (py_is_str time_str)
     then PStr "12:00" else time_str)
  = time_text time_str.
Proof.
  destruct time_str as [| s | z | f]; simpl;
    rewrite ?orb_true_r; try reflexivity.
  rewrite negb_involutive, orb_false_r.
  destruct (String.eqb s "" || String.eqb s "."); reflexivity.
Qed.

(** The FAA parser returns an instant for every pair of values. *)
Lemma FAA_parse_time_ok (date_str time_str : pyval) :
  exists t, FAA.parse_time E now date_str time_str = Ok t.
Proof.
  unfold FAA.parse_time, Shared.strptime_r, try_except, of_option.
  destruct (strptime E _ "%m/%d/%Y %H:%M") as [t |]; [eauto |]. simpl.
  destruct (strptime E _ "%m/%d/%Y %H:%M") as [t |]; simpl; eauto.
Qed.

(** What the body of the logbook.aero parser raises is caught, an
    [OverflowError] apart. *)
Lemma Aero_time_of_day_raises (date : Z) (text : string) (e : exn) :
  (let time_parts := py_split ":" text in
   part0 ← of_option (time_parts !! 0%nat) IndexError;
   hour ← Aero.py_int E part0;
   minute ← (if (1 <? length time_parts)%nat
             then part1 ← of_option (time_parts !! 1%nat) IndexError;
                  Aero.py_int E part1
             else Ok 0);
   dt_replace date hour minute) = Raise e ->
  is_ValueError_or_IndexError e = true \/ e = OverflowError.
Proof.
  cbv zeta. unfold Aero.py_int, of_option, dt_replace, mbind, res_bind.
  destruct (py_split ":" text !! 0%nat) as [part0 |]; [| intros [= <-]; auto].
  destruct (py_int_of_str E part0) as [hour |]; [| intros [= <-]; auto].
  destruct (1 <? length (py_split ":" text))%nat.
  - destruct (py_split ":" text !! 1%nat) as [part1 |]; [| intros [= <-]; auto].
    destruct (py_int_of_str E part1) as [minute |]; [| intros [= <-]; auto].
    destruct (negb (fits_int hour && fits_int minute)); [intros [= <-]; auto |].
    destruct ((0 <=? hour) && (hour <=? 23) && (0 <=? minute) && (minute <=? 59));
      [discriminate | intros [= <-]; auto].
  - destruct (negb (fits_int hour && fits_int 0)); [intros [= <-]; auto |].
    destruct ((0 <=? hour) && (hour <=? 23) && (0 <=? 0) && (0 <=? 59));
      [discriminate | intros [= <-]; auto].
Qed.

(** When the date parses, the logbook.aero parser returns an instant or
    raises [OverflowError], which an hour or a minute beyond the range of a
    C [int] causes. *)
Lemma Aero_parse_time_result (date_str time_str : pyval) (date : Z) :
  Aero.parse_date_flexible E date_str = Ok date ->
  (exists t, Aero.parse_time E now date_str time_str = Ok t)
  \/ Aero.parse_time E now date_str time_str = Raise OverflowError.
Proof.
  intros Hd. unfold Aero.parse_time. rewrite Hd.
  change (Ok date ≫= _) with (dt_replace date 12 0) at 2.
  change (dt_replace date 12 0)
    with (Ok (A := Z) (date_of date * usec_per_day + 12 * usec_per_hour
                       + 0 * usec_per_minute + date mod usec_per_minute)).
  cbn [try_except].
  match goal with
  | |- (exists t, try_except ?b _ _ = _) \/ _ => destruct b as [t | e] eqn:Hb
  end; cbn [try_except]; [eauto |].
  apply Aero_time_of_day_raises in Hb as [Hb | ->]; [rewrite Hb; eauto |].
  right. reflexivity.
Qed.
End ParseFacts.

(** C7.  The FAA time parser returns an instant for every date value and
    time value and never raises: a time that is missing, empty, the
    placeholder "." or not a string is read as 12:00; when the date with
    that time does not parse, the date with 12:00 is tried; when that fails
    too, the result is the reading of the clock. *)
Theorem parse_time_fallbacks (E : env) (now : Z) (date_str time_str : pyval) :
  FAA.parse_time E now date_str time_str =
  Ok match strptime E (Shared.py_str E date_str +:+ " " +:+ time_text time_str)
             "%m/%d/%Y %H:%M" with
     | Some instant => instant
     | None =>
         match strptime E (Shared.py_str E date_str +:+ " 12:00")
                 "%m/%d/%Y %H:%M" with
         | Some noon => noon
         | None => now
         end
     end.
Proof.
  unfold FAA.parse_time. rewrite normalised_time_text.
  unfold Shared.strptime_r, of_option, try_except.
  destruct (strptime E (Shared.py_str E date_str +:+ " " +:+ time_text time_str) _);
    [reflexivity |].
  cbn [is_ValueError].
  destruct (strptime E (Shared.py_str E date_str +:+ " 12:00") _); reflexivity.
Qed.

(** ** Landings and takeoffs *)

Section EventFacts.
Context (E : env) (parse_time : pyval -> pyval -> res Z).

Lemma is_night_time_event (instant : Z) (code : pyval) (night : bool) :
  Shared.is_night_time E instant code = Ok night ->
  night = event_is_night E instant code.
Proof.
  unfold Shared.is_night_time, event_is_night.
  destruct (Shared.get_airport_data E code) as [[[[name tzname] lat] lon] |];
    [| intros [= <-]; reflexivity].
  destruct (sun E lat lon (date_of instant) tzname) as [[sunrise sunset] |];
    [| discriminate].
  cbn. intros [= <-].
  destruct (Z.geb_spec instant (sunset + timedelta_minutes 30)),
           (Z.leb_spec instant sunrise);
    cbn; case_bool_decide; try reflexivity; lia.
Qed.

Lemma is_night_time_raises (instant : Z) (code : pyval) (e : exn) :
  Shared.is_night_time E instant code = Raise e ->
  event_is_night E instant code = false.
Proof.
  unfold Shared.is_night_time, event_is_night.
  destruct (Shared.get_airport_data E code) as [[[[name tzname] lat] lon] |];
    [| discriminate].
  destruct (sun E lat lon (date_of instant) tzname) as [[sunrise sunset] |];
    [discriminate | reflexivity].
Qed.

(** The credit for an event at [instant] and [code]. *)
Lemma classified_event (instant : Z) (code : pyval) :
  try_except
    (night ← Shared.is_night_time E instant code;
     if (night : bool) then Ok (0, 1) else Ok (1, 0))
    any_exception (Ok (1, 0))
  = Ok (credit_of (event_is_night E instant code)).
Proof.
  destruct (Shared.is_night_time E instant code) as [night | e] eqn:H.
  - apply is_night_time_event in H. subst night. cbn.
    destruct (event_is_night E instant code); reflexivity.
  - apply is_night_time_raises in H. rewrite H. reflexivity.
Qed.

Lemma process_landings_event (row : Row) (landing_time : Z) :
  Shared.performed_landing row = true ->
  parse_time (DEPT_DATE row) (ON row) = Ok landing_time ->
  Shared.process_landings E parse_time row =
  Ok (credit_of (event_is_night E landing_time (DEST row))).
Proof.
  intros Hp Ht. unfold Shared.process_landings. rewrite Hp, Ht. cbn [negb].
  apply classified_event.
Qed.

Lemma process_takeoffs_event (row : Row) (takeoff_time : Z) :
  Shared.performed_landing row = true ->
  parse_time (DEPT_DATE row) (OFF row) = Ok takeoff_time ->
  Shared.process_takeoffs E parse_time row =
  Ok (credit_of (event_is_night E takeoff_time (ORG row))).
Proof.
  intros Hp Ht. unfold Shared.process_takeoffs. rewrite Hp, Ht. cbn [negb].
  apply classified_event.
Qed.

Lemma process_landings_one (row : Row) :
  Shared.performed_landing row = true ->
  Shared.process_landings E parse_time row = Ok (1, 0)
  \/ Shared.process_landings E parse_time row = Ok (0, 1).
Proof.
  intros Hp. unfold Shared.process_landings. rewrite Hp. cbn [negb].
  destruct (parse_time (DEPT_DATE row) (ON row)) as [t | e]; [| left; reflexivity].
  change (Ok t ≫= ?k) with (k t). cbv beta. rewrite classified_event.
  destruct (event_is_night E t (DEST row)); [right | left]; reflexivity.
Qed.

Lemma process_takeoffs_one (row : Row) :
  Shared.performed_landing row = true ->
  Shared.process_takeoffs E parse_time row = Ok (1, 0)
  \/ Shared.process_takeoffs E parse_time row = Ok (0, 1).
Proof.
  intros Hp. unfold Shared.process_takeoffs. rewrite Hp. cbn [negb].
  destruct (parse_time (DEPT_DATE row) (OFF row)) as [t | e]; [| left; reflexivity].
  change (Ok t ≫= ?k) with (k t). cbv beta. rewrite classified_event.
  destruct (event_is_night E t (ORG row)); [right | left]; reflexivity.
Qed.

Lemma process_landings_none (row : Row) :
  Shared.performed_landing row = false ->
  Shared.process_landings E parse_time row = Ok (0, 0).
Proof. intros Hp. unfold Shared.process_landings. rewrite Hp. reflexivity. Qed.

Lemma process_takeoffs_none (row : Row) :
  Shared.performed_landing row = false ->
  Shared.process_takeoffs E parse_time row = Ok (0, 0).
Proof. intros Hp. unfold Shared.process_takeoffs. rewrite Hp. reflexivity. Qed.
End EventFacts.

(** The test of the code for a performed landing holds exactly for the
    records that the specification marks. *)
Lemma performed_landing_marked (row : Row) :
  Shared.performed_landing row = true <-> landing_performed row.
Proof.
  unfold Shared.performed_landing, landing_performed.
  destruct (LANDING row) as [[| s | z | [q | n |]] |]; cbn;
    rewrite ?orb_false_r; try (split; [discriminate | contradiction]).
  - apply String.eqb_eq.
  - apply Z.eqb_eq.
  - apply Qeq_bool_iff.
Qed.

(** C5.  Without a performed landing no landing and no takeoff is
    credited; with one, exactly one landing (day or night) and exactly one
    takeoff (day or night) are credited.  A landing is performed when the
    record's LANDING value is the number 1 or the text "1".  Landings are
    those of both variants, takeoffs those of the logbook.aero variant, the
    only one that counts them. *)
Theorem landing_takeoff_credit (E : env) (now : Z) (row : Row) :
  (landing_performed row ->
   (FAA.process_landings E now row = Ok (1, 0)
    \/ FAA.process_landings E now row = Ok (0, 1))
   /\ (Aero.process_landings E now row = Ok (1, 0)
       \/ Aero.process_landings E now row = Ok (0, 1))
   /\ (Aero.process_takeoffs E now row = Ok (1, 0)
       \/ Aero.process_takeoffs E now row = Ok (0, 1)))
  /\ (~ landing_performed row ->
      FAA.process_landings E now row = Ok (0, 0)
      /\ Aero.process_landings E now row = Ok (0, 0)
      /\ Aero.process_takeoffs E now row = Ok (0, 0)).
Proof.
  split; intros Hmark.
  - apply performed_landing_marked in Hmark.
    repeat split;
      [apply process_landings_one | apply process_landings_one
       | apply process_takeoffs_one]; assumption.
  - assert (Shared.performed_landing row = false) as Hp.
    { destruct (Shared.performed_landing row) eqn:Hp; [| reflexivity].
      apply performed_landing_marked in Hp. contradiction. }
    repeat split;
      [apply process_landings_none | apply process_landings_none
       | apply process_takeoffs_none]; assumption.
Qed.

Lemma landing_takeoff_credit_witness :
  (landing_performed Sample.evening_leg_faa
   /\ (FAA.process_landings Sample.E 0 Sample.evening_leg_faa = Ok (1, 0)
       \/ FAA.process_landings Sample.E 0 Sample.evening_leg_faa = Ok (0, 1)))
  /\ (~ landing_performed Sample.not_landing
      /\ FAA.process_landings Sample.E 0 Sample.not_landing = Ok (0, 0)).
Proof.
  assert (landing_performed Sample.evening_leg_faa) as Hyes by reflexivity.
  assert (~ landing_performed Sample.not_landing) as Hno by (cbn; discriminate).
  split; split; [exact Hyes | | exact Hno |].
  - exact (proj1 (proj1 (landing_takeoff_credit Sample.E 0 Sample.evening_leg_faa) Hyes)).
  - exact (proj1 (proj2 (landing_takeoff_credit Sample.E 0 Sample.not_landing) Hno)).
Defined.

(** C6.  For a performed landing, the landing (at the destination, at the
    parsed ON time) and the takeoff (at the origin, at the parsed OFF time)
    are credited as night exactly when the instant is at or after that
    airport's sunset plus thirty minutes, or at or before its sunrise, for
    the date of the instant; when the airport is not resolved or the sun
    calculation fails, the event is credited as day and nothing is
    raised. *)
Theorem event_day_or_night (E : env) (now : Z) (row : Row) :
  Shared.performed_landing row = true ->
  (forall landing_time,
     FAA.parse_time E now (DEPT_DATE row) (ON row) = Ok landing_time ->
     FAA.process_landings E now row
     = Ok (credit_of (event_is_night E landing_time (DEST row))))
  /\ (forall landing_time,
        Aero.parse_time E now (DEPT_DATE row) (ON row) = Ok landing_time ->
        Aero.process_landings E now row
        = Ok (credit_of (event_is_night E landing_time (DEST row))))
  /\ (forall takeoff_time,
        Aero.parse_time E now (DEPT_DATE row) (OFF row) = Ok takeoff_time ->
        Aero.process_takeoffs E now row
        = Ok (credit_of (event_is_night E takeoff_time (ORG row))))
  /\ (forall instant code night,
        FAA.is_night_landing E instant code = Ok night ->
        night = event_is_night E instant code)
  /\ (forall instant code night,
        Aero.is_night_time E instant code = Ok night ->
        night = event_is_night E instant code).
Proof.
  intros Hp. repeat split.
  - intros t Ht. apply process_landings_event; assumption.
  - intros t Ht. apply process_landings_event; assumption.
  - intros t Ht. apply process_takeoffs_event; assumption.
  - intros instant code night. apply is_night_time_event.
  - intros instant code night. apply is_night_time_event.
Qed.

Lemma event_day_or_night_witness :
  Shared.performed_landing Sample.evening_leg_faa = true
  /\ FAA.process_landings Sample.E 0 Sample.evening_leg_faa = Ok (0, 1).
Proof.
  split; [reflexivity |].
  destruct (event_day_or_night Sample.E 0 Sample.evening_leg_faa eq_refl) as [H _].
  rewrite (H 1717252200000000 eq_refl). reflexivity.
Defined.

(** ** Claims on the night-time estimator *)

Lemma night_value_bounds (E : env) (ndigits : nat) (flt night : pyfloat) :
  f_le f_zero flt = true ->
  night = f_zero
  \/ night = py_round flt ndigits
  \/ night = py_round (f_mul flt f_half) ndigits
  \/ (exists origin_data dest_data off_time on_time,
        night = py_min
                  (py_round
                     (Fin (inject_Z (credited_minutes E origin_data dest_data
                                       off_time on_time) / 60))
                     ndigits)
                  flt) ->
  f_le f_zero night = true
  /\ (f_le night flt = true \/ night = py_round flt ndigits).
Proof.
  intros Hflt [-> | [-> | [-> | (od & dd & off_time & on_time & ->)]]].
  - split; [reflexivity | left; assumption].
  - split; [apply py_round_nonneg; assumption | right; reflexivity].
  - split; [apply py_round_nonneg, f_mul_half_nonneg; assumption |].
    left. apply py_round_half_le; assumption.
  - assert (f_le f_zero
              (py_round (Fin (inject_Z (credited_minutes E od dd off_time on_time) / 60))
                 ndigits) = true) as Hest.
    { apply py_round_nonneg, f_le_Fin.
      pose proof (credited_minutes_nonneg E od dd off_time on_time) as H.
      rewrite Zle_Qle in H. change (inject_Z 0) with 0%Q in H.
      apply Qle_shift_div_l; lra. }
    split; [apply py_min_nonneg; assumption |].
    left. apply py_min_le_r; [discriminate |].
    apply f_le_not_nan in Hflt. tauto.
Qed.

Lemma night_value_within (E : env) (ndigits : nat) (flt night : pyfloat) :
  f_le f_zero flt = true ->
  night = f_zero
  \/ night = py_round (f_mul flt f_half) ndigits
  \/ (exists origin_data dest_data off_time on_time,
        night = py_min
                  (py_round
                     (Fin (inject_Z (credited_minutes E origin_data dest_data
                                       off_time on_time) / 60))
                     ndigits)
                  flt) ->
  f_le f_zero night = true /\ f_le night flt = true.
Proof.
  intros Hflt [-> | [-> | (od & dd & off_time & on_time & ->)]].
  - split; [reflexivity | assumption].
  - split; [apply py_round_nonneg, f_mul_half_nonneg; assumption |].
    apply py_round_half_le; assumption.
  - assert (f_le f_zero
              (py_round (Fin (inject_Z (credited_minutes E od dd off_time on_time) / 60))
                 ndigits) = true) as Hest.
    { apply py_round_nonneg, f_le_Fin.
      pose proof (credited_minutes_nonneg E od dd off_time on_time) as H.
      rewrite Zle_Qle in H. change (inject_Z 0) with 0%Q in H.
      apply Qle_shift_div_l; lra. }
    split; [apply py_min_nonneg; assumption |].
    apply py_min_le_r; [discriminate |].
    apply f_le_not_nan in Hflt. tauto.
Qed.

(** C1, amended.  When FLT_HRS converts to a non-negative number, the night
    hours the estimator returns are at least 0, and they are at most the
    flight hours except when the simple rule finds the whole flight at
    night, where they are the flight hours rounded to the variant's decimal
    places (two in the FAA variant, one in the logbook.aero variant). *)
Theorem night_hours_bounds (E : env) (now : Z) (row : Row) (c : caches) :
  let flt_time := Shared.safe_float_conversion E (FLT_HRS row) in
  f_le f_zero flt_time = true ->
  (forall night c',
     FAA.estimate_night_time E now row c = (Ok night, c') ->
     f_le f_zero night = true
     /\ (f_le night flt_time = true
         \/ (night = py_round flt_time 2
             /\ whole_flight_at_night E now (FAA.parse_date E) (FAA.parse_time E now)
                  row c)))
  /\ (forall night c',
        Aero.estimate_night_time E now row c = (Ok night, c') ->
        f_le f_zero night = true
        /\ (f_le night flt_time = true
            \/ (night = py_round flt_time 1
                /\ whole_flight_at_night E now (Aero.parse_date_flexible E)
                     (Aero.parse_time E now) row c))).
Proof.
  intros flt_time Hflt. split; intros night c' H;
    apply estimate_cases_whole in H as [[-> Hwhole] | Hother].
  - split; [apply py_round_nonneg; assumption | right; split; [reflexivity | exact Hwhole]].
  - destruct (night_value_within E 2 _ night Hflt Hother) as [H0 Hle]. auto.
  - split; [apply py_round_nonneg; assumption | right; split; [reflexivity | exact Hwhole]].
  - destruct (night_value_within E 1 _ night Hflt Hother) as [H0 Hle]. auto.
Qed.

Lemma night_hours_bounds_witness :
  f_le f_zero (Shared.safe_float_conversion Sample.E (FLT_HRS Sample.evening_hop_faa)) = true
  /\ f_le f_zero (Fin (38 # 100)) = true
  /\ (f_le (Fin (38 # 100))
        (Shared.safe_float_conversion Sample.E (FLT_HRS Sample.evening_hop_faa)) = true
      \/ (Fin (38 # 100)
          = py_round (Shared.safe_float_conversion Sample.E (FLT_HRS Sample.evening_hop_faa)) 2
          /\ whole_flight_at_night Sample.E 0 (FAA.parse_date Sample.E)
               (FAA.parse_time Sample.E 0) Sample.evening_hop_faa Sample.no_caches)).
Proof.
  split; [reflexivity |].
  destruct (night_hours_bounds Sample.E 0 Sample.evening_hop_faa Sample.no_caches eq_refl)
    as [H _].
  eapply H. vm_compute. reflexivity.
Defined.

(** C1, as stated, fails in two ways.  An evening leg of 0.375 h has 0.38
    night hours in the FAA variant, and one of 0.75 h has 0.8 night hours in
    the logbook.aero variant: more than the flight hours.  And the same leg
    with -0.5 in FLT_HRS has -0.5 night hours: fewer than 0. *)
Lemma night_hours_above_flight_hours :
  (fst (FAA.estimate_night_time Sample.E 0 Sample.evening_hop_faa Sample.no_caches)
   = Ok (Fin (38 # 100))
   /\ f_le (Fin (38 # 100))
        (Shared.safe_float_conversion Sample.E (FLT_HRS Sample.evening_hop_faa)) = false)
  /\ (fst (Aero.estimate_night_time Sample.E 0 Sample.evening_hop_aero Sample.no_caches)
      = Ok (Fin (8 # 10))
      /\ f_le (Fin (8 # 10))
           (Shared.safe_float_conversion Sample.E (FLT_HRS Sample.evening_hop_aero)) = false)
  /\ (Shared.safe_float_conversion Sample.E (FLT_HRS Sample.negative_hours)
      = Fin (- (1 # 2))
      /\ fst (FAA.estimate_night_time Sample.E 0 Sample.negative_hours Sample.no_caches)
         = Ok (Fin (- 50 # 100))
      /\ f_le f_zero (Fin (- 50 # 100)) = false).
Proof. vm_compute. repeat split. Qed.

(** C3, amended.  When the date and the times parse, both airports resolve,
    the timezone difference is at most 4 hours and the sunrise/sunset lookup
    for the destination returns, the estimator applies the simple rule: with
    a sunrise and a sunset, the flight hours rounded to the variant's decimal
    places when OFF is at or after sunset or ON is at or before sunrise;
    otherwise half the flight hours, rounded likewise, when the sunset or the
    sunrise is strictly between OFF and ON; otherwise 0; and 0 when the
    lookup returns no sunrise or no sunset.  [ndigits], [parse_date] and
    [parse_time] are 2 and the FAA parsers in [FAA.estimate_night_time], 1
    and the logbook.aero parsers in [Aero.estimate_night_time]. *)
Theorem simple_rule (E : env) (now : Z) (ndigits : nat)
  (parse_date : pyval -> res Z) (parse_time : pyval -> pyval -> res Z)
  (row : Row) (c c1 c2 : caches) (date off_time on_time : Z)
  (origin_data dest_data : airport_data) (tz_diff : Q) (s : option Z * option Z) :
  parse_date (DEPT_DATE row) = Ok date ->
  parse_time (DEPT_DATE row) (OFF row) = Ok off_time ->
  parse_time (DEPT_DATE row) (ON row) = Ok on_time ->
  Shared.get_airport_data E (ORG row) = Some origin_data ->
  Shared.get_airport_data E (DEST row) = Some dest_data ->
  Shared.get_timezone_diff E now origin_data.1.1.2 dest_data.1.1.2 c = (Ok tz_diff, c1) ->
  (tz_diff <= 4)%Q ->
  Shared.get_sunrise_sunset E (DEST row) date c1 = (Ok s, c2) ->
  let flt_time := Shared.safe_float_conversion E (FLT_HRS row) in
  exists night,
    Shared.estimate_night_time E now ndigits parse_date parse_time row c = (Ok night, c2)
    /\ match s with
       | (Some sunrise, Some sunset) =>
           (sunset <= off_time \/ on_time <= sunrise ->
            night = py_round flt_time ndigits)
           /\ (~ (sunset <= off_time \/ on_time <= sunrise) ->
               off_time < sunset < on_time \/ off_time < sunrise < on_time ->
               night = py_round (f_mul flt_time f_half) ndigits)
           /\ (~ (sunset <= off_time \/ on_time <= sunrise) ->
               ~ (off_time < sunset < on_time \/ off_time < sunrise < on_time) ->
               night = f_zero)
       | _ => night = f_zero
       end.
Proof.
  intros Hd Hoff Hon Ho Hdst Htz Hle Hsun flt_time.
  apply Qle_bool_iff in Hle.
  eexists. split; [eapply estimate_simple; eassumption |].
  destruct s as [[sunrise |] [sunset |]]; try reflexivity.
  destruct (Z.geb_spec off_time sunset), (Z.leb_spec on_time sunrise),
    (Z.ltb_spec off_time sunset), (Z.ltb_spec sunset on_time),
    (Z.ltb_spec off_time sunrise), (Z.ltb_spec sunrise on_time);
    cbn; repeat split; intros; try reflexivity; lia.
Qed.

Lemma simple_rule_witness :
  exists night,
    FAA.estimate_night_time Sample.E 0 Sample.evening_leg_faa Sample.no_caches
    = (Ok night,
       {| tz_cache := [(("Asia/Shanghai", "Asia/Bangkok")%string, 1%Q)];
          sun_cache := [((PStr "BKK", Sample.june_1_2024),
                         (Some 1717195619976000, Some 1717242419976000))] |})
    /\ (1717242419976000 <= 1717243200000000 \/ 1717252200000000 <= 1717195619976000 ->
        night = py_round (Fin (5 # 2)) 2).
Proof.
  destruct (simple_rule Sample.E 0 2 (FAA.parse_date Sample.E) (FAA.parse_time Sample.E 0)
              Sample.evening_leg_faa Sample.no_caches
              {| tz_cache := [(("Asia/Shanghai", "Asia/Bangkok")%string, 1%Q)];
                 sun_cache := [] |}
              {| tz_cache := [(("Asia/Shanghai", "Asia/Bangkok")%string, 1%Q)];
                 sun_cache := [((PStr "BKK", Sample.june_1_2024),
                                (Some 1717195619976000, Some 1717242419976000))] |}
              Sample.june_1_2024 1717243200000000 1717252200000000
              ("Guangzhou", "Asia/Shanghai", Fin (233924 # 10000), Fin (1132988 # 10000))%string
              ("Bangkok", "Asia/Bangkok", Fin (136900 # 10000), Fin (1007501 # 10000))%string
              1%Q (Some 1717195619976000, Some 1717242419976000)
              eq_refl eq_refl eq_refl eq_refl eq_refl)
    as (night & Hrun & Hnight & _).
  - vm_compute. reflexivity.
  - vm_compute. discriminate.
  - vm_compute. reflexivity.
  - exists night. split; [exact Hrun | exact Hnight].
Defined.

(** C3, as stated, fails: for an evening leg of 1.25 h between two airports
    one zone apart, flown wholly after sunset at the destination, the
    logbook.aero variant returns 1.2, which is not the flight hours; and for
    a destination where the sun calculation raises, the estimator raises
    too. *)
Lemma whole_night_is_rounded :
  fst (Aero.estimate_night_time Sample.E 0 Sample.evening_leg_aero Sample.no_caches)
  = Ok (Fin (12 # 10))
  /\ f_eq (Fin (12 # 10))
       (Shared.safe_float_conversion Sample.E (FLT_HRS Sample.evening_leg_aero)) = false
  /\ fst (Shared.get_timezone_diff Sample.E 0 "Asia/Shanghai" "Asia/Bangkok" Sample.no_caches)
     = Ok 1%Q
  /\ fst (Shared.get_sunrise_sunset Sample.E (PStr "BKK") Sample.june_1_2024 Sample.no_caches)
     = Ok (Some 1717195619976000, Some 1717242419976000)
  /\ Aero.parse_time Sample.E 0 (PStr "2024-06-01") (PStr "12:00") = Ok 1717243200000000
  /\ 1717242419976000 <= 1717243200000000
  /\ fst (Shared.get_timezone_diff Sample.E 0 "Europe/Oslo" "Arctic/Longyearbyen"
            Sample.no_caches) = Ok 0%Q
  /\ fst (FAA.estimate_night_time Sample.E 0 Sample.polar_leg Sample.no_caches)
     = Raise ValueError.
Proof. vm_compute. repeat split. discriminate. Qed.

(** The sampling instants are the ten-minute steps from OFF that are before
    ON. *)
Lemma sample_instants_spec (off_time on_time instant : Z) :
  In instant (sample_instants off_time on_time) <->
  exists i : nat,
    instant = off_time + Z.of_nat i * timedelta_minutes 10 /\ instant < on_time.
Proof.
  unfold sample_instants, sample_count, timedelta_minutes, usec_per_minute.
  rewrite in_map_iff.
  assert (forall i : nat,
            (i < Z.to_nat ((on_time - off_time + 599999999) / 600000000))%nat
            <-> off_time + Z.of_nat i * (10 * 60000000) < on_time) as Hi.
  { intros i. split; intros H.
    - assert (Z.of_nat i + 1 <= (on_time - off_time + 599999999) / 600000000) as H1
        by lia.
      assert (600000000 * (Z.of_nat i + 1) <= on_time - off_time + 599999999); [| lia].
      etransitivity; [apply Z.mul_le_mono_nonneg_l; [lia | exact H1] |].
      apply Z.mul_div_le. lia.
    - assert (Z.of_nat i + 1 <= (on_time - off_time + 599999999) / 600000000); [| lia].
      apply Z.div_le_lower_bound; lia. }
  split.
  - intros (i & <- & Hin). exists i. apply in_seq in Hin.
    split; [reflexivity | apply Hi; lia].
  - intros (i & -> & Hlt). exists i. split; [reflexivity |].
    apply in_seq. apply Hi in Hlt. lia.
Qed.

(** C4, amended.  When the date and the times parse, both airports resolve
    and the timezone difference exceeds 4 hours, the estimator samples
    [off_time, on_time) every ten minutes, interpolates latitude and
    longitude linearly by the elapsed fraction of the flight, credits ten
    minutes for every sample before that day's sunrise or after that day's
    sunset at the interpolated position, credits nothing for a sample whose
    sun calculation fails, and returns the credited minutes converted to
    hours, rounded to the variant's decimal places (two in the FAA variant,
    one in the logbook.aero variant) and then capped by the flight hours with
    [min].  [ndigits], [parse_date] and [parse_time] are 2 and the FAA parsers
    in [FAA.estimate_night_time], 1 and the logbook.aero parsers in
    [Aero.estimate_night_time]. *)
Theorem interpolated_rule (E : env) (now : Z) (ndigits : nat)
  (parse_date : pyval -> res Z) (parse_time : pyval -> pyval -> res Z)
  (row : Row) (c c1 : caches) (date off_time on_time : Z)
  (origin_data dest_data : airport_data) (tz_diff : Q) :
  parse_date (DEPT_DATE row) = Ok date ->
  parse_time (DEPT_DATE row) (OFF row) = Ok off_time ->
  parse_time (DEPT_DATE row) (ON row) = Ok on_time ->
  Shared.get_airport_data E (ORG row) = Some origin_data ->
  Shared.get_airport_data E (DEST row) = Some dest_data ->
  Shared.get_timezone_diff E now origin_data.1.1.2 dest_data.1.1.2 c = (Ok tz_diff, c1) ->
  (4 < tz_diff)%Q ->
  Shared.estimate_night_time E now ndigits parse_date parse_time row c
  = (Ok (py_min
           (py_round
              (Fin (inject_Z (credited_minutes E origin_data dest_data off_time on_time)
                    / 60))
              ndigits)
           (Shared.safe_float_conversion E (FLT_HRS row))), c1)
  /\ (forall instant,
        In instant (sample_instants off_time on_time) <->
        exists i : nat,
          instant = off_time + Z.of_nat i * timedelta_minutes 10 /\ instant < on_time)
  /\ f_gt (py_min
             (py_round
                (Fin (inject_Z (credited_minutes E origin_data dest_data off_time on_time)
                      / 60))
                ndigits)
             (Shared.safe_float_conversion E (FLT_HRS row)))
          (Shared.safe_float_conversion E (FLT_HRS row)) = false.
Proof.
  intros Hd Hoff Hon Ho Hdst Htz Hgt. repeat split.
  - eapply estimate_interpolated; try eassumption.
    destruct (Qle_bool tz_diff 4) eqn:Hle; [| reflexivity].
    apply Qle_bool_iff in Hle. lra.
  - apply sample_instants_spec.
  - apply sample_instants_spec.
  - apply py_min_not_above.
Qed.

Lemma interpolated_rule_witness :
  (4 < 13)%Q
  /\ Shared.estimate_night_time Sample.E 0 2 (FAA.parse_date Sample.E)
       (FAA.parse_time Sample.E 0) Sample.long_haul Sample.no_caches
     = (Ok (py_min
              (py_round
                 (Fin (inject_Z
                         (credited_minutes Sample.E
                            ("John F Kennedy International Airport", "America/New_York",
                             Fin (406398 # 10000), Fin (- 737789 # 10000))%string
                            ("Osaka", "Asia/Tokyo",
                             Fin (344347 # 10000), Fin (1352440 # 10000))%string
                            1717207200000000 1717254000000000) / 60))
                 2)
              (Shared.safe_float_conversion Sample.E (FLT_HRS Sample.long_haul))),
        {| tz_cache := [(("America/New_York", "Asia/Tokyo")%string, 13%Q)];
           sun_cache := [] |}).
Proof.
  assert (FAA.parse_date Sample.E (DEPT_DATE Sample.long_haul) = Ok Sample.june_1_2024)
    as Hd by (vm_compute; reflexivity).
  assert (FAA.parse_time Sample.E 0 (DEPT_DATE Sample.long_haul) (OFF Sample.long_haul)
          = Ok 1717207200000000) as Hoff by (vm_compute; reflexivity).
  assert (FAA.parse_time Sample.E 0 (DEPT_DATE Sample.long_haul) (ON Sample.long_haul)
          = Ok 1717254000000000) as Hon by (vm_compute; reflexivity).
  assert (Shared.get_airport_data Sample.E (ORG Sample.long_haul)
          = Some ("John F Kennedy International Airport", "America/New_York",
                  Fin (406398 # 10000), Fin (- 737789 # 10000))%string)
    as Ho by (vm_compute; reflexivity).
  assert (Shared.get_airport_data Sample.E (DEST Sample.long_haul)
          = Some ("Osaka", "Asia/Tokyo",
                  Fin (344347 # 10000), Fin (1352440 # 10000))%string)
    as Hdst by (vm_compute; reflexivity).
  assert (Shared.get_timezone_diff Sample.E 0 "America/New_York" "Asia/Tokyo"
            Sample.no_caches
          = (Ok 13%Q, {| tz_cache := [(("America/New_York", "Asia/Tokyo")%string, 13%Q)];
                         sun_cache := [] |}))
    as Htz by (vm_compute; reflexivity).
  assert (4 < 13)%Q as Hgt by reflexivity.
  split; [exact Hgt |].
  exact (proj1 (interpolated_rule Sample.E 0 2 (FAA.parse_date Sample.E)
                  (FAA.parse_time Sample.E 0) Sample.long_haul Sample.no_caches _
                  _ _ _ _ _ 13%Q Hd Hoff Hon Ho Hdst Htz Hgt)).
Defined.

(** C4, as stated, fails.  One hour from New York towards Osaka, thirteen
    zones apart, has six samples.  Whatever the sun calculation returns, when
    four of them are at night the forty credited minutes give 0.67 h in the
    FAA variant and 0.7 h in the logbook.aero variant, not 40/60 h; with the
    sun of the sample environment one sample is at night and the ten credited
    minutes give 0.17 h and 0.2 h, not 10/60 h.  The flight hour caps none of
    these. *)
Lemma credited_hours_are_rounded :
  (forall sun',
     credited_minutes (Sample.E_with_sun sun')
       ("John F Kennedy International Airport", "America/New_York",
        Fin (406398 # 10000), Fin (- 737789 # 10000))%string
       ("Osaka", "Asia/Tokyo", Fin (344347 # 10000), Fin (1352440 # 10000))%string
       1717228800000000 1717232400000000 = 40 ->
     fst (FAA.estimate_night_time (Sample.E_with_sun sun') 0 Sample.night_crossing
            Sample.no_caches)
     = Ok (Fin (67 # 100))
     /\ fst (Aero.estimate_night_time (Sample.E_with_sun sun') 0
               Sample.night_crossing_aero Sample.no_caches)
        = Ok (Fin (7 # 10)))
  /\ f_eq (Fin (67 # 100)) (py_min (Fin (40 # 60)) (Fin 1)) = false
  /\ f_eq (Fin (7 # 10)) (py_min (Fin (40 # 60)) (Fin 1)) = false
  /\ credited_minutes Sample.E
       ("John F Kennedy International Airport", "America/New_York",
        Fin (406398 # 10000), Fin (- 737789 # 10000))%string
       ("Osaka", "Asia/Tokyo", Fin (344347 # 10000), Fin (1352440 # 10000))%string
       1717228800000000 1717232400000000 = 10
  /\ fst (FAA.estimate_night_time Sample.E 0 Sample.night_crossing Sample.no_caches)
     = Ok (Fin (17 # 100))
  /\ f_eq (Fin (17 # 100)) (py_min (Fin (10 # 60)) (Fin 1)) = false
  /\ fst (Aero.estimate_night_time Sample.E 0 Sample.night_crossing_aero Sample.no_caches)
     = Ok (Fin (2 # 10))
  /\ f_eq (Fin (2 # 10)) (py_min (Fin (10 # 60)) (Fin 1)) = false.
Proof.
  split; [| vm_compute; repeat split].
  intros sun' Hminutes.
  assert (Shared.get_timezone_diff (Sample.E_with_sun sun') 0
            "America/New_York" "Asia/Tokyo" Sample.no_caches
          = (Ok 13%Q, {| tz_cache := [(("America/New_York", "Asia/Tokyo")%string, 13%Q)];
                         sun_cache := [] |}))
    as Htz by (vm_compute; reflexivity).
  split.
  - unfold FAA.estimate_night_time.
    rewrite (estimate_interpolated (Sample.E_with_sun sun') 0 2 _ _
               Sample.night_crossing Sample.no_caches _ Sample.june_1_2024
               1717228800000000 1717232400000000
               ("John F Kennedy International Airport", "America/New_York",
                Fin (406398 # 10000), Fin (- 737789 # 10000))%string
               ("Osaka", "Asia/Tokyo", Fin (344347 # 10000), Fin (1352440 # 10000))%string
               13%Q eq_refl eq_refl eq_refl eq_refl eq_refl Htz eq_refl).
    rewrite Hminutes. vm_compute. reflexivity.
  - unfold Aero.estimate_night_time.
    rewrite (estimate_interpolated (Sample.E_with_sun sun') 0 1 _ _
               Sample.night_crossing_aero Sample.no_caches _ Sample.june_1_2024
               1717228800000000 1717232400000000
               ("John F Kennedy International Airport", "America/New_York",
                Fin (406398 # 10000), Fin (- 737789 # 10000))%string
               ("Osaka", "Asia/Tokyo", Fin (344347 # 10000), Fin (1352440 # 10000))%string
               13%Q eq_refl eq_refl eq_refl eq_refl eq_refl Htz eq_refl).
    rewrite Hminutes. vm_compute. reflexivity.
Qed.

(** C8, amended.  For a flight record whose departure date parses (and, in
    the logbook.aero variant, whose OFF and ON values its time parser reads
    without raising) and whose origin or destination code resolves in
    neither the primary table nor the fallback table, the estimator returns
    exactly 0, raises nothing and leaves the caches as they are. *)
Theorem unresolved_airport_zero (E : env) (now : Z) (row : Row) (c : caches) :
  Shared.get_airport_data E (ORG row) = None
  \/ Shared.get_airport_data E (DEST row) = None ->
  (forall date,
     FAA.parse_date E (DEPT_DATE row) = Ok date ->
     FAA.estimate_night_time E now row c = (Ok f_zero, c))
  /\ (forall date off_time on_time,
        Aero.parse_date_flexible E (DEPT_DATE row) = Ok date ->
        Aero.parse_time E now (DEPT_DATE row) (OFF row) = Ok off_time ->
        Aero.parse_time E now (DEPT_DATE row) (ON row) = Ok on_time ->
        Aero.estimate_night_time E now row c = (Ok f_zero, c)).
Proof.
  intros Hnone. split.
  - intros date Hd.
    destruct (FAA_parse_time_ok E now (DEPT_DATE row) (OFF row)) as [off_time Hoff].
    destruct (FAA_parse_time_ok E now (DEPT_DATE row) (ON row)) as [on_time Hon].
    eapply estimate_unresolved; eassumption.
  - intros date off_time on_time Hd Hoff Hon.
    eapply estimate_unresolved; eassumption.
Qed.

Lemma unresolved_airport_zero_witness :
  (Shared.get_airport_data Sample.E (ORG Sample.unknown_origin) = None
   \/ Shared.get_airport_data Sample.E (DEST Sample.unknown_origin) = None)
  /\ FAA.estimate_night_time Sample.E 0 Sample.unknown_origin Sample.no_caches
     = (Ok f_zero, Sample.no_caches).
Proof.
  split; [left; reflexivity |].
  destruct (unresolved_airport_zero Sample.E 0 Sample.unknown_origin Sample.no_caches
              (or_introl eq_refl)) as [H _].
  apply (H Sample.june_1_2024). reflexivity.
Defined.

(** C8, as stated, fails: a record with an origin in no table and a date
    that is not in the variant's format makes the estimator raise
    [ValueError], in the FAA variant at its first statement. *)
Lemma unresolved_airport_bad_date_raises :
  Shared.get_airport_data Sample.E (ORG Sample.unknown_origin_iso_date) = None
  /\ FAA.estimate_night_time Sample.E 0 Sample.unknown_origin_iso_date Sample.no_caches
     = (Raise ValueError, Sample.no_caches)
  /\ Aero.estimate_night_time Sample.E 0
       (Sample.flight "1 June 2024" "XXX" "BKK" "12:00" "14:30" (5 # 2) (11 # 4))
       Sample.no_caches
     = (Raise ValueError, Sample.no_caches).
Proof. vm_compute. repeat split. Qed.

(** ** Crew time *)

Lemma f_mul_fraction_not_above (block fraction : pyfloat) :
  f_le f_zero block = true ->
  fraction = f_one \/ fraction = f_zero \/ fraction = f_half ->
  f_gt (f_mul block fraction) block = false.
Proof.
  unfold f_gt.
  intros Hb [-> | [-> | ->]]; destruct block as [q | [] |]; try discriminate;
    try reflexivity; apply f_le_Fin in Hb; simpl; apply Qltb_ge; lra.
Qed.

Lemma known_distribution (position : string) (d : pyfloat * pyfloat * pyfloat) :
  CREW_POSITION_DISTRIBUTION !! position = Some d ->
  (d.1.1 = f_one \/ d.1.1 = f_zero \/ d.1.1 = f_half)
  /\ (d.1.2 = f_one \/ d.1.2 = f_zero \/ d.1.2 = f_half).
Proof.
  unfold CREW_POSITION_DISTRIBUTION. cbn [list_to_map foldr uncurry].
  intros H.
  repeat (apply lookup_insert_Some in H as [[_ <-] | [_ H]]; [cbn; tauto |]).
  rewrite lookup_empty in H. discriminate.
Qed.

(** C2, amended.  For a known crew role: in the logbook.aero variant the
    apportioned PIC and co-pilot times never exceed the block hours, an OE
    override being capped with [min] and the result capped once more; in the
    FAA variant an OE override that supplies a PIC or SIC time is returned as
    it is, without a cap, and a time computed from the distribution does not
    exceed block hours that are not negative. *)
Theorem crew_time_ceiling (E : env) (row : Row) (position : string)
  (oe_data : gmap string flight_data) :
  is_Some (CREW_POSITION_DISTRIBUTION !! position) ->
  let block := Shared.safe_float_conversion E (BLK_HRS row) in
  (exists t,
     Aero.assign_crew_time E row position oe_data = Ok t
     /\ f_gt (Aero.PIC_Time t) block = false
     /\ f_gt (Aero.CoPilot_Time t) block = false)
  /\ (exists t,
        FAA.assign_crew_time E row position oe_data = Ok t
        /\ match oe_data !! FAA.flight_id E row ≫= fd_pic_time with
           | Some override => FAA.PIC t = override
           | None => f_le f_zero block = true -> f_gt (FAA.PIC t) block = false
           end
        /\ match oe_data !! FAA.flight_id E row ≫= fd_sic_time with
           | Some override => FAA.SIC t = override
           | None => f_le f_zero block = true -> f_gt (FAA.SIC t) block = false
           end).
Proof.
  intros [d Hd] block. pose proof (known_distribution _ _ Hd) as [Hpic Hsic]. split.
  - unfold Aero.assign_crew_time. rewrite Hd. cbn [of_option mbind res_bind].
    destruct (oe_data !! Aero.flight_id E row) as [fd |];
      eexists; (split; [reflexivity |]); cbn; split; apply py_min_not_above.
  - unfold FAA.assign_crew_time. rewrite Hd. cbn [of_option mbind res_bind].
    destruct (oe_data !! FAA.flight_id E row) as [fd |]; cbn.
    + eexists. split; [reflexivity |]. cbn.
      destruct (fd_pic_time fd), (fd_sic_time fd); cbn; repeat split;
        intros; apply f_mul_fraction_not_above; assumption.
    + eexists. split; [reflexivity |]. cbn.
      split; intros; apply f_mul_fraction_not_above; assumption.
Qed.

Lemma crew_time_ceiling_witness :
  is_Some (CREW_POSITION_DISTRIBUTION !! "first_officer"%string)
  /\ exists t,
       Aero.assign_crew_time Sample.E Sample.five_hours "first_officer"
         (Aero.load_oe_data Sample.E Sample.oe_seat_fo) = Ok t
       /\ f_gt (Aero.PIC_Time t) (Fin 5) = false
       /\ f_gt (Aero.CoPilot_Time t) (Fin 5) = false.
Proof.
  split; [eexists; reflexivity |].
  apply (crew_time_ceiling Sample.E Sample.five_hours "first_officer"
           (Aero.load_oe_data Sample.E Sample.oe_seat_fo)).
  eexists; reflexivity.
Defined.

(** C2, as stated, fails: with five block hours and an OE file that gives
    the first officer six SIC hours, the FAA variant returns six SIC
    hours. *)
Lemma override_above_block_hours :
  FAA.load_oe_data Sample.E Sample.oe_seat_fo
  = {[ "0123"%string := {| fd_role := "first_officer";
                            fd_pic_time := Some f_zero;
                            fd_sic_time := Some (Fin 6) |} ]}
  /\ (exists t,
        FAA.assign_crew_time Sample.E Sample.five_hours "first_officer"
          (FAA.load_oe_data Sample.E Sample.oe_seat_fo) = Ok t
        /\ FAA.SIC t = Fin 6
        /\ Shared.safe_float_conversion Sample.E (BLK_HRS Sample.five_hours) = Fin 5
        /\ f_gt (FAA.SIC t) (Fin 5) = true).
Proof.
  split; [reflexivity |]. eexists. split; [reflexivity |]. repeat split.
Qed.

(** ** Memoisation *)

Section LruFacts.
Context {K V : Type} (key_eqb : K -> K -> bool) (f : K -> res V).
Hypothesis key_eqb_sound : forall a b, key_eqb a b = true -> f a = f b.

Lemma lru_find_ok (k : K) (v : V) (c : list (K * V)) :
  entries_ok f c -> lru_find key_eqb k c = Some v -> f k = Ok v.
Proof.
  induction 1 as [| [k' v'] c Hkv Hc IH]; [discriminate |]. cbn.
  destruct (key_eqb k k') eqn:Hk; [| exact IH].
  intros [= <-]. rewrite (key_eqb_sound _ _ Hk). exact Hkv.
Qed.

Lemma lru_remove_ok (k : K) (c : list (K * V)) :
  entries_ok f c -> entries_ok f (lru_remove key_eqb k c).
Proof.
  induction 1 as [| [k' v'] c Hkv Hc IH]; [constructor |]. cbn.
  destruct (key_eqb k k'); [exact Hc | constructor; assumption].
Qed.

(** A memoised call returns what the function returns and stores nothing
    else. *)
Lemma lru_call_ok (maxsize : nat) (k : K) (c : list (K * V)) :
  entries_ok f c ->
  fst (lru_call key_eqb maxsize f k c) = f k
  /\ entries_ok f (snd (lru_call key_eqb maxsize f k c)).
Proof.
  intros Hc. unfold lru_call.
  destruct (lru_find key_eqb k c) as [v |] eqn:Hfind.
  - pose proof (lru_find_ok _ _ _ Hc Hfind) as Hv. cbn. split; [congruence |].
    constructor; [exact Hv | apply lru_remove_ok; exact Hc].
  - destruct (f k) as [v | e] eqn:Hv; cbn; split; try reflexivity; [| exact Hc].
    apply Forall_take. constructor; assumption.
Qed.
End LruFacts.

Lemma tz_key_eqb_eq (a b : string * string) : tz_key_eqb a b = true -> a = b.
Proof.
  destruct a as [a1 a2], b as [b1 b2]. unfold tz_key_eqb. cbn.
  rewrite andb_true_iff, !String.eqb_eq. intros [-> ->]. reflexivity.
Qed.

Lemma sun_key_eqb_sound (E : env) (a b : pyval * Z) :
  sun_key_eqb a b = true -> Shared.sunrise_sunset E a = Shared.sunrise_sunset E b.
Proof.
  destruct a as [a d], b as [b d']. unfold sun_key_eqb, Shared.sunrise_sunset. cbn.
  rewrite andb_true_iff, Z.eqb_eq. intros [Hab ->].
  destruct a, b; try discriminate; try reflexivity.
  apply String.eqb_eq in Hab. subst. reflexivity.
Qed.

Section TransparencyFacts.
Context (E : env) (now : Z).

Lemma transparent_ret {A} (a : A) : cache_transparent E now (mret a).
Proof. exists (Ok a). intros c Hc. split; [reflexivity | exact Hc]. Qed.

Lemma transparent_lift {A} (r : res A) : cache_transparent E now (lift r).
Proof. exists r. intros c Hc. split; [reflexivity | exact Hc]. Qed.

Lemma transparent_bind {A B} (m : M A) (k : A -> M B) :
  cache_transparent E now m ->
  (forall a, cache_transparent E now (k a)) ->
  cache_transparent E now (m ≫= k).
Proof.
  intros [[a | e] Hm] Hk.
  - destruct (Hk a) as [r Hr]. exists r. intros c Hc.
    destruct (Hm c Hc) as [Hfst Hsnd]. unfold mbind, M_bind.
    destruct (m c) as [r' c']. cbn in Hfst, Hsnd. subst r'. apply Hr, Hsnd.
  - exists (Raise e). intros c Hc.
    destruct (Hm c Hc) as [Hfst Hsnd]. unfold mbind, M_bind.
    destruct (m c) as [r' c']. cbn in Hfst, Hsnd. subst r'. split; [reflexivity | exact Hsnd].
Qed.

Lemma transparent_timezone_diff (tz1 tz2 : string) :
  cache_transparent E now (Shared.get_timezone_diff E now tz1 tz2).
Proof.
  exists (Shared.timezone_diff E now (tz1, tz2)). intros c [Htz Hsun].
  unfold Shared.get_timezone_diff.
  destruct (lru_call_ok tz_key_eqb (Shared.timezone_diff E now)
              (fun a b H => f_equal _ (tz_key_eqb_eq a b H)) 128 (tz1, tz2)
              (tz_cache c) Htz) as [Hfst Hsnd].
  destruct (lru_call _ _ _ _ _) as [r tzc]. cbn in *.
  split; [exact Hfst | split; assumption].
Qed.

Lemma transparent_sunrise_sunset (airport_code : pyval) (date : Z) :
  cache_transparent E now (Shared.get_sunrise_sunset E airport_code date).
Proof.
  exists (Shared.sunrise_sunset E (airport_code, date)). intros c [Htz Hsun].
  unfold Shared.get_sunrise_sunset.
  destruct (lru_call_ok sun_key_eqb (Shared.sunrise_sunset E)
              (sun_key_eqb_sound E) 256 (airport_code, date)
              (sun_cache c) Hsun) as [Hfst Hsnd].
  destruct (lru_call _ _ _ _ _) as [r sc]. cbn in *.
  split; [exact Hfst | split; assumption].
Qed.

Lemma transparent_estimate (ndigits : nat) (parse_date : pyval -> res Z)
  (parse_time : pyval -> pyval -> res Z) (row : Row) :
  cache_transparent E now
    (Shared.estimate_night_time E now ndigits parse_date parse_time row).
Proof.
  unfold Shared.estimate_night_time.
  apply transparent_bind; [apply transparent_lift | intros date].
  apply transparent_bind; [apply transparent_lift | intros off_time].
  apply transparent_bind; [apply transparent_lift | intros on_time].
  destruct (Shared.get_airport_data E (ORG row)) as [origin_data |];
    [| apply transparent_ret].
  destruct (Shared.get_airport_data E (DEST row)) as [dest_data |];
    [| apply transparent_ret].
  apply transparent_bind; [apply transparent_timezone_diff | intros tz_diff].
  destruct (Qle_bool tz_diff 4); [| apply transparent_ret].
  apply transparent_bind; [apply transparent_sunrise_sunset | intros [[sunrise |] [sunset |]]];
    try apply transparent_ret.
  destruct ((off_time >=? sunset) || (on_time <=? sunrise)); [apply transparent_ret |].
  destruct (((off_time <? sunset) && (sunset <? on_time))
            || ((off_time <? sunrise) && (sunrise <? on_time))); apply transparent_ret.
Qed.

Lemma transparent_FAA_row (position : string) (oe_data : gmap string flight_data)
  (row : Row) :
  cache_transparent E now (FAA.process_row E now position oe_data row).
Proof.
  unfold FAA.process_row.
  apply transparent_bind; [apply transparent_estimate | intros night].
  apply transparent_bind; [apply transparent_lift | intros landings].
  apply transparent_bind; [apply transparent_lift | intros crew].
  apply transparent_ret.
Qed.

Lemma transparent_Aero_row (position : string) (oe_data : gmap string flight_data)
  (row : Row) :
  cache_transparent E now (Aero.process_row E now position oe_data row).
Proof.
  unfold Aero.process_row.
  apply transparent_bind; [apply transparent_estimate | intros night].
  apply transparent_bind; [apply transparent_lift | intros landings].
  apply transparent_bind; [apply transparent_lift | intros takeoffs].
  apply transparent_bind; [apply transparent_lift | intros crew].
  apply transparent_ret.
Qed.

Lemma transparent_two_runs {A} (m : M A) (c1 c2 : caches) :
  cache_transparent E now m ->
  caches_ok E now c1 -> caches_ok E now c2 ->
  fst (m c1) = fst (m c2)
  /\ caches_ok E now (snd (m c1)) /\ caches_ok E now (snd (m c2)).
Proof.
  intros [r Hr] H1 H2. destruct (Hr c1 H1) as [Ha Hc1], (Hr c2 H2) as [Hb Hc2].
  split; [congruence | split; assumption].
Qed.
End TransparencyFacts.

(** C9.  Two runs of the per-row engine on the same flight record, role and
    OE data, with the same reading of the clock, produce the same night
    time, landing (and takeoff) classification and crew time, or raise the
    same exception, whatever the memoisation stores hold at the start of
    each run, provided each holds only results memoised at that reading of
    the clock; the stores are left in that state. *)
Theorem engine_deterministic (E : env) (now : Z) (position : string)
  (oe_data : gmap string flight_data) (row : Row) (c1 c2 : caches) :
  caches_ok E now c1 -> caches_ok E now c2 ->
  (fst (FAA.process_row E now position oe_data row c1)
   = fst (FAA.process_row E now position oe_data row c2)
   /\ caches_ok E now (snd (FAA.process_row E now position oe_data row c1))
   /\ caches_ok E now (snd (FAA.process_row E now position oe_data row c2)))
  /\ (fst (Aero.process_row E now position oe_data row c1)
      = fst (Aero.process_row E now position oe_data row c2)
      /\ caches_ok E now (snd (Aero.process_row E now position oe_data row c1))
      /\ caches_ok E now (snd (Aero.process_row E now position oe_data row c2))).
Proof.
  intros H1 H2. split; apply transparent_two_runs;
    auto using transparent_FAA_row, transparent_Aero_row.
Qed.

Lemma engine_deterministic_witness :
  caches_ok Sample.E 0 Sample.no_caches
  /\ caches_ok Sample.E 0 Sample.warm_caches
  /\ fst (FAA.process_row Sample.E 0 "captain" ∅ Sample.evening_leg_faa Sample.no_caches)
     = fst (FAA.process_row Sample.E 0 "captain" ∅ Sample.evening_leg_faa Sample.warm_caches).
Proof.
  assert (caches_ok Sample.E 0 Sample.no_caches) as H1
    by (split; constructor).
  assert (caches_ok Sample.E 0 Sample.warm_caches) as H2
    by (split; repeat constructor).
  split; [exact H1 |]. split; [exact H2 |].
  apply (engine_deterministic Sample.E 0 "captain" ∅ Sample.evening_leg_faa
           Sample.no_caches Sample.warm_caches H1 H2).
Defined.

(** ** Operating-Experience overrides *)

(** In a file with a SEAT column, a recorded PIC override is positive, or
    it is the zero written for a first-officer seat. *)
Lemma seat_row_pic_override (E : env) (oe_df : DataFrame) (row : gmap string pyval)
  (t : pyfloat) :
  has_column oe_df "SEAT" = true ->
  fd_pic_time (OE.row_flight_data E oe_df row) = Some t ->
  f_gt t f_zero = true
  \/ (t = f_zero
      /\ (fd_role (OE.row_flight_data E oe_df row) = "first_officer"%string
          \/ fd_role (OE.row_flight_data E oe_df row) = "relief_first_officer"%string)).
Proof.
  intros Hseat. unfold OE.row_flight_data, OE.positive_or_none. rewrite Hseat.
  repeat match goal with
         | |- context [if ?b then _ else _] => destruct b eqn:?
         end; cbn in *; rewrite ?andb_false_r in *; try discriminate;
    intros [= <-]; auto.
Qed.

(** C10.  The claim fails on a row of an OE file that has a ROLE column
    and no SEAT column: a PIC_OE of 0 is recorded as the override 0.0, and
    the captain's PIC time for the flight becomes 0.0 instead of the five
    block hours; with a SEAT column the same 0 is recorded as absent and the
    PIC time stays at five hours. *)
Theorem role_row_zero_override :
  (FAA.load_oe_data Sample.E Sample.oe_role_pic_zero
   = {[ "0123"%string := {| fd_role := "captain";
                             fd_pic_time := Some f_zero;
                             fd_sic_time := Some f_zero |} ]}
   /\ FAA.assign_crew_time Sample.E Sample.five_hours "captain"
        (FAA.load_oe_data Sample.E Sample.oe_role_pic_zero)
      = Ok {| FAA.PIC := Fin 0; FAA.SIC := Fin 0;
              FAA.Duration := Fin (9 # 2); FAA.XC := Fin 5 |})
  /\ (FAA.load_oe_data Sample.E Sample.oe_seat_capt_zero
      = {[ "0123"%string := {| fd_role := "captain";
                                fd_pic_time := None;
                                fd_sic_time := Some f_zero |} ]}
      /\ FAA.assign_crew_time Sample.E Sample.five_hours "captain"
           (FAA.load_oe_data Sample.E Sample.oe_seat_capt_zero)
         = Ok {| FAA.PIC := Fin 5; FAA.SIC := Fin 0;
                 FAA.Duration := Fin (9 # 2); FAA.XC := Fin 5 |})
  /\ (exists t,
        Aero.assign_crew_time Sample.E
          (Sample.flight "2024-06-01" "CAN" "BKK" "01:00" "05:30" (9 # 2) 5) "captain"
          (Aero.load_oe_data Sample.E
             {| columns := ["FLIGHT"; "ORG"; "DEST"; "FLT_DT"; "ROLE"; "PIC_OE"]%string;
                rows := [ {[ "FLIGHT"%string := PInt 123;
                             "ORG"%string := PStr "CAN";
                             "DEST"%string := PStr "BKK";
                             "FLT_DT"%string := PStr "01JUN2024";
                             "ROLE"%string := PStr "PIC";
                             "PIC_OE"%string := PInt 0 ]} ] |}) = Ok t
        /\ Aero.PIC_Time t = Fin 0).
Proof.
  repeat split; try (vm_compute; reflexivity).
  eexists. split; vm_compute; reflexivity.
Qed.

(** * Further properties of the code *)

(** ** The memoised lookups *)

Section LruMoreFacts.
Context {K V : Type} (key_eqb : K -> K -> bool).
Hypothesis key_eqb_refl : forall k, key_eqb k k = true.

Lemma lru_remove_length (k : K) (v : V) (c : list (K * V)) :
  lru_find key_eqb k c = Some v ->
  S (length (lru_remove key_eqb k c)) = length c.
Proof.
  induction c as [| [k' v'] c IH]; [discriminate |]. cbn.
  destruct (key_eqb k k'); [reflexivity |].
  intros H. cbn. rewrite (IH H). reflexivity.
Qed.

(** A store within its size stays within it. *)
Lemma lru_call_length (maxsize : nat) (f : K -> res V) (k : K) (c : list (K * V)) :
  (length c <= maxsize)%nat ->
  (length (snd (lru_call key_eqb maxsize f k c)) <= maxsize)%nat.
Proof.
  intros Hc. unfold lru_call.
  destruct (lru_find key_eqb k c) as [v |] eqn:Hfind.
  - cbn. rewrite (lru_remove_length _ _ _ Hfind). exact Hc.
  - destruct (f k) as [v | e]; cbn [snd]; [| exact Hc].
    rewrite length_take. lia.
Qed.

(** After a call that returned, the same call is a hit that returns the
    same result and leaves the store as it is, whatever the wrapped
    function would now compute. *)
Lemma lru_call_again (maxsize : nat) (f g : K -> res V) (k : K) (v : V)
  (c c' : list (K * V)) :
  (0 < maxsize)%nat ->
  lru_call key_eqb maxsize f k c = (Ok v, c') ->
  lru_call key_eqb maxsize g k c' = (Ok v, c').
Proof.
  intros Hmax. unfold lru_call at 1.
  assert (forall rest, lru_call key_eqb maxsize g k ((k, v) :: rest)
                       = (Ok v, (k, v) :: rest)) as Hhit.
  { intros rest. unfold lru_call. cbn. rewrite key_eqb_refl. reflexivity. }
  destruct (lru_find key_eqb k c) as [v0 |].
  - intros [= -> <-]. apply Hhit.
  - destruct (f k) as [v0 | e]; [| discriminate].
    intros [= -> <-]. destruct maxsize as [| n]; [lia |]. cbn. apply Hhit.
Qed.
End LruMoreFacts.

Lemma tz_key_eqb_refl (k : string * string) : tz_key_eqb k k = true.
Proof. unfold tz_key_eqb. rewrite !String.eqb_refl. reflexivity. Qed.

Section LruEntryFacts.
Context {K V : Type} (key_eqb : K -> K -> bool).
Hypothesis key_eqb_refl : forall k, key_eqb k k = true.
Hypothesis key_eqb_eq : forall a b, key_eqb a b = true -> a = b.

(** A call that returned leaves its entry in the store. *)
Lemma lru_call_held (maxsize : nat) (f : K -> res V) (k : K) (v : V)
  (c c' : list (K * V)) :
  (0 < maxsize)%nat ->
  lru_call key_eqb maxsize f k c = (Ok v, c') ->
  lru_find key_eqb k c' = Some v.
Proof.
  intros Hmax. unfold lru_call.
  destruct (lru_find key_eqb k c) as [v0 |].
  - intros [= -> <-]. cbn. rewrite key_eqb_refl. reflexivity.
  - destruct (f k) as [v0 | e]; [| discriminate].
    intros [= -> <-]. destruct maxsize as [| n]; [lia |].
    cbn. rewrite key_eqb_refl. reflexivity.
Qed.

(** A call for a key that the store holds returns the stored value,
    whatever the wrapped function is, and the store still holds it. *)
Lemma lru_call_hit (maxsize : nat) (g : K -> res V) (k : K) (v : V) (c : list (K * V)) :
  lru_find key_eqb k c = Some v ->
  fst (lru_call key_eqb maxsize g k c) = Ok v
  /\ lru_find key_eqb k (snd (lru_call key_eqb maxsize g k c)) = Some v.
Proof.
  intros Hfind. unfold lru_call. rewrite Hfind. cbn.
  rewrite key_eqb_refl. split; reflexivity.
Qed.

Lemma lru_find_remove_other (k k' : K) (c : list (K * V)) :
  k' <> k ->
  lru_find key_eqb k (lru_remove key_eqb k' c) = lru_find key_eqb k c.
Proof.
  intros Hne. induction c as [| [x v] c IH]; [reflexivity |]. cbn.
  destruct (key_eqb k' x) eqn:Hx.
  - apply key_eqb_eq in Hx. subst x.
    destruct (key_eqb k k') eqn:Hk; [| reflexivity].
    apply key_eqb_eq in Hk. congruence.
  - cbn. rewrite IH. reflexivity.
Qed.

(** A call for another key keeps an entry while the store has room. *)
Lemma lru_call_other (maxsize : nat) (g : K -> res V) (k k' : K) (v : V)
  (c : list (K * V)) :
  k' <> k ->
  (length c < maxsize)%nat ->
  lru_find key_eqb k c = Some v ->
  lru_find key_eqb k (snd (lru_call key_eqb maxsize g k' c)) = Some v.
Proof.
  intros Hne Hlen Hfind. unfold lru_call.
  assert (key_eqb k k' = false) as Hk.
  { destruct (key_eqb k k') eqn:Hk; [| reflexivity].
    apply key_eqb_eq in Hk. congruence. }
  destruct (lru_find key_eqb k' c) as [v' |].
  - cbn. rewrite Hk, (lru_find_remove_other _ _ _ Hne). exact Hfind.
  - destruct (g k') as [v' | e]; cbn [snd]; [| exact Hfind].
    rewrite take_ge by (cbn; lia). cbn. rewrite Hk. exact Hfind.
Qed.
End LruEntryFacts.

(** X1.  A call of [get_timezone_diff] that returned leaves the ordered pair
    of zones in the memo with the value returned.  As long as the memo holds
    the pair, a call for it returns that value, whatever the clock reads
    then, and the memo still holds it; and a call for another ordered pair
    keeps the entry while the memo holds fewer than 128 pairs. *)
Theorem memoised_timezone_diff_ignores_clock (E : env) (now : Z) (tz1 tz2 : string)
  (d : Q) (c c' : caches) :
  Shared.get_timezone_diff E now tz1 tz2 c = (Ok d, c') ->
  lru_find tz_key_eqb (tz1, tz2) (tz_cache c') = Some d
  /\ (forall later c2,
        lru_find tz_key_eqb (tz1, tz2) (tz_cache c2) = Some d ->
        exists c3,
          Shared.get_timezone_diff E later tz1 tz2 c2 = (Ok d, c3)
          /\ lru_find tz_key_eqb (tz1, tz2) (tz_cache c3) = Some d)
  /\ (forall later tz3 tz4 c2,
        (tz3, tz4) <> (tz1, tz2) ->
        (length (tz_cache c2) < 128)%nat ->
        lru_find tz_key_eqb (tz1, tz2) (tz_cache c2) = Some d ->
        lru_find tz_key_eqb (tz1, tz2)
          (tz_cache (snd (Shared.get_timezone_diff E later tz3 tz4 c2))) = Some d).
Proof.
  unfold Shared.get_timezone_diff. intros H. repeat split.
  - destruct (lru_call tz_key_eqb 128 (Shared.timezone_diff E now) (tz1, tz2) (tz_cache c))
      as [r tzc] eqn:Hcall.
    injection H as -> <-. cbn [tz_cache].
    exact (lru_call_held tz_key_eqb tz_key_eqb_refl 128 _ _ _ _ _ ltac:(lia) Hcall).
  - intros later c2 Hheld.
    destruct (lru_call_hit tz_key_eqb tz_key_eqb_refl 128 (Shared.timezone_diff E later)
                _ _ _ Hheld) as [Hret Hstill].
    destruct (lru_call tz_key_eqb 128 (Shared.timezone_diff E later) (tz1, tz2)
                (tz_cache c2)) as [r tzc].
    cbn [fst snd] in Hret, Hstill. subst r.
    eexists. split; [reflexivity |]. exact Hstill.
  - intros later tz3 tz4 c2 Hne Hlen Hheld.
    pose proof (lru_call_other tz_key_eqb tz_key_eqb_eq 128 (Shared.timezone_diff E later)
                  _ _ _ _ Hne Hlen Hheld) as Hkept.
    destruct (lru_call tz_key_eqb 128 (Shared.timezone_diff E later) (tz3, tz4)
                (tz_cache c2)) as [r tzc].
    exact Hkept.
Qed.

Lemma memoised_timezone_diff_ignores_clock_witness :
  Shared.get_timezone_diff Sample.E 0 "America/New_York" "Asia/Tokyo" Sample.no_caches
  = (Ok 13%Q, {| tz_cache := [(("America/New_York", "Asia/Tokyo")%string, 13%Q)];
                 sun_cache := [] |})
  /\ lru_find tz_key_eqb ("America/New_York", "Asia/Tokyo")%string
       [(("America/New_York", "Asia/Tokyo")%string, 13%Q)] = Some 13%Q.
Proof.
  assert (Shared.get_timezone_diff Sample.E 0 "America/New_York" "Asia/Tokyo"
            Sample.no_caches
          = (Ok 13%Q, {| tz_cache := [(("America/New_York", "Asia/Tokyo")%string, 13%Q)];
                         sun_cache := [] |})) as H by (vm_compute; reflexivity).
  split; [exact H |].
  exact (proj1 (memoised_timezone_diff_ignores_clock Sample.E 0 _ _ _ _ _ H)).
Defined.

Section PreservingFacts.
Context (P : caches -> Prop).

Lemma preserving_ret {A} (a : A) : cache_preserving P (mret a : M A).
Proof. intros c Hc. exact Hc. Qed.

Lemma preserving_lift {A} (r : res A) : cache_preserving P (lift r).
Proof. intros c Hc. exact Hc. Qed.

Lemma preserving_bind {A B} (m : M A) (k : A -> M B) :
  cache_preserving P m ->
  (forall a, cache_preserving P (k a)) ->
  cache_preserving P (m ≫= k).
Proof.
  intros Hm Hk c Hc. specialize (Hm c Hc). unfold mbind, M_bind.
  destruct (m c) as [[a | e] c1]; cbn in Hm; [apply Hk, Hm | exact Hm].
Qed.

Lemma preserving_estimate (E : env) (now : Z) (ndigits : nat)
  (parse_date : pyval -> res Z) (parse_time : pyval -> pyval -> res Z) (row : Row) :
  (forall tz1 tz2, cache_preserving P (Shared.get_timezone_diff E now tz1 tz2)) ->
  (forall code date, cache_preserving P (Shared.get_sunrise_sunset E code date)) ->
  cache_preserving P
    (Shared.estimate_night_time E now ndigits parse_date parse_time row).
Proof.
  intros Htz Hsun. unfold Shared.estimate_night_time.
  apply preserving_bind; [apply preserving_lift | intros date].
  apply preserving_bind; [apply preserving_lift | intros off_time].
  apply preserving_bind; [apply preserving_lift | intros on_time].
  destruct (Shared.get_airport_data E (ORG row)) as [origin_data |];
    [| apply preserving_ret].
  destruct (Shared.get_airport_data E (DEST row)) as [dest_data |];
    [| apply preserving_ret].
  apply preserving_bind; [apply Htz | intros tz_diff].
  destruct (Qle_bool tz_diff 4); [| apply preserving_ret].
  apply preserving_bind; [apply Hsun | intros [[sunrise |] [sunset |]]];
    try apply preserving_ret.
  destruct ((off_time >=? sunset) || (on_time <=? sunrise)); [apply preserving_ret |].
  destruct (((off_time <? sunset) && (sunset <? on_time))
            || ((off_time <? sunrise) && (sunrise <? on_time))); apply preserving_ret.
Qed.
End PreservingFacts.

Lemma bounded_timezone_diff (E : env) (now : Z) (tz1 tz2 : string) :
  cache_preserving caches_bounded (Shared.get_timezone_diff E now tz1 tz2).
Proof.
  intros c [Htz Hsun]. unfold Shared.get_timezone_diff.
  pose proof (lru_call_length tz_key_eqb 128 (Shared.timezone_diff E now)
                (tz1, tz2) (tz_cache c) Htz) as H.
  destruct (lru_call _ _ _ _ _) as [r tzc]. split; assumption.
Qed.

Lemma bounded_sunrise_sunset (E : env) (code : pyval) (date : Z) :
  cache_preserving caches_bounded (Shared.get_sunrise_sunset E code date).
Proof.
  intros c [Htz Hsun]. unfold Shared.get_sunrise_sunset.
  pose proof (lru_call_length sun_key_eqb 256 (Shared.sunrise_sunset E)
                (code, date) (sun_cache c) Hsun) as H.
  destruct (lru_call _ _ _ _ _) as [r sc]. split; assumption.
Qed.

(** X2.  Processing a row keeps the timezone store within 128 entries and the
    sunrise/sunset store within 256, in both variants. *)
Theorem stores_stay_bounded (E : env) (now : Z) (position : string)
  (oe_data : gmap string flight_data) (row : Row) (c : caches) :
  caches_bounded c ->
  caches_bounded (snd (FAA.process_row E now position oe_data row c))
  /\ caches_bounded (snd (Aero.process_row E now position oe_data row c)).
Proof.
  intros Hc. split.
  - revert c Hc. unfold FAA.process_row.
    apply preserving_bind;
      [apply preserving_estimate;
       auto using bounded_timezone_diff, bounded_sunrise_sunset | intros night].
    apply preserving_bind; [apply preserving_lift | intros landings].
    apply preserving_bind; [apply preserving_lift | intros crew].
    apply preserving_ret.
  - revert c Hc. unfold Aero.process_row.
    apply preserving_bind;
      [apply preserving_estimate;
       auto using bounded_timezone_diff, bounded_sunrise_sunset | intros night].
    apply preserving_bind; [apply preserving_lift | intros landings].
    apply preserving_bind; [apply preserving_lift | intros takeoffs].
    apply preserving_bind; [apply preserving_lift | intros crew].
    apply preserving_ret.
Qed.

Lemma stores_stay_bounded_witness :
  caches_bounded Sample.no_caches
  /\ caches_bounded
       (snd (FAA.process_row Sample.E 0 "captain" ∅ Sample.evening_leg_faa
               Sample.no_caches)).
Proof.
  assert (caches_bounded Sample.no_caches) as H by (split; cbn; lia).
  split; [exact H |].
  exact (proj1 (stores_stay_bounded Sample.E 0 "captain" ∅ Sample.evening_leg_faa
                  Sample.no_caches H)).
Defined.

(** X3.  With stores that hold memoised results only, the sunrise/sunset lookup
    for an airport that resolves returns both a sunrise and a sunset, or
    raises: the estimator's return of 0 for a missing sunrise or sunset is
    not reached once the destination has resolved. *)
Theorem resolved_airport_has_sun (E : env) (now : Z) (code : pyval) (date : Z)
  (data : string * string * pyfloat * pyfloat) (s : option Z * option Z)
  (c c' : caches) :
  caches_ok E now c ->
  Shared.get_airport_data E code = Some data ->
  Shared.get_sunrise_sunset E code date c = (Ok s, c') ->
  exists sunrise sunset,
    s = (Some sunrise, Some sunset)
    /\ sun E data.1.2 data.2 (date_of date) data.1.1.2 = Some (sunrise, sunset).
Proof.
  intros [_ Hsun] Hdata Hcall. unfold Shared.get_sunrise_sunset in Hcall.
  pose proof (lru_call_ok sun_key_eqb (Shared.sunrise_sunset E) (sun_key_eqb_sound E)
                256 (code, date) (sun_cache c) Hsun) as [Hfst _].
  destruct (lru_call _ _ _ _ _) as [r sc]. injection Hcall as -> _.
  cbn in Hfst. unfold Shared.sunrise_sunset in Hfst. cbn in Hfst.
  rewrite Hdata in Hfst. destruct data as [[[name tzname] lat] lon]. cbn.
  destruct (sun E lat lon (date_of date) tzname) as [[sunrise sunset] |];
    [| discriminate].
  injection Hfst as ->. eauto.
Qed.

Lemma resolved_airport_has_sun_witness :
  caches_ok Sample.E 0 Sample.no_caches
  /\ exists sunrise sunset,
       (Some 1717195619976000, Some 1717242419976000) = (Some sunrise, Some sunset)
       /\ sun Sample.E (Fin (136900 # 10000)) (Fin (1007501 # 10000))
            (date_of Sample.june_1_2024) "Asia/Bangkok" = Some (sunrise, sunset).
Proof.
  assert (caches_ok Sample.E 0 Sample.no_caches) as H by (split; constructor).
  split; [exact H |].
  apply (resolved_airport_has_sun Sample.E 0 (PStr "BKK") Sample.june_1_2024
           ("Bangkok", "Asia/Bangkok", Fin (136900 # 10000), Fin (1007501 # 10000))%string
           _ Sample.no_caches
           {| tz_cache := [];
              sun_cache := [((PStr "BKK", Sample.june_1_2024),
                             (Some 1717195619976000, Some 1717242419976000))] |} H).
  - vm_compute. reflexivity.
  - vm_compute. reflexivity.
Defined.

(** ** Loading Operating-Experience data *)

Lemma row_flight_data_role (E : env) (oe_df : DataFrame) (row : gmap string pyval) :
  is_Some (CREW_POSITION_DISTRIBUTION !! fd_role (OE.row_flight_data E oe_df row)).
Proof.
  unfold OE.row_flight_data, OE.positive_or_none.
  repeat match goal with
         | |- context [if ?b then _ else _] => destruct b eqn:?
         end; cbn in *; eexists; vm_compute; reflexivity.
Qed.

Section LoadFacts.
Context (E : env) (flight_id : gmap string pyval -> res string) (oe_df : DataFrame).

Lemma load_rows_app (l1 l2 : list (gmap string pyval)) (m : gmap string flight_data) :
  OE.load_rows E flight_id oe_df (l1 ++ l2) m =
  OE.load_rows E flight_id oe_df l1 m ≫= OE.load_rows E flight_id oe_df l2.
Proof.
  revert m. induction l1 as [| row l1 IH]; intros m; [reflexivity |].
  cbn [app OE.load_rows]. destruct (flight_id row) as [id | e]; [apply IH | reflexivity].
Qed.

Lemma load_rows_ok (l : list (gmap string pyval)) (m : gmap string flight_data) :
  Forall (fun row => exists id, flight_id row = Ok id) l ->
  exists m', OE.load_rows E flight_id oe_df l m = Ok m'.
Proof.
  intros H. revert m. induction H as [| row l [id Hid] Hl IH]; intros m; cbn.
  - eauto.
  - rewrite Hid. apply IH.
Qed.

(** Rows with another key leave an entry as it is. *)
Lemma load_rows_other (id : string) (l : list (gmap string pyval))
  (m m' : gmap string flight_data) :
  Forall (fun row => flight_id row <> Ok id) l ->
  OE.load_rows E flight_id oe_df l m = Ok m' ->
  m' !! id = m !! id.
Proof.
  intros H. revert m. induction H as [| row l Hrow Hl IH]; intros m; cbn.
  - intros [= <-]. reflexivity.
  - destruct (flight_id row) as [id' | e] eqn:Hid; [| discriminate].
    intros Hload. rewrite (IH _ Hload). apply lookup_insert_ne. congruence.
Qed.

(** Every entry that is loaded has one of the four roles. *)
Lemma load_rows_roles (l : list (gmap string pyval)) (m m' : gmap string flight_data) :
  map_Forall (fun _ fd => is_Some (CREW_POSITION_DISTRIBUTION !! fd_role fd)) m ->
  OE.load_rows E flight_id oe_df l m = Ok m' ->
  map_Forall (fun _ fd => is_Some (CREW_POSITION_DISTRIBUTION !! fd_role fd)) m'.
Proof.
  revert m. induction l as [| row l IH]; intros m Hm; cbn.
  - intros [= <-]. exact Hm.
  - destruct (flight_id row) as [id | e]; [| discriminate].
    apply IH. apply map_Forall_insert_2; [apply row_flight_data_role | exact Hm].
Qed.

Lemma load_oe_data_roles :
  map_Forall (fun _ fd => is_Some (CREW_POSITION_DISTRIBUTION !! fd_role fd))
    (OE.load_oe_data E flight_id oe_df).
Proof.
  unfold OE.load_oe_data.
  destruct (negb (has_column oe_df "FLIGHT")); [apply map_Forall_empty |].
  destruct (OE.load_rows E flight_id oe_df (rows oe_df) ∅) as [m |] eqn:Hload;
    [| apply map_Forall_empty].
  eapply load_rows_roles; [apply map_Forall_empty | exact Hload].
Qed.
End LoadFacts.

(** X4.  When one flight has several rows in the OE file, the last of them
    decides: the entry loaded under a key is the [flight_data] of the last
    row with that key, and a key that no row has is not loaded.  The rows are
    those of a frame with a FLIGHT column, from each of which the variant's
    key can be built; [flight_id] is [FAA.oe_flight_id] in the FAA variant and
    [Aero.oe_flight_id] in the logbook.aero variant. *)
Theorem last_oe_row_wins (E : env) (flight_id : gmap string pyval -> res string)
  (oe_df : DataFrame) (before after : list (gmap string pyval))
  (row : gmap string pyval) (id : string) :
  has_column oe_df "FLIGHT" = true ->
  rows oe_df = before ++ row :: after ->
  Forall (fun r => exists i, flight_id r = Ok i) (rows oe_df) ->
  flight_id row = Ok id ->
  Forall (fun r => flight_id r <> Ok id) after ->
  OE.load_oe_data E flight_id oe_df !! id = Some (OE.row_flight_data E oe_df row)
  /\ (forall other,
        Forall (fun r => flight_id r <> Ok other) (rows oe_df) ->
        OE.load_oe_data E flight_id oe_df !! other = None).
Proof.
  intros Hcol Hrows Hall Hid Hafter. unfold OE.load_oe_data. rewrite Hcol. cbn [negb].
  destruct (load_rows_ok E flight_id oe_df (rows oe_df) ∅ Hall) as [m Hm].
  rewrite Hm. split.
  - rewrite Hrows, load_rows_app in Hm.
    destruct (OE.load_rows E flight_id oe_df before ∅) as [m1 |]; [| discriminate].
    cbn in Hm. rewrite Hid in Hm.
    rewrite (load_rows_other E flight_id oe_df id after _ m Hafter Hm).
    apply lookup_insert_eq.
  - intros other Hother.
    rewrite (load_rows_other E flight_id oe_df other (rows oe_df) ∅ m Hother Hm).
    apply lookup_empty.
Qed.

Lemma last_oe_row_wins_witness :
  has_column Sample.oe_same_flight_twice "FLIGHT" = true
  /\ FAA.oe_flight_id Sample.E Sample.oe_row_capt = Ok "0123"%string
  /\ FAA.load_oe_data Sample.E Sample.oe_same_flight_twice !! "0123"%string
     = Some (OE.row_flight_data Sample.E Sample.oe_same_flight_twice Sample.oe_row_capt).
Proof.
  assert (FAA.oe_flight_id Sample.E Sample.oe_row_fo = Ok "0123"%string) as Hfo
    by (vm_compute; reflexivity).
  assert (FAA.oe_flight_id Sample.E Sample.oe_row_capt = Ok "0123"%string) as Hcapt
    by (vm_compute; reflexivity).
  split; [reflexivity |]. split; [exact Hcapt |].
  apply (last_oe_row_wins Sample.E (FAA.oe_flight_id Sample.E)
           Sample.oe_same_flight_twice [Sample.oe_row_fo] [] Sample.oe_row_capt
           "0123"%string eq_refl eq_refl).
  - repeat constructor; eexists; eassumption.
  - exact Hcapt.
  - constructor.
Defined.

(** X5.  In automatic mode the position taken from the OE data, or the default
    'captain', is always one of the four roles of the distribution table, so
    [assign_crew_time] returns and does not raise [KeyError], in both
    variants and whatever the OE file holds. *)
Theorem auto_position_is_known (E : env) (oe_df : DataFrame) (row : Row) :
  (exists t,
     FAA.assign_crew_time E row
       (FAA.determine_crew_position E row "captain" (FAA.load_oe_data E oe_df))
       (FAA.load_oe_data E oe_df) = Ok t)
  /\ (exists t,
        Aero.assign_crew_time E row
          (Aero.determine_crew_position E row "captain" (Aero.load_oe_data E oe_df))
          (Aero.load_oe_data E oe_df) = Ok t).
Proof.
  split.
  - assert (is_Some (CREW_POSITION_DISTRIBUTION
                       !! FAA.determine_crew_position E row "captain"
                            (FAA.load_oe_data E oe_df))) as [d Hd].
    { unfold FAA.determine_crew_position.
      destruct (FAA.load_oe_data E oe_df !! FAA.flight_id E row) as [fd |] eqn:Hfd;
        [| eexists; vm_compute; reflexivity].
      exact (load_oe_data_roles E (FAA.oe_flight_id E) oe_df _ _ Hfd). }
    unfold FAA.assign_crew_time. rewrite Hd. cbn [of_option mbind res_bind].
    destruct (FAA.load_oe_data E oe_df !! FAA.flight_id E row); eexists; reflexivity.
  - assert (is_Some (CREW_POSITION_DISTRIBUTION
                       !! Aero.determine_crew_position E row "captain"
                            (Aero.load_oe_data E oe_df))) as [d Hd].
    { unfold Aero.determine_crew_position.
      destruct (Aero.load_oe_data E oe_df !! Aero.flight_id E row) as [fd |] eqn:Hfd;
        [| eexists; vm_compute; reflexivity].
      exact (load_oe_data_roles E (Aero.oe_flight_id E) oe_df _ _ Hfd). }
    unfold Aero.assign_crew_time. rewrite Hd. cbn [of_option mbind res_bind].
    destruct (Aero.load_oe_data E oe_df !! Aero.flight_id E row); eexists; reflexivity.
Qed.

(** X6.  In an OE file with a SEAT column, a recorded PIC or SIC override is
    either positive or the 0.0 written for the seat that does not log that
    time (PIC for the first-officer seats, SIC for the captain seats): a
    value of 0 in the hours column of the seat is never recorded. *)
Theorem seat_row_overrides (E : env) (oe_df : DataFrame) (row : gmap string pyval) :
  has_column oe_df "SEAT" = true ->
  let fd := OE.row_flight_data E oe_df row in
  (forall t, fd_pic_time fd = Some t ->
     f_gt t f_zero = true
     \/ (t = f_zero
         /\ (fd_role fd = "first_officer"%string
             \/ fd_role fd = "relief_first_officer"%string)))
  /\ (forall t, fd_sic_time fd = Some t ->
        f_gt t f_zero = true
        \/ (t = f_zero
            /\ (fd_role fd = "captain"%string
                \/ fd_role fd = "relief_captain"%string))).
Proof.
  intros Hseat. cbv zeta. unfold OE.row_flight_data, OE.positive_or_none. rewrite Hseat.
  split; intros t;
    repeat match goal with
           | |- context [if ?b then _ else _] => destruct b eqn:?
           end; cbn in *; rewrite ?andb_false_r in *; try discriminate;
    intros [= <-]; auto.
Qed.

Lemma seat_row_overrides_witness :
  has_column Sample.oe_seat_capt_zero "SEAT" = true
  /\ forall t,
       fd_pic_time (OE.row_flight_data Sample.E Sample.oe_seat_capt_zero
                      {[ "FLIGHT"%string := PInt 123;
                         "SEAT"%string := PStr "CAPT";
                         "PIC_OE"%string := PInt 0 ]}) = Some t ->
       f_gt t f_zero = true
       \/ (t = f_zero
           /\ (fd_role (OE.row_flight_data Sample.E Sample.oe_seat_capt_zero
                          {[ "FLIGHT"%string := PInt 123;
                             "SEAT"%string := PStr "CAPT";
                             "PIC_OE"%string := PInt 0 ]}) = "first_officer"%string
               \/ fd_role (OE.row_flight_data Sample.E Sample.oe_seat_capt_zero
                             {[ "FLIGHT"%string := PInt 123;
                                "SEAT"%string := PStr "CAPT";
                                "PIC_OE"%string := PInt 0 ]})
                  = "relief_first_officer"%string)).
Proof.
  split; [reflexivity |].
  exact (proj1 (seat_row_overrides Sample.E Sample.oe_seat_capt_zero _ eq_refl)).
Defined.

(** ** More on the night-time estimator *)

Lemma py_round_excess (q : Q) (n : nat) :
  exists r, py_round (Fin q) n = Fin r /\ (r <= q + 1 / (2 * pow10 n))%Q.
Proof.
  eexists. split; [reflexivity |].
  pose proof (pow10_pos n) as Hp.
  pose proof (round_half_even_bounds (q * pow10 n)) as [_ Hb].
  apply Qle_shift_div_r; [assumption |].
  assert ((q + 1 / (2 * pow10 n)) * pow10 n == q * pow10 n + (1 # 2))%Q as ->
    by (field; lra).
  exact Hb.
Qed.

Lemma night_value_excess (E : env) (ndigits : nat) (q : Q) (night : pyfloat) :
  (0 <= q)%Q ->
  night = f_zero
  \/ night = py_round (Fin q) ndigits
  \/ night = py_round (f_mul (Fin q) f_half) ndigits
  \/ (exists origin_data dest_data off_time on_time,
        night = py_min
                  (py_round
                     (Fin (inject_Z (credited_minutes E origin_data dest_data
                                       off_time on_time) / 60))
                     ndigits)
                  (Fin q)) ->
  exists n, night = Fin n /\ (0 <= n <= q + 1 / (2 * pow10 ndigits))%Q.
Proof.
  intros Hq Hcases.
  assert (f_le f_zero (Fin q) = true) as Hflt by (apply f_le_Fin; exact Hq).
  pose proof (pow10_pos ndigits) as Hp.
  assert (0 < 1 / (2 * pow10 ndigits))%Q as Hhalf
    by (apply Qlt_shift_div_l; lra).
  destruct (night_value_bounds E ndigits (Fin q) night Hflt Hcases) as [H0 Hle].
  destruct (py_round_excess q ndigits) as (r & Hr & Hrq).
  assert (exists n, night = Fin n) as [n ->].
  { destruct Hcases as [-> | [-> | [-> | (od & dd & off_time & on_time & ->)]]];
      try (eexists; reflexivity).
    unfold py_min. destruct (f_lt _ _); eexists; reflexivity. }
  exists n. split; [reflexivity |]. apply f_le_Fin in H0. split; [exact H0 |].
  destruct Hle as [Hle | Heq].
  - apply f_le_Fin in Hle. lra.
  - rewrite Hr in Heq. injection Heq as ->. exact Hrq.
Qed.

(** X7.  When FLT_HRS converts to a non-negative finite number, the night hours
    the estimator returns are a finite number that is at least 0 and exceeds
    the flight hours by less than one unit of the last decimal place kept:
    0.01 h in the FAA variant, 0.1 h in the logbook.aero variant. *)
Theorem night_hours_excess (E : env) (now : Z) (row : Row) (c : caches) (q : Q) :
  Shared.safe_float_conversion E (FLT_HRS row) = Fin q ->
  (0 <= q)%Q ->
  (forall night c',
     FAA.estimate_night_time E now row c = (Ok night, c') ->
     exists n, night = Fin n /\ (0 <= n)%Q /\ (n < q + (1 # 100))%Q)
  /\ (forall night c',
        Aero.estimate_night_time E now row c = (Ok night, c') ->
        exists n, night = Fin n /\ (0 <= n)%Q /\ (n < q + (1 # 10))%Q).
Proof.
  intros Hflt Hq.
  assert (1 / (2 * pow10 2) == 1 # 200)%Q as H2 by reflexivity.
  assert (1 / (2 * pow10 1) == 1 # 20)%Q as H1 by reflexivity.
  split; intros night c' H; apply estimate_cases in H; rewrite Hflt in H;
    destruct (night_value_excess E _ q night Hq H) as (n & -> & Hn);
    exists n; (split; [reflexivity |]); split; lra.
Qed.

Lemma night_hours_excess_witness :
  Shared.safe_float_conversion Sample.E (FLT_HRS Sample.evening_hop_faa) = Fin (3 # 8)
  /\ (0 <= 3 # 8)%Q
  /\ exists n, Fin (38 # 100) = Fin n /\ (0 <= n)%Q /\ (n < (3 # 8) + (1 # 100))%Q.
Proof.
  split; [reflexivity |]. split; [discriminate |].
  destruct (night_hours_excess Sample.E 0 Sample.evening_hop_faa Sample.no_caches (3 # 8)
              eq_refl ltac:(discriminate)) as [H _].
  eapply H. vm_compute. reflexivity.
Defined.

Lemma filter_length_le {A} (f : A -> bool) (l : list A) :
  (length (List.filter f l) <= length l)%nat.
Proof.
  induction l as [| a l IH]; [reflexivity |]. cbn. destruct (f a); cbn; lia.
Qed.

(** X8.  The sampling loop credits at least 0 minutes and at most ten minutes
    for every started ten minutes between OFF and ON; it credits nothing
    when ON is not after OFF, as for a flight that lands after midnight UTC,
    whose ON is read on the departure date. *)
Theorem night_loop_bounds (E : env) (origin_data dest_data : string * string * pyfloat * pyfloat)
  (off_time on_time : Z) :
  0 <= Shared.night_loop E origin_data dest_data off_time on_time off_time 0
    <= 10 * Z.max 0 ((on_time - off_time + 599999999) / 600000000).
Proof.
  rewrite night_loop_credited. unfold credited_minutes.
  pose proof (filter_length_le
                (sample_is_night E origin_data dest_data off_time on_time)
                (sample_instants off_time on_time)) as H.
  unfold sample_instants in H at 2. rewrite length_map, length_seq in H.
  unfold sample_count in H. lia.
Qed.

(** ** Tail numbers, approaches and names *)

Lemma not_digits_after_N (s : string) : py_isdigit ("N" +:+ s) = false.
Proof. reflexivity. Qed.

(** X9.  [format_tail_number] changes nothing in a value it has formatted:
    applied to its own result it returns that result. *)
Theorem format_tail_number_idempotent (E : env) (tail_number : pyval) :
  Shared.format_tail_number E (PStr (Shared.format_tail_number E tail_number))
  = Shared.format_tail_number E tail_number.
Proof.
  unfold Shared.format_tail_number. cbn [Shared.py_str].
  destruct (py_isdigit (Shared.py_str E tail_number)) eqn:Hd.
  - rewrite not_digits_after_N. reflexivity.
  - rewrite Hd. reflexivity.
Qed.

Lemma landing_flag_performed (row : Row) :
  Shared.landing_flag row = Shared.performed_landing row.
Proof.
  unfold Shared.landing_flag, Shared.performed_landing.
  destruct (LANDING row); reflexivity.
Qed.

(** X10.  One approach is recorded for every landing that is credited and none
    otherwise: the count of [count_approaches] is the sum of the day and
    night landings, and also of the day and night takeoffs, and
    [record_approaches] writes "1;" and the destination exactly when a
    landing is credited. *)
Theorem approaches_follow_landings (E : env) (now : Z) (row : Row) :
  (exists day night,
     Aero.process_landings E now row = Ok (day, night)
     /\ Aero.count_approaches row = day + night)
  /\ (exists day night,
        Aero.process_takeoffs E now row = Ok (day, night)
        /\ Aero.count_approaches row = day + night)
  /\ (exists day night,
        FAA.process_landings E now row = Ok (day, night)
        /\ FAA.record_approaches E row
           = if day + night =? 1 then "1;" +:+ Shared.py_str E (DEST row) else "").
Proof.
  unfold Aero.count_approaches, FAA.record_approaches.
  rewrite landing_flag_performed.
  destruct (Shared.performed_landing row) eqn:Hp; repeat split.
  - destruct (process_landings_one E (Aero.parse_time E now) row Hp) as [H | H];
      eexists _, _; (split; [exact H | reflexivity]).
  - destruct (process_takeoffs_one E (Aero.parse_time E now) row Hp) as [H | H];
      eexists _, _; (split; [exact H | reflexivity]).
  - destruct (process_landings_one E (FAA.parse_time E now) row Hp) as [H | H];
      eexists _, _; (split; [exact H | reflexivity]).
  - eexists _, _. split; [apply process_landings_none; exact Hp | reflexivity].
  - eexists _, _. split; [apply process_takeoffs_none; exact Hp | reflexivity].
  - eexists _, _. split; [apply process_landings_none; exact Hp | reflexivity].
Qed.

(** X11.  The pilot is named as PIC exactly for the roles whose PIC fraction in
    the distribution table is not zero, and as SIC exactly for those whose
    SIC fraction is not zero; no role is named as both, and a role that is
    not in the table is named as neither. *)
Theorem names_follow_distribution (position pilot_name : string) :
  match CREW_POSITION_DISTRIBUTION !! position with
  | Some d =>
      Aero.get_pic_name position pilot_name
      = (if f_gt d.1.1 f_zero then pilot_name else ""%string)
      /\ Aero.get_sic_name position pilot_name
         = (if f_gt d.1.2 f_zero then pilot_name else ""%string)
      /\ (f_gt d.1.1 f_zero && f_gt d.1.2 f_zero = false)
  | None =>
      Aero.get_pic_name position pilot_name = ""%string
      /\ Aero.get_sic_name position pilot_name = ""%string
  end.
Proof.
  unfold Aero.get_pic_name, Aero.get_sic_name, str_in, CREW_POSITION_DISTRIBUTION.
  cbn [list_to_map foldr uncurry existsb fst snd].
  rewrite !orb_false_r.
  destruct (String.eqb_spec position "captain") as [-> | H1];
    [vm_compute; repeat split |].
  destruct (String.eqb_spec position "first_officer") as [-> | H2];
    [vm_compute; repeat split |].
  destruct (String.eqb_spec position "relief_first_officer") as [-> | H3];
    [vm_compute; repeat split |].
  destruct (String.eqb_spec position "relief_captain") as [-> | H4];
    [vm_compute; repeat split |].
  rewrite !lookup_insert_ne, lookup_empty by congruence.
  split; reflexivity.
Qed.

(** ** Instrument time and the caps of the logbook.aero variant *)

Lemma py_min_cases (a b : pyfloat) :
  (f_lt b a = true /\ py_min a b = b) \/ (f_lt b a = false /\ py_min a b = a).
Proof. unfold py_min. destruct (f_lt b a); auto. Qed.

(** X12.  For night hours that are not negative, the instrument time (half the
    night time) is not above the night time, and after the caps that
    [main_web] of the logbook.aero variant applies, the instrument time is
    not above the night time and neither is above the block hours. *)
Theorem instrument_within_night (E : env) (night : pyfloat) (row : Row) :
  f_le f_zero night = true ->
  let inst := Shared.calculate_actual_instrument E (PFloat night) in
  let block := Shared.safe_float_conversion E (BLK_HRS row) in
  f_gt inst night = false
  /\ f_gt (Aero.cap_to_block E (PFloat inst) row) (Aero.cap_to_block E (PFloat night) row)
     = false
  /\ f_gt (Aero.cap_to_block E (PFloat night) row) block = false
  /\ f_gt (Aero.cap_to_block E (PFloat inst) row) block = false.
Proof.
  intros Hn inst block.
  unfold Aero.cap_to_block. cbn [Shared.safe_float_conversion]. fold block.
  split; [| split; [| split; apply py_min_not_above]].
  - subst inst. unfold Shared.calculate_actual_instrument, f_gt.
    cbn [Shared.safe_float_conversion].
    destruct night as [q | [] |]; try discriminate; [| reflexivity].
    apply f_le_Fin in Hn. cbn. apply Qltb_ge. lra.
  - subst inst. unfold Shared.calculate_actual_instrument, f_gt.
    cbn [Shared.safe_float_conversion].
    destruct night as [q | [] |]; try discriminate.
    + apply f_le_Fin in Hn. cbn [f_mul f_half].
      destruct (py_min_cases (Fin (q * (1 # 2))) block) as [[H1 ->] | [H1 ->]],
               (py_min_cases (Fin q) block) as [[H2 ->] | [H2 ->]];
        destruct block as [b | [] |]; cbn [f_lt negb andb] in *;
        try reflexivity; try discriminate.
      all: repeat match goal with
                  | H : Qltb _ _ = true |- _ => apply Qltb_lt in H
                  | H : Qltb _ _ = false |- _ => apply Qltb_ge in H
                  end.
      all: apply Qltb_ge; lra.
    + cbn. destruct (py_min_cases (Inf false) block) as [[H1 ->] | [H1 ->]];
        destruct block as [b | [] |]; cbn in *; try reflexivity; try discriminate.
      apply Qltb_ge. lra.
Qed.

Lemma instrument_within_night_witness :
  f_le f_zero (Fin (67 # 10)) = true
  /\ f_gt (Aero.cap_to_block Sample.E
             (PFloat (Shared.calculate_actual_instrument Sample.E (PFloat (Fin (67 # 10)))))
             Sample.five_hours)
          (Aero.cap_to_block Sample.E (PFloat (Fin (67 # 10))) Sample.five_hours) = false.
Proof.
  split; [reflexivity |].
  exact (proj1 (proj2 (instrument_within_night Sample.E (Fin (67 # 10)) Sample.five_hours
                         eq_refl))).
Defined.

(** ** The columns written by the FAA variant *)

Lemma str_in_In (s : string) (l : list string) : str_in s l = true <-> In s l.
Proof.
  unfold str_in. rewrite existsb_exists. split.
  - intros (x & Hx & Heq). apply String.eqb_eq in Heq. subst. exact Hx.
  - intros H. exists s. split; [exact H | apply String.eqb_refl].
Qed.

Lemma str_in_not_In (s : string) (l : list string) : str_in s l = false <-> ~ In s l.
Proof.
  rewrite <- str_in_In. destruct (str_in s l); split; congruence.
Qed.

Lemma append_columns_spec (df_columns : list string) : forall final,
  NoDup final ->
  let result :=
    fold_left
      (fun final_columns col =>
         if negb (str_in col final_columns) && negb (String.eqb col "CrewPosition")
         then final_columns ++ [col]
         else final_columns)
      df_columns final in
  NoDup result
  /\ (forall col, In col result <->
                  In col final \/ (In col df_columns /\ col <> "CrewPosition"%string))
  /\ exists rest, result = final ++ rest.
Proof.
  induction df_columns as [| col l IH]; intros final Hnd; cbn [fold_left].
  - split; [exact Hnd |]. split; [| exists []; symmetry; apply app_nil_r].
    intros c. cbn. tauto.
  - destruct (str_in col final) eqn:Hin; cbn [negb andb].
    + apply str_in_In in Hin.
      destruct (IH final Hnd) as (H1 & H2 & H3). split; [exact H1 |].
      split; [| exact H3]. intros c. rewrite H2. cbn.
      split; [tauto |]. intros [? | [[<- | ?] ?]]; auto.
    + apply str_in_not_In in Hin.
      destruct (String.eqb_spec col "CrewPosition") as [-> | Hne]; cbn [negb].
      * destruct (IH final Hnd) as (H1 & H2 & H3). split; [exact H1 |].
        split; [| exact H3]. intros c. rewrite H2. cbn.
        split; [tauto |]. intros [? | [[<- | ?] ?]]; auto. congruence.
      * assert (NoDup (final ++ [col])) as Hnd'.
        { apply NoDup_app. repeat split; [exact Hnd | | apply NoDup_singleton].
          intros x Hx Hx'. apply list_elem_of_In in Hx, Hx'.
          destruct Hx' as [<- | []]. auto. }
        destruct (IH (final ++ [col]) Hnd') as (H1 & H2 & [rest H3]).
        split; [exact H1 |]. split.
        -- intros c. rewrite H2, in_app_iff. cbn.
           split; [intros [[? | [<- | []]] | [? ?]]; auto | ].
           intros [? | [[<- | ?] ?]]; auto.
        -- exists (col :: rest). rewrite H3, <- app_assoc. reflexivity.
Qed.

(** X13.  [main_web] of the FAA variant writes every column of the frame except
    the temporary 'CrewPosition', each once: the columns of its table first,
    in the table's order, then the others. *)
Theorem final_columns_keep_all (df_columns : list string) :
  NoDup (FAA.final_columns df_columns)
  /\ (forall col,
        In col (FAA.final_columns df_columns) <->
        In col df_columns /\ col <> "CrewPosition"%string)
  /\ exists rest,
       FAA.final_columns df_columns
       = List.filter (fun col => str_in col df_columns) FAA.column_order ++ rest.
Proof.
  unfold FAA.final_columns.
  assert (NoDup FAA.column_order) as Hnd.
  { unfold FAA.column_order.
    repeat (apply NoDup_cons; split;
            [rewrite list_elem_of_In; cbn; intuition discriminate |]).
    apply NoDup_nil. trivial. }
  assert (forall col, In col FAA.column_order -> col <> "CrewPosition"%string) as Hcp.
  { intros col Hin ->. cbn in Hin. intuition discriminate. }
  assert (NoDup (List.filter (fun col => str_in col df_columns) FAA.column_order)) as Hnd'.
  { apply NoDup_ListNoDup. apply List.NoDup_filter. apply NoDup_ListNoDup. exact Hnd. }
  destruct (append_columns_spec df_columns _ Hnd') as (H1 & H2 & H3).
  split; [exact H1 |]. split; [| exact H3].
  intros col. rewrite H2, filter_In, str_in_In. split.
  - intros [[Hco Hdf] | Hdf]; [split; auto | exact Hdf].
  - intros Hdf. right. exact Hdf.
Qed.

(** ** Dates and times of the logbook.aero variant *)

Lemma dt_replace_same_day (dt h m r : Z) :
  dt_replace dt h m = Ok r -> date_of r = date_of dt.
Proof.
  unfold dt_replace.
  destruct (negb (fits_int h && fits_int m)); [discriminate |].
  destruct ((0 <=? h) && (h <=? 23) && (0 <=? m) && (m <=? 59)) eqn:Hr;
    [| discriminate].
  intros [= <-].
  repeat rewrite andb_true_iff in Hr. destruct Hr as [[[H1 H2] H3] H4].
  apply Z.leb_le in H1, H2, H3, H4.
  unfold date_of, usec_per_day, usec_per_hour, usec_per_minute in *.
  pose proof (Z.mod_pos_bound dt 60000000 ltac:(lia)).
  symmetry.
  apply Z.div_unique with (r := h * 3600000000 + m * 60000000 + dt mod 60000000); lia.
Qed.

Lemma dt_replace_noon (dt : Z) :
  dt_replace dt 12 0
  = Ok (date_of dt * usec_per_day + 12 * usec_per_hour + 0 * usec_per_minute
        + dt mod usec_per_minute).
Proof. reflexivity. Qed.

(** X14.  When the date of a row parses, the instant that the logbook.aero time
    parser returns lies on that date: neither the fallback to 12:00 nor any
    accepted time text leaves the day, and the reading of the clock is not
    used. *)
Theorem aero_time_on_the_date (E : env) (now : Z) (date_str time_str : pyval)
  (date instant : Z) :
  Aero.parse_date_flexible E date_str = Ok date ->
  Aero.parse_time E now date_str time_str = Ok instant ->
  date_of instant = date_of date.
Proof.
  intros Hd. unfold Aero.parse_time. rewrite Hd. cbv zeta.
  unfold Aero.py_int, of_option, try_except, mbind, res_bind.
  repeat match goal with
         | |- context [match ?x with _ => _ end] =>
             lazymatch x with
             | context [match _ with _ => _ end] => fail
             | _ => destruct x eqn:?
             end
         end;
    intros [= <-]; eauto using dt_replace_same_day.
  all: match goal with
       | H : dt_replace _ 12 0 = Raise _ |- _ => rewrite dt_replace_noon in H; discriminate H
       end.
Qed.

Lemma aero_time_on_the_date_witness :
  date_of (Sample.june_1_2024 + 14 * usec_per_hour + 30 * usec_per_minute)
  = date_of Sample.june_1_2024.
Proof.
  apply (aero_time_on_the_date Sample.E 0 (PStr "2024-06-01") (PStr "14:30"));
    vm_compute; reflexivity.
Defined.

(** X15.  A date that [parse_date_flexible] reads is written as text that reads
    back as the same date, provided the library's [strptime] reads what its
    [strftime] writes; formatting that text again changes nothing. *)
Theorem formatted_date_reads_back (E : env) (s : string) (date : Z) :
  Aero.parse_date_flexible E (PStr s) = Ok date ->
  strptime E (strftime E date "%Y-%m-%d") "%Y-%m-%d" = Some date ->
  exists text,
    Aero.format_date_logbook_aero E (PStr s) = Ok (PStr text)
    /\ Aero.parse_date_flexible E (PStr text) = Ok date
    /\ Aero.format_date_logbook_aero E (PStr text) = Ok (PStr text).
Proof.
  intros Hd Hrt. exists (strftime E date "%Y-%m-%d").
  assert (Aero.parse_date_flexible E (PStr (strftime E date "%Y-%m-%d")) = Ok date) as Hback.
  { unfold Aero.parse_date_flexible, Shared.strptime_r. rewrite Hrt. reflexivity. }
  unfold Aero.format_date_logbook_aero. rewrite Hd, Hback. auto.
Qed.

Lemma formatted_date_reads_back_witness :
  exists text,
    Aero.format_date_logbook_aero Sample.E (PStr "06/01/2024") = Ok (PStr text)
    /\ Aero.parse_date_flexible Sample.E (PStr text) = Ok Sample.june_1_2024
    /\ Aero.format_date_logbook_aero Sample.E (PStr text) = Ok (PStr text).
Proof.
  apply (formatted_date_reads_back Sample.E "06/01/2024" Sample.june_1_2024);
    vm_compute; reflexivity.
Defined.

(** ** The web application *)

Lemma app_time_default (time_str : pyval) :
  (match time_str with PNone => true | _ => false end
   || py_eq_str time_str "" || py_eq_str time_str "."
   || negb (py_is_str time_str))
  = (negb (py_truthy time_str) || py_eq_str time_str "."
     || negb (py_is_str time_str)).
Proof.
  destruct time_str as [| s | z | f]; cbn; rewrite ?orb_true_r; try reflexivity.
  rewrite negb_involutive. reflexivity.
Qed.

Lemma App_parse_time_FAA (E : env) (now local_now : Z)
  (date_str time_str : pyval) :
  App.parse_time E now local_now date_str time_str
  = FAA.parse_time E now
      match date_str with
      | PNone => PStr (strftime E local_now "%m/%d/%Y")
      | _ => date_str
      end
      time_str.
Proof.
  unfold App.parse_time, FAA.parse_time. cbv zeta.
  rewrite app_time_default. reflexivity.
Qed.

(** X16.  The time parser of [app.py] is the time parser of [format.py], applied
    to today's date as text when the date is [None]: the same values are
    read as 12:00, and the same fallbacks follow. *)
Theorem app_parse_time_as_faa (E : env) (now local_now : Z)
  (date_str time_str : pyval) :
  App.parse_time E now local_now date_str time_str
  = FAA.parse_time E now
      match date_str with
      | PNone => PStr (strftime E local_now "%m/%d/%Y")
      | _ => date_str
      end
      time_str.
Proof.
  unfold App.parse_time, FAA.parse_time. cbv zeta.
  destruct time_str as [| s | z | f]; cbn [py_truthy py_eq_str py_is_str negb orb];
    rewrite ?orb_true_r, ?negb_involutive; reflexivity.
Qed.

Lemma night_segment_bounds (E : env) (origin_data dest_data : string * string * pyfloat * pyfloat)
  (off_time on_time segments i : Z) :
  0 <= App.night_segment E origin_data dest_data off_time on_time segments i <= 10.
Proof.
  unfold App.night_segment. cbv zeta.
  destruct (sun E _ _ _ _) as [[sunrise sunset] |]; [| lia].
  destruct (_ || _); lia.
Qed.

Lemma credit_fold_bounds (f : Z -> Z) (l : list Z) :
  (forall i, 0 <= f i <= 10) ->
  forall acc,
    acc <= fold_left (fun total i => total + f i) l acc
        <= acc + 10 * Z.of_nat (length l).
Proof.
  intros Hf. induction l as [| i l IH]; intros acc; cbn [fold_left length].
  - lia.
  - specialize (IH (acc + f i)). specialize (Hf i). lia.
Qed.

Lemma segments_within_interval (off_time on_time : Z) :
  Z.max 0 (App.segments_of off_time on_time) * 600000000
  <= Z.max 0 (on_time - off_time).
Proof.
  unfold App.segments_of. change (10 * 60 * 1000000) with 600000000.
  destruct (Z_le_gt_dec 0 (on_time - off_time)) as [Hpos | Hneg].
  - rewrite Z.quot_div_nonneg by lia.
    pose proof (Z.mul_div_le (on_time - off_time) 600000000 ltac:(lia)).
    pose proof (Z.div_pos (on_time - off_time) 600000000 Hpos ltac:(lia)).
    lia.
  - replace (on_time - off_time) with (- (off_time - on_time)) by lia.
    rewrite Z.quot_opp_l by lia.
    pose proof (Z.quot_pos (off_time - on_time) 600000000 ltac:(lia) ltac:(lia)).
    lia.
Qed.

(** X17.  On a long flight the web application credits ten minutes to each of
    the whole ten-minute segments of the flight at most: the night minutes
    are never negative and never more than the time between takeoff and
    landing. *)
Theorem app_night_minutes_within_flight (E : env)
  (origin_data dest_data : string * string * pyfloat * pyfloat)
  (off_time on_time : Z) :
  let segments := App.segments_of off_time on_time in
  let minutes :=
    App.total_night_minutes E origin_data dest_data off_time on_time segments in
  0 <= minutes <= 10 * Z.max 0 segments
  /\ timedelta_minutes minutes <= Z.max 0 (on_time - off_time).
Proof.
  intros segments minutes.
  assert (0 <= minutes <= 10 * Z.max 0 segments) as Hm.
  { subst minutes. unfold App.total_night_minutes.
    pose proof (credit_fold_bounds
                  (App.night_segment E origin_data dest_data off_time on_time segments)
                  (seqZ 0 segments)
                  (night_segment_bounds E origin_data dest_data off_time on_time segments)
                  0) as H.
    rewrite length_seqZ in H. lia. }
  split; [exact Hm |].
  pose proof (segments_within_interval off_time on_time) as Hs. fold segments in Hs.
  unfold timedelta_minutes, usec_per_minute. lia.
Qed.

(** X18.  A row that the web application keeps gets the landings, the
    approaches and the crew times that [format.py] computes for that row
    when there is no Operating-Experience data, and half its night time as
    instrument time. *)
Theorem app_kept_row_as_faa (E : env) (now local_now : Z) (crew_position : string)
  (row : Row) (c c' : caches) (r : App.result_row) :
  App.process_row E now local_now crew_position row c = (Ok (Some r), c') ->
  FAA.process_landings E now row = Ok (App.Day_Landings r, App.Night_Landings r)
  /\ App.Approaches r = FAA.record_approaches E row
  /\ (exists crew,
        FAA.assign_crew_time E row crew_position ∅ = Ok crew
        /\ FAA.PIC crew = App.PIC r
        /\ FAA.SIC crew = App.SIC r
        /\ FAA.XC crew = App.XC r)
  /\ App.Act_Inst r = Shared.calculate_actual_instrument E (PFloat (App.Night_Time r)).
Proof.
  unfold App.process_row. cbv zeta.
  destruct (negb (py_truthy (ORG row)) || negb (py_truthy (DEST row))
            || negb (py_truthy (DEPT_DATE row))) eqn:Hskip;
    [discriminate |].
  apply orb_false_elim in Hskip as [_ Hdate]. apply negb_false_iff in Hdate.
  rewrite !App_parse_time_FAA.
  assert (match DEPT_DATE row with
          | PNone => PStr (strftime E local_now "%m/%d/%Y")
          | _ => DEPT_DATE row
          end = DEPT_DATE row) as ->
    by (destruct (DEPT_DATE row); [discriminate Hdate | reflexivity ..]).
  destruct (FAA_parse_time_ok E now (DEPT_DATE row) (OFF row)) as [off_time Hoff].
  destruct (FAA_parse_time_ok E now (DEPT_DATE row) (ON row)) as [on_time Hon].
  rewrite Hoff, Hon.
  unfold mbind, M_bind, lift, mret, M_ret.
  destruct (App.estimate_night_time E now off_time on_time _ _ _ _ c)
    as [[night_time | e] c1]; [| discriminate].
  destruct (App.process_landings E row (DEST row) off_time on_time)
    as [[day_landings night_landings] | e] eqn:Hl; [| discriminate].
  unfold FAA.assign_crew_time.
  destruct (CREW_POSITION_DISTRIBUTION !! crew_position)
    as [[[pic sic] duration] |]; cbn [of_option]; [| discriminate].
  intros [= <- <-]. cbn [App.Day_Landings App.Night_Landings App.Approaches
                         App.PIC App.SIC App.XC App.Act_Inst App.Night_Time fst snd].
  split; [| split; [reflexivity | split; [| reflexivity]]].
  - unfold FAA.process_landings, Shared.process_landings. rewrite Hon. exact Hl.
  - eexists. rewrite lookup_empty. cbn. split; [reflexivity |]. auto.
Qed.

Lemma app_kept_row_as_faa_witness :
  FAA.process_landings Sample.E 0 Sample.evening_leg_faa = Ok (0, 1).
Proof.
  assert (exists r c',
             App.process_row Sample.E 0 0 "relief_captain" Sample.evening_leg_faa
               Sample.no_caches = (Ok (Some r), c')
             /\ (App.Day_Landings r, App.Night_Landings r) = (0, 1)) as (r & c' & Hrow & Heq)
    by (eexists; eexists; split; vm_compute; reflexivity).
  rewrite <- Heq.
  exact (proj1 (app_kept_row_as_faa Sample.E 0 0 "relief_captain" Sample.evening_leg_faa
                  Sample.no_caches c' r Hrow)).
Defined.

(** X19.  For two airports whose zones are at most four hours apart, the web
    application computes the night time of [format.py] from the date and
    the times that [format.py] parses. *)
Theorem app_night_as_faa (E : env) (now : Z) (row : Row) (c : caches)
  (date off_time on_time : Z) :
  FAA.parse_date E (DEPT_DATE row) = Ok date ->
  FAA.parse_time E now (DEPT_DATE row) (OFF row) = Ok off_time ->
  FAA.parse_time E now (DEPT_DATE row) (ON row) = Ok on_time ->
  (forall origin_data dest_data tz_diff c1,
      Shared.get_airport_data E (ORG row) = Some origin_data ->
      Shared.get_airport_data E (DEST row) = Some dest_data ->
      Shared.get_timezone_diff E now origin_data.1.1.2 dest_data.1.1.2 c
      = (Ok tz_diff, c1) ->
      Qle_bool tz_diff 4 = true) ->
  App.estimate_night_time E now off_time on_time
    (Shared.safe_float_conversion E (FLT_HRS row)) (ORG row) (DEST row) date c
  = FAA.estimate_night_time E now row c.
Proof.
  intros Hd Hoff Hon Hnear.
  unfold FAA.estimate_night_time, Shared.estimate_night_time, App.estimate_night_time.
  rewrite Hd, Hoff, Hon. cbv zeta.
  unfold mbind at 3 4 5. unfold M_bind at 3 4 5. unfold lift.
  destruct (Shared.get_airport_data E (ORG row)) as [origin_data |]; [| reflexivity].
  destruct (Shared.get_airport_data E (DEST row)) as [dest_data |]; [| reflexivity].
  unfold mbind, M_bind.
  destruct (Shared.get_timezone_diff E now _ _ c) as [[tz_diff | e] c1] eqn:Htz;
    [| reflexivity].
  rewrite (Hnear origin_data dest_data tz_diff c1 eq_refl eq_refl Htz).
  reflexivity.
Qed.

Lemma app_night_as_faa_witness :
  App.estimate_night_time Sample.E 0
    (Sample.june_1_2024 + 12 * usec_per_hour)
    (Sample.june_1_2024 + 14 * usec_per_hour + 30 * usec_per_minute)
    (Shared.safe_float_conversion Sample.E (FLT_HRS Sample.evening_leg_faa))
    (ORG Sample.evening_leg_faa) (DEST Sample.evening_leg_faa)
    Sample.june_1_2024 Sample.no_caches
  = FAA.estimate_night_time Sample.E 0 Sample.evening_leg_faa Sample.no_caches.
Proof.
  apply app_night_as_faa; try (vm_compute; reflexivity).
  intros origin_data dest_data tz_diff c1 [= <-] [= <-].
  vm_compute. intros [= <- <-]. reflexivity.
Defined.

(** ** The search for flights near a failing position *)

Lemma py_min_Fin (a b : Q) :
  exists m, py_min (Fin a) (Fin b) = Fin m /\ (m == Qmin a b)%Q.
Proof.
  unfold py_min. cbn [f_lt]. destruct (Qltb b a) eqn:H.
  - apply Qltb_lt in H. exists b. split; [reflexivity |].
    symmetry. apply Q.min_r. lra.
  - apply Qltb_ge in H. exists a. split; [reflexivity |].
    symmetry. apply Q.min_l. exact H.
Qed.

Lemma py_max_Fin (a b : Q) :
  exists m, py_max (Fin a) (Fin b) = Fin m /\ (m == Qmax a b)%Q.
Proof.
  unfold py_max, f_gt. cbn [f_lt]. destruct (Qltb a b) eqn:H.
  - apply Qltb_lt in H. exists b. split; [reflexivity |].
    symmetry. apply Q.max_r. lra.
  - apply Qltb_ge in H. exists a. split; [reflexivity |].
    symmetry. apply Q.max_l. exact H.
Qed.

(** X20.  For finite coordinates the test of the search is the box spanned by
    the two airports, widened by ten degrees on every side: the branch for
    a route across the 180th meridian is never taken, and the test does not
    depend on the direction of the flight. *)
Theorem near_route_is_a_box (org_lat org_lon dest_lat dest_lon error_lat error_lon : Q) :
  (Finder.near_route (Fin org_lat, Fin org_lon) (Fin dest_lat, Fin dest_lon)
     (Fin error_lat, Fin error_lon) = true
   <-> (Qmin org_lat dest_lat - 10 <= error_lat
        /\ error_lat <= Qmax org_lat dest_lat + 10
        /\ Qmin org_lon dest_lon - 10 <= error_lon
        /\ error_lon <= Qmax org_lon dest_lon + 10)%Q)
  /\ Finder.near_route (Fin org_lat, Fin org_lon) (Fin dest_lat, Fin dest_lon)
       (Fin error_lat, Fin error_lon)
     = Finder.near_route (Fin dest_lat, Fin dest_lon) (Fin org_lat, Fin org_lon)
         (Fin error_lat, Fin error_lon).
Proof.
  assert (forall a b c d e f,
             Finder.near_route (Fin a, Fin b) (Fin c, Fin d) (Fin e, Fin f) = true
             <-> (Qmin a c - 10 <= e /\ e <= Qmax a c + 10
                  /\ Qmin b d - 10 <= f /\ f <= Qmax b d + 10)%Q) as Hbox.
  { intros a b c d e f. unfold Finder.near_route.
    destruct (py_min_Fin a c) as (m1 & -> & H1), (py_max_Fin a c) as (M1 & -> & H2),
             (py_min_Fin b d) as (m2 & -> & H3), (py_max_Fin b d) as (M2 & -> & H4).
    pose proof (Q.le_min_l b d). pose proof (Q.le_max_l b d).
    cbn [f_sub f_add f_neg].
    assert (f_le (Fin m2) (Fin (M2 + 180)) = true) as -> by (apply f_le_Fin; lra).
    rewrite !andb_true_iff, !f_le_Fin. rewrite H1, H2, H3, H4. lra. }
  split; [apply Hbox |].
  apply eq_true_iff_eq. rewrite !Hbox.
  rewrite (Q.min_comm dest_lat org_lat), (Q.max_comm dest_lat org_lat),
          (Q.min_comm dest_lon org_lon), (Q.max_comm dest_lon org_lon).
  reflexivity.
Qed.

(** ** The two sampling loops *)

Lemma same_float_refl (a : pyfloat) : same_float a a.
Proof. destruct a; cbn; [reflexivity | reflexivity | exact I]. Qed.

Lemma f_mul_same (p p' : Q) (x : pyfloat) :
  (p == p')%Q -> same_float (f_mul (Fin p) x) (f_mul (Fin p') x).
Proof.
  intros H. destruct x as [y | n |]; cbn; [rewrite H; reflexivity | | exact I].
  unfold Qltb.
  assert (Qeq_bool p 0 = Qeq_bool p' 0) as -> by (rewrite H; reflexivity).
  assert (Qle_bool 0 p = Qle_bool 0 p') as -> by (rewrite H; reflexivity).
  apply same_float_refl.
Qed.

Lemma f_add_same (a x x' : pyfloat) :
  same_float x x' -> same_float (f_add a x) (f_add a x').
Proof.
  destruct a as [q | n |], x as [y | m |], x' as [y' | m' |]; cbn;
    try contradiction; try discriminate; try (intros; exact I);
    try (intros; reflexivity).
  - intros H. rewrite H. reflexivity.
  - intros ->. reflexivity.
  - intros ->. apply same_float_refl.
Qed.

Lemma round_half_even_Z (q : Q) (z : Z) :
  (q == inject_Z z)%Q -> round_half_even q = z.
Proof.
  intros H. unfold round_half_even.
  rewrite (Qfloor_comp _ _ H), Qfloor_Z.
  assert (q - inject_Z z == 0)%Q as -> by lra.
  reflexivity.
Qed.

Section LoopsAgree.
Context (E : env) (origin_data dest_data : airport_data) (off_time k on_time : Z).
Hypothesis Hsun : sun_extensional E.
Hypothesis Hon : on_time = off_time + k * timedelta_minutes 10.

Lemma segment_is_step (j : Z) :
  0 <= j < k ->
  App.night_segment E origin_data dest_data off_time on_time k j
  = Shared.night_step E origin_data dest_data off_time on_time
      (off_time + j * timedelta_minutes 10).
Proof.
  intros Hj. unfold App.night_segment, Shared.night_step. cbv zeta.
  assert (inject_Z (on_time - off_time) == inject_Z k * 600000000)%Q as Hspan.
  { rewrite Hon. unfold timedelta_minutes, usec_per_minute.
    replace (off_time + k * (10 * 60000000) - off_time) with (k * 600000000) by lia.
    rewrite inject_Z_mult. reflexivity. }
  assert (~ inject_Z k == 0)%Q as Hk0.
  { change 0%Q with (inject_Z 0). rewrite inject_Z_injective. lia. }
  assert (round_half_even (inject_Z (on_time - off_time) * (inject_Z j / inject_Z k))
          = j * timedelta_minutes 10) as ->.
  { apply round_half_even_Z. rewrite Hspan.
    unfold timedelta_minutes, usec_per_minute.
    replace (j * (10 * 60000000)) with (j * 600000000) by lia.
    rewrite inject_Z_mult. change (inject_Z 600000000) with 600000000%Q.
    field. exact Hk0. }
  assert (inject_Z j / inject_Z k
          == inject_Z (off_time + j * timedelta_minutes 10 - off_time)
             / inject_Z (on_time - off_time))%Q as Hratio.
  { rewrite Hspan. unfold timedelta_minutes, usec_per_minute.
    replace (off_time + j * (10 * 60000000) - off_time) with (j * 600000000) by lia.
    rewrite inject_Z_mult. change (inject_Z 600000000) with 600000000%Q.
    field. exact Hk0. }
  rewrite (Hsun _ _ _ _ (date_of (off_time + j * timedelta_minutes 10)) dest_data.1.1.2
             (f_add_same _ _ _ (f_mul_same _ _ _ Hratio))
             (f_add_same _ _ _ (f_mul_same _ _ _ Hratio))).
  reflexivity.
Qed.

Lemma loops_agree_from (n : nat) : forall j acc,
  0 <= j -> j + Z.of_nat n = k ->
  fold_left
    (fun total i =>
       total + App.night_segment E origin_data dest_data off_time on_time k i)
    (seqZ j (Z.of_nat n)) acc
  = Shared.night_loop E origin_data dest_data off_time on_time
      (off_time + j * timedelta_minutes 10) acc.
Proof.
  induction n as [| n IH]; intros j acc Hj Hjn; rewrite night_loop_unfold.
  - rewrite seqZ_nil by lia. cbn [fold_left].
    destruct (Z.ltb_spec (off_time + j * timedelta_minutes 10) on_time) as [Hlt | _];
      [| reflexivity].
    rewrite Hon in Hlt. unfold timedelta_minutes, usec_per_minute in Hlt. lia.
  - rewrite seqZ_cons by lia. cbn [fold_left].
    replace (Z.pred (Z.of_nat (S n))) with (Z.of_nat n) by lia.
    destruct (Z.ltb_spec (off_time + j * timedelta_minutes 10) on_time) as [_ | Hge].
    + rewrite segment_is_step by lia. rewrite IH by lia.
      f_equal. unfold timedelta_minutes. lia.
    + rewrite Hon in Hge. unfold timedelta_minutes, usec_per_minute in Hge. lia.
Qed.

Lemma segments_of_whole : App.segments_of off_time on_time = k.
Proof.
  unfold App.segments_of. rewrite Hon. unfold timedelta_minutes, usec_per_minute.
  replace (off_time + k * (10 * 60000000) - off_time) with (k * (10 * 60 * 1000000))
    by lia.
  apply Z.quot_mul. lia.
Qed.
End LoopsAgree.

(** X21.  On a flight that lasts a whole number of ten-minute steps, the loop
    over segments of the web application credits the night minutes that the
    loop over instants of [format.py] and [format_logbook_aero.py] credits:
    the segments start at the sampled instants. *)
Theorem whole_segments_same_credit (E : env)
  (origin_data dest_data : string * string * pyfloat * pyfloat) (off_time k : Z) :
  sun_extensional E ->
  0 <= k ->
  let on_time := off_time + k * timedelta_minutes 10 in
  App.total_night_minutes E origin_data dest_data off_time on_time
    (App.segments_of off_time on_time)
  = Shared.night_loop E origin_data dest_data off_time on_time off_time 0.
Proof.
  intros Hsun Hk on_time.
  rewrite (segments_of_whole off_time k on_time eq_refl).
  unfold App.total_night_minutes.
  pose proof (loops_agree_from E origin_data dest_data off_time k on_time Hsun eq_refl
                (Z.to_nat k) 0 0 ltac:(lia) ltac:(lia)) as H.
  rewrite Z2Nat.id in H by assumption.
  replace (off_time + 0 * timedelta_minutes 10) with off_time in H by lia.
  exact H.
Qed.

Lemma sample_sun_extensional : sun_extensional Sample.E.
Proof.
  intros lat lat' lon lon' day tz Hlat Hlon. cbn [sun Sample.E]. unfold Sample.sun.
  destruct lat as [la | |], lat' as [la' | |]; cbn in Hlat;
    try contradiction; try discriminate; try reflexivity.
  destruct lon as [lo | |], lon' as [lo' | |]; cbn in Hlon;
    try contradiction; try discriminate; try reflexivity.
  rewrite Hlat.
  assert (Qfloor (lo * 240000000) = Qfloor (lo' * 240000000)) as ->
    by (apply Qfloor_comp; rewrite Hlon; reflexivity).
  reflexivity.
Qed.

Lemma whole_segments_same_credit_witness :
  App.total_night_minutes Sample.E
    ("John F Kennedy International Airport", "America/New_York",
     Fin (406398 # 10000), Fin (- 737789 # 10000))%string
    ("Osaka", "Asia/Tokyo", Fin (344347 # 10000), Fin (1352440 # 10000))%string
    (Sample.june_1_2024 + 2 * usec_per_hour)
    (Sample.june_1_2024 + 2 * usec_per_hour + 78 * timedelta_minutes 10)
    (App.segments_of (Sample.june_1_2024 + 2 * usec_per_hour)
       (Sample.june_1_2024 + 2 * usec_per_hour + 78 * timedelta_minutes 10))
  = Shared.night_loop Sample.E
      ("John F Kennedy International Airport", "America/New_York",
       Fin (406398 # 10000), Fin (- 737789 # 10000))%string
      ("Osaka", "Asia/Tokyo", Fin (344347 # 10000), Fin (1352440 # 10000))%string
      (Sample.june_1_2024 + 2 * usec_per_hour)
      (Sample.june_1_2024 + 2 * usec_per_hour + 78 * timedelta_minutes 10)
      (Sample.june_1_2024 + 2 * usec_per_hour) 0.
Proof.
  apply (whole_segments_same_credit Sample.E _ _ (Sample.june_1_2024 + 2 * usec_per_hour) 78
           sample_sun_extensional).
  lia.
Defined.

(** ** Rows that the web application skips *)

Lemma App_process_landings_ok (E : env) (row : Row) (destination : pyval)
  (off_time on_time : Z) :
  exists landings, App.process_landings E row destination off_time on_time = Ok landings.
Proof.
  unfold App.process_landings.
  destruct (negb (Shared.performed_landing row)); [eauto |].
  unfold try_except, any_exception. cbv zeta.
  destruct (Shared.is_night_time E on_time destination) as [[] | e]; cbn; eauto.
Qed.

Lemma validated_position_known (crew_position position : string) :
  App.validate_crew_position crew_position = Ok position ->
  exists distribution, CREW_POSITION_DISTRIBUTION !! position = Some distribution.
Proof.
  unfold App.validate_crew_position.
  destruct (CREW_POSITION_DISTRIBUTION !! crew_position) as [d |] eqn:Hd.
  - intros [= <-]. eauto.
  - destruct (String.eqb crew_position "auto"); [| discriminate].
    intros [= <-]. eexists. reflexivity.
Qed.

(** X22.  With a position that passed the check, the web application skips a row
    for two reasons only: the origin, the destination or the date is
    missing, or the night-time estimate raises.  Neither the time parser,
    nor the landing classifier, nor the crew-time table makes it drop a
    row. *)
Theorem app_row_skipped_for (E : env) (now local_now : Z)
  (crew_position position : string) (row : Row) (c c' : caches) :
  App.validate_crew_position crew_position = Ok position ->
  App.process_row E now local_now position row c = (Ok None, c') ->
  py_truthy (ORG row) && py_truthy (DEST row) && py_truthy (DEPT_DATE row) = false
  \/ exists off_time on_time date e,
       App.parse_time E now local_now (DEPT_DATE row) (OFF row) = Ok off_time
       /\ App.parse_time E now local_now (DEPT_DATE row) (ON row) = Ok on_time
       /\ App.estimate_night_time E now off_time on_time
            (Shared.safe_float_conversion E (FLT_HRS row)) (ORG row) (DEST row) date c
          = (Raise e, c').
Proof.
  intros Hpos. apply validated_position_known in Hpos as [distribution Hpos].
  unfold App.process_row. cbv zeta.
  destruct (py_truthy (ORG row)), (py_truthy (DEST row)), (py_truthy (DEPT_DATE row));
    cbn [negb orb andb]; auto.
  intros H. right.
  destruct (FAA_parse_time_ok E now
              match DEPT_DATE row with
              | PNone => PStr (strftime E local_now "%m/%d/%Y")
              | _ => DEPT_DATE row
              end (OFF row)) as [off_time Hoff].
  destruct (FAA_parse_time_ok E now
              match DEPT_DATE row with
              | PNone => PStr (strftime E local_now "%m/%d/%Y")
              | _ => DEPT_DATE row
              end (ON row)) as [on_time Hon].
  rewrite <- App_parse_time_FAA in Hoff, Hon.
  rewrite Hoff, Hon in H |- *.
  exists off_time, on_time.
  unfold mbind, M_bind, lift, mret, M_ret in H.
  match type of H with
  | context [App.estimate_night_time E now off_time on_time ?flt ?o ?d ?date c] =>
      exists date; destruct (App.estimate_night_time E now off_time on_time flt o d date c)
        as [[night_time | e] c1] eqn:Hnight
  end.
  - destruct (App_process_landings_ok E row (DEST row) off_time on_time) as [landings Hl].
    rewrite Hl, Hpos in H. cbn in H. discriminate H.
  - exists e. injection H as <-. auto.
Qed.

Lemma app_row_skipped_for_witness :
  exists c',
    py_truthy (ORG Sample.polar_leg) && py_truthy (DEST Sample.polar_leg)
    && py_truthy (DEPT_DATE Sample.polar_leg) = false
    \/ exists off_time on_time date e,
         App.parse_time Sample.E 0 0 (DEPT_DATE Sample.polar_leg) (OFF Sample.polar_leg)
         = Ok off_time
         /\ App.parse_time Sample.E 0 0 (DEPT_DATE Sample.polar_leg) (ON Sample.polar_leg)
            = Ok on_time
         /\ App.estimate_night_time Sample.E 0 off_time on_time
              (Shared.safe_float_conversion Sample.E (FLT_HRS Sample.polar_leg))
              (ORG Sample.polar_leg) (DEST Sample.polar_leg) date Sample.no_caches
            = (Raise e, c').
Proof.
  assert (exists c', App.process_row Sample.E 0 0 "captain" Sample.polar_leg Sample.no_caches
                     = (Ok None, c')) as [c' Hrow]
    by (eexists; vm_compute; reflexivity).
  exists c'.
  apply (app_row_skipped_for Sample.E 0 0 "auto" "captain" Sample.polar_leg
           Sample.no_caches c'); [vm_compute; reflexivity | exact Hrow].
Defined.

(** ** Times of day in the logbook.aero output *)

Lemma contains_app (c : ascii) (a b : string) :
  py_contains c (a +:+ b) = py_contains c a || py_contains c b.
Proof.
  induction a as [| x a IH]; simpl; [reflexivity |].
  rewrite IH. apply orb_assoc.
Qed.

Lemma no_colon_digits (d : Decimal.uint) :
  py_contains ":" (NilEmpty.string_of_uint d) = false.
Proof. induction d; simpl; auto. Qed.

Lemma no_colon_uint (d : Decimal.uint) :
  py_contains ":" (NilZero.string_of_uint d) = false.
Proof. destruct d; try apply no_colon_digits. reflexivity. Qed.

Lemma no_colon_zeros (n : nat) : py_contains ":" (zeros n) = false.
Proof. induction n; simpl; auto. Qed.

Lemma no_colon_02d (z : Z) : py_contains ":" (py_format_02d z) = false.
Proof.
  unfold py_format_02d, py_zfill.
  destruct (Z.to_int z) as [d | d]; cbn [NilZero.string_of_int].
  - pose proof (no_colon_uint d) as Hd.
    destruct (NilZero.string_of_uint d) as [| x s] eqn:Hs; [apply no_colon_zeros |].
    destruct (Ascii.eqb x "+" || Ascii.eqb x "-").
    + cbn [py_contains] in *. apply orb_false_elim in Hd as [Hx Hrest].
      rewrite Hx, contains_app, no_colon_zeros, Hrest. reflexivity.
    + rewrite contains_app, no_colon_zeros, Hd. reflexivity.
  - cbn [Ascii.eqb Bool.eqb orb py_contains].
    rewrite contains_app, no_colon_zeros, no_colon_uint. reflexivity.
Qed.

Lemma split_without_colon (s : string) :
  py_contains ":" s = false -> py_split ":" s = [s].
Proof.
  induction s as [| x s IH]; simpl; [reflexivity |].
  intros H. apply orb_false_elim in H as [Hx Hs].
  rewrite Hx, (IH Hs). reflexivity.
Qed.

Lemma split_at_colon (a b : string) :
  py_contains ":" a = false ->
  py_split ":" (a +:+ ":" +:+ b) = a :: py_split ":" b.
Proof.
  induction a as [| x a IH]; simpl; [reflexivity |].
  intros H. apply orb_false_elim in H as [Hx Ha].
  rewrite Hx, (IH Ha). reflexivity.
Qed.

Lemma with_colon_not_blank (s : string) :
  py_contains ":" s = true ->
  String.eqb s "" = false /\ String.eqb s "." = false.
Proof.
  destruct s as [| x [| y s]]; cbn; [discriminate | | auto].
  - rewrite orb_false_r. intros Hx. split; [reflexivity |].
    destruct (Ascii.eqb_spec x "."); [subst; discriminate | reflexivity].
  - intros _. split; [reflexivity |]. destruct (Ascii.eqb x "."); reflexivity.
Qed.

Section TimeOfDayFacts.
Context (E : env).

(** The three forms of a formatted time. *)
Lemma format_time_hhmm_forms (s : string) :
  Aero.format_time_hhmm E (PStr s) = ""%string
  \/ Aero.format_time_hhmm E (PStr s) = s
  \/ exists t1 t2 hour minute,
       py_int_of_str E t1 = Some hour
       /\ py_int_of_str E t2 = Some minute
       /\ Aero.format_time_hhmm E (PStr s)
          = py_format_02d hour +:+ ":" +:+ py_format_02d minute.
Proof.
  unfold Aero.format_time_hhmm.
  destruct (negb (py_truthy (PStr s)) || py_eq_str (PStr s) "."); [auto |].
  cbn [Shared.py_str].
  destruct (py_contains ":" s); [| auto].
  cbv zeta. unfold Aero.py_int, of_option, mbind, res_bind.
  destruct (py_split ":" s !! 0%nat) as [t1 |]; [| auto].
  destruct (py_int_of_str E t1) as [hour |] eqn:H1; [| auto].
  destruct (py_split ":" s !! 1%nat) as [t2 |]; [| auto].
  destruct (py_int_of_str E t2) as [minute |] eqn:H2; [| auto].
  right. right. exists t1, t2, hour, minute. auto.
Qed.

Lemma format_time_hhmm_canonical (hour minute : Z) :
  py_int_of_str E (py_format_02d hour) = Some hour ->
  py_int_of_str E (py_format_02d minute) = Some minute ->
  Aero.format_time_hhmm E (PStr (py_format_02d hour +:+ ":" +:+ py_format_02d minute))
  = py_format_02d hour +:+ ":" +:+ py_format_02d minute.
Proof.
  intros Hh Hm. unfold Aero.format_time_hhmm. cbn [Shared.py_str py_truthy py_eq_str].
  assert (py_contains ":" (py_format_02d hour +:+ ":" +:+ py_format_02d minute) = true)
    as Hc by (rewrite contains_app; cbn; apply orb_true_r).
  destruct (with_colon_not_blank _ Hc) as [-> ->]. cbn [negb orb].
  rewrite Hc. cbv zeta.
  rewrite (split_at_colon _ _ (no_colon_02d hour)),
          (split_without_colon _ (no_colon_02d minute)).
  cbn [lookup list_lookup of_option]. unfold Aero.py_int, mbind, res_bind.
  rewrite Hh, Hm. reflexivity.
Qed.
End TimeOfDayFacts.

(** X23.  Formatting a time of day a second time changes nothing, provided the
    library's [int] reads what the format [02d] writes for every number it
    returns. *)
Theorem format_time_hhmm_idempotent (E : env) (s : string) :
  (forall t z, py_int_of_str E t = Some z ->
               py_int_of_str E (py_format_02d z) = Some z) ->
  Aero.format_time_hhmm E (PStr (Aero.format_time_hhmm E (PStr s)))
  = Aero.format_time_hhmm E (PStr s).
Proof.
  intros Hint.
  destruct (format_time_hhmm_forms E s)
    as [H | [H | (t1 & t2 & hour & minute & H1 & H2 & H)]].
  - rewrite H. reflexivity.
  - rewrite H. exact H.
  - rewrite H. apply format_time_hhmm_canonical; eauto.
Qed.

Lemma sample_int_reads_back (t : string) (z : Z) :
  py_int_of_str Sample.E t = Some z ->
  py_int_of_str Sample.E (py_format_02d z) = Some z.
Proof.
  cbn [py_int_of_str Sample.E]. intros Ht.
  assert (0 <= z < 100) as Hz.
  { unfold Sample.py_int_of_str in Ht.
    destruct t as [| a [| b [| ? ?]]]; try discriminate.
    unfold Sample.two_digits, Sample.digit, mbind, option_bind in Ht.
    destruct (_ && _)%nat eqn:Ha; [| discriminate].
    destruct ((48 <=? nat_of_ascii b)%nat && (nat_of_ascii b <=? 57)%nat) eqn:Hb;
      [| discriminate].
    injection Ht as <-.
    apply andb_true_iff in Ha as [Ha1 Ha2], Hb as [Hb1 Hb2].
    apply Nat.leb_le in Ha1, Ha2, Hb1, Hb2. lia. }
  assert (forallb
            (fun n => match Sample.py_int_of_str (py_format_02d (Z.of_nat n)) with
                      | Some z' => z' =? Z.of_nat n
                      | None => false
                      end)
            (seq 0 100) = true) as Hall by (vm_compute; reflexivity).
  rewrite forallb_forall in Hall.
  specialize (Hall (Z.to_nat z)). rewrite Z2Nat.id in Hall by lia.
  destruct (Sample.py_int_of_str (py_format_02d z)) as [z' |].
  - f_equal. apply Z.eqb_eq. apply Hall. apply in_seq. lia.
  - discriminate Hall. apply in_seq. lia.
Qed.

Lemma format_time_hhmm_idempotent_witness :
  Aero.format_time_hhmm Sample.E (PStr (Aero.format_time_hhmm Sample.E (PStr "14:30")))
  = Aero.format_time_hhmm Sample.E (PStr "14:30").
Proof.
  apply (format_time_hhmm_idempotent Sample.E "14:30" sample_int_reads_back).
Defined.

(** ** Uploaded file names *)

Lemma rsplit_last_spec (s last : string) :
  py_rsplit_last "." s = Some last ->
  exists base, s = base +:+ "." +:+ last.
Proof.
  revert last. induction s as [| x s IH]; simpl; [discriminate |].
  intros last. destruct (py_rsplit_last "." s) as [t |].
  - intros [= <-]. destruct (IH t eq_refl) as [base ->].
    exists (String x base). reflexivity.
  - destruct (Ascii.eqb_spec x "."); [| discriminate].
    intros [= <-]. subst x. exists ""%string. reflexivity.
Qed.

Lemma rsplit_last_none (s : string) :
  py_contains "." s = false -> py_rsplit_last "." s = None.
Proof.
  induction s as [| x s IH]; simpl; [reflexivity |].
  intros H. apply orb_false_elim in H as [Hx Hs].
  rewrite (IH Hs), Hx. reflexivity.
Qed.

Lemma rsplit_last_app (base last : string) :
  py_contains "." last = false ->
  py_rsplit_last "." (base +:+ "." +:+ last) = Some last.
Proof.
  intros Hlast. induction base as [| x base IH].
  - change (py_rsplit_last "." (String "." last) = Some last).
    simpl. rewrite (rsplit_last_none _ Hlast). reflexivity.
  - change (py_rsplit_last "." (String x (base +:+ "." +:+ last)) = Some last).
    simpl. rewrite IH. reflexivity.
Qed.

Lemma lower_csv_no_dot (extension : string) :
  py_lower extension = "csv"%string -> py_contains "." extension = false.
Proof.
  destruct extension as [| a [| b [| c [| ? ?]]]]; simpl; try discriminate.
  intros [= Ha Hb Hc].
  destruct (Ascii.eqb_spec a "."); [subst; discriminate |].
  destruct (Ascii.eqb_spec b "."); [subst; discriminate |].
  destruct (Ascii.eqb_spec c "."); [subst; discriminate |].
  reflexivity.
Qed.

(** X24.  The web application accepts a file name exactly when it ends in a dot
    followed by "csv" in any letter case. *)
Theorem allowed_file_is_csv (filename : string) :
  App.allowed_file filename = true
  <-> exists base extension,
        filename = base +:+ "." +:+ extension
        /\ py_lower extension = "csv"%string.
Proof.
  unfold App.allowed_file, App.ALLOWED_EXTENSIONS, str_in. split.
  - intros H. apply andb_true_iff in H as [_ H].
    destruct (py_rsplit_last "." filename) as [extension |] eqn:Hlast; [| discriminate].
    destruct (rsplit_last_spec _ _ Hlast) as [base ->].
    exists base, extension. split; [reflexivity |].
    simpl in H. rewrite orb_false_r in H. apply String.eqb_eq in H. exact H.
  - intros (base & extension & -> & Hext).
    rewrite (rsplit_last_app _ _ (lower_csv_no_dot _ Hext)), Hext.
    rewrite contains_app. simpl. rewrite orb_true_r. reflexivity.
Qed.
